(** * blend_dtm: terrain generation script, embedded and verified

    A shallow embedding of [tools/terrain/blend_dtm.py].  The script drives
    the Blender Python API ([bpy]) and two external programs (a Python
    interpreter running GDAL, and [gdaldem]).  The embedding has three layers:

    - [Python values]: the integers, IEEE-754 binary64 floats, strings and
      lists the script computes with, with the exceptions the operations
      raise;
    - [the host]: the part of [bpy]'s data the script reads and writes, as an
      explicit store of data-blocks addressed by position, so that two
      references to one block alias;
    - [the script]: every function of the source, in source order, in a
      state-and-exception monad over the host and the process state. *)

From Stdlib Require Import ZArith Lia Ascii String Floats.SpecFloat.
From stdpp Require Import base list strings gmap pretty.

Open Scope Z_scope.

(** ** Python values *)

(** Exceptions derived from [Exception] that the modelled operations raise.
    Interrupts ([KeyboardInterrupt], [SystemExit]) are outside the model. *)
Inductive exn : Type :=
  | ValueError | IndexError | TypeError | AttributeError
  | OverflowError | ZeroDivisionError | RuntimeError | ReferenceError
  | OSError.

Inductive result (A : Type) : Type :=
  | Ok (a : A)
  | Raise (e : exn).
Arguments Ok {A} a.
Arguments Raise {A} e.

(** Python's [float] is binary64: 53 bits of precision, exponents below 1024. *)
Definition prec : Z := 53.
Definition emax : Z := 1024.

Definition fmul : spec_float -> spec_float -> spec_float := SFmul prec emax.
Definition fdiv : spec_float -> spec_float -> spec_float := SFdiv prec emax.

(** A Python number: [int] is unbounded, [float] is binary64. *)
Inductive pynum : Type :=
  | PyInt (n : Z)
  | PyFloat (x : spec_float).

(** [float(n)] for an [int]: the nearest double, ties to even;
    [OverflowError] when [n] is too large to convert. *)
Definition float_of_int (n : Z) : result spec_float :=
  match binary_normalize prec emax n 0 false with
  | S754_infinity _ => Raise OverflowError
  | x => Ok x
  end.

(** An integer as an exact, not normalised, mantissa with exponent 0. *)
Definition exact_of_int (n : Z) : spec_float :=
  match n with
  | Z0 => S754_zero false
  | Zpos p => S754_finite false p 0
  | Zneg p => S754_finite true p 0
  end.

Definition is_zero (x : spec_float) : bool :=
  match x with S754_zero _ => true | _ => false end.

Definition is_finite (x : spec_float) : bool :=
  match x with S754_zero _ | S754_finite _ _ _ => true | _ => false end.

(** [abs(x)] *)
Definition py_abs (x : pynum) : pynum :=
  match x with
  | PyInt n => PyInt (Z.abs n)
  | PyFloat f => PyFloat (SFabs f)
  end.

(** [x * y]: an [int] operand is converted when the other is a [float]. *)
Definition py_mul (x y : pynum) : result pynum :=
  match x, y with
  | PyInt a, PyInt b => Ok (PyInt (a * b))
  | PyInt a, PyFloat g =>
      match float_of_int a with
      | Ok f => Ok (PyFloat (fmul f g))
      | Raise e => Raise e
      end
  | PyFloat f, PyInt b =>
      match float_of_int b with
      | Ok g => Ok (PyFloat (fmul f g))
      | Raise e => Raise e
      end
  | PyFloat f, PyFloat g => Ok (PyFloat (fmul f g))
  end.

(** Division of two floats: [ZeroDivisionError] on a zero divisor. *)
Definition float_truediv (f g : spec_float) : result pynum :=
  if is_zero g then Raise ZeroDivisionError else Ok (PyFloat (fdiv f g)).

(** [x / y] (true division).  [int / int] is the correctly rounded quotient
    of the two integers, [OverflowError] when it is too large for a float. *)
Definition py_truediv (x y : pynum) : result pynum :=
  match x, y with
  | PyInt a, PyInt b =>
      if Z.eqb b 0 then Raise ZeroDivisionError
      else match fdiv (exact_of_int a) (exact_of_int b) with
           | S754_infinity _ => Raise OverflowError
           | q => Ok (PyFloat q)
           end
  | PyInt a, PyFloat g =>
      match float_of_int a with
      | Ok f => float_truediv f g
      | Raise e => Raise e
      end
  | PyFloat f, PyInt b =>
      match float_of_int b with
      | Ok g => float_truediv f g
      | Raise e => Raise e
      end
  | PyFloat f, PyFloat g => float_truediv f g
  end.

(** The value of a finite float's mantissa with its sign. *)
Definition signed (s : bool) (m : positive) : Z :=
  if s then Zneg m else Zpos m.

(** Comparison of an [int] with a [float]: exact, the [int] is not rounded. *)
Definition compare_int_float (n : Z) (x : spec_float) : option comparison :=
  match x with
  | S754_nan => None
  | S754_infinity s => Some (if s then Gt else Lt)
  | S754_zero _ => Some (n ?= 0)
  | S754_finite s m e =>
      Some (if 0 <=? e then n ?= signed s m * 2 ^ e
            else n * 2 ^ (- e) ?= signed s m)
  end.

Definition py_compare (x y : pynum) : option comparison :=
  match x, y with
  | PyInt a, PyInt b => Some (a ?= b)
  | PyInt a, PyFloat g => compare_int_float a g
  | PyFloat f, PyInt b => option_map CompOpp (compare_int_float b f)
  | PyFloat f, PyFloat g => SFcompare f g
  end.

(** [x > y], [x <= y], [x == y]; all false when an operand is NaN. *)
Definition py_gt (x y : pynum) : bool :=
  match py_compare x y with Some Gt => true | _ => false end.

Definition py_le (x y : pynum) : bool :=
  match py_compare x y with Some (Lt | Eq) => true | _ => false end.

Definition py_eq (x y : pynum) : bool :=
  match py_compare x y with Some Eq => true | _ => false end.

(** [max(x, y)]: the first argument unless the second is greater. *)
Definition py_max (x y : pynum) : pynum :=
  if py_gt y x then y else x.

(** [l[i]] for a non-negative index. *)
Definition py_getitem {A : Type} (l : list A) (i : nat) : result A :=
  match l !! i with
  | Some a => Ok a
  | None => Raise IndexError
  end.

(** [l.index(x)]: the position of the first occurrence. *)
Fixpoint py_index (x : string) (l : list string) : result nat :=
  match l with
  | [] => Raise ValueError
  | y :: l' =>
      if bool_decide (y = x) then Ok O
      else match py_index x l' with
           | Ok i => Ok (S i)
           | Raise e => Raise e
           end
  end.

(** [s[1:-1]]: the string without its first and last character. *)
Definition strip_ends (s : string) : string :=
  substring 1 (String.length s - 2) s.

(** [s.split(sep)] for a non-empty separator, scanning left to right.
    [skip] counts the characters of a separator just matched that are still
    to be passed over; [acc] is the piece being read. *)
Fixpoint split_from (sep : string) (skip : nat) (acc s : string) : list string :=
  match s with
  | EmptyString => [acc]
  | String c s' =>
      match skip with
      | S k => split_from sep k acc s'
      | O =>
          if String.prefix sep s
          then acc :: split_from sep (String.length sep - 1) EmptyString s'
          else split_from sep O (acc +:+ String c EmptyString) s'
      end
  end.

Definition py_split (sep s : string) : list string :=
  split_from sep O EmptyString s.

(** [sep.join(l)] *)
Fixpoint py_join (sep : string) (l : list string) : string :=
  match l with
  | [] => EmptyString
  | [x] => x
  | x :: l' => x +:+ sep +:+ py_join sep l'
  end.

(** The double nearest to the decimal literal [n / 10^d], as the Python
    reader rounds it (e.g. [decimal 5 1] is [0.5]). *)
Definition decimal (n : Z) (d : Z) : spec_float :=
  fdiv (exact_of_int n) (exact_of_int (10 ^ d)).

(** ** The host: the data-blocks of [bpy] the script touches

    A data-block collection ([bpy.data.images], ...) is stored as a list in
    creation order, and a reference to a block is its position there: the
    script removes no image, texture or material, so a position names one
    block for good, also when the block is renamed.  The host itself lists
    a collection by the names of its blocks, which it keeps unique: what
    [coll[-1]] designates is the block listed last ([last_named] below), not
    the block created last.  Fresh blocks carry the host's defaults. *)

Definition vec3 : Type := pynum * pynum * pynum.

Record Image : Type := {
  img_name : string;
  img_filepath : string;
  img_size : Z * Z;                 (* size[0] = width, size[1] = height *)
  colorspace_name : string          (* colorspace_settings.name *)
}.

Record Texture : Type := {
  tex_name : string;
  tex_type : string;
  tex_image : option nat;           (* reference into bpy.data.images *)
  use_normal_map : bool
}.

Record TextureSlot : Type := {
  slot_texture : nat;               (* reference into bpy.data.textures *)
  use_map_color_diffuse : bool;
  use_map_normal : bool;
  normal_factor : pynum
}.

(** A material has [MAX_MTEX] texture slots and as many [use_textures]
    flags, all on in a fresh material. *)
Definition MAX_MTEX : nat := 18.

Record Material : Type := {
  mat_name : string;
  specular_intensity : pynum;
  active_texture_index : nat;
  texture_slots : list (option TextureSlot);
  use_textures : list bool;
  use_shadeless : bool;
  diffuse_color : vec3
}.

(** A modifier of an object's stack. *)
Inductive Modifier : Type :=
  | Displace (texture : option nat) (strength : pynum) (direction : string)
  | Decimate (show_viewport : bool) (ratio : pynum).

Inductive ObjectKind : Type := PlaneMesh | CubeMesh | SunLamp.

(** [obj_name] is the name the script asked for: the host may add a suffix
    to keep the names of its objects unique, and the script never reads the
    name of an object back. *)
Record Object : Type := {
  obj_name : string;
  obj_kind : ObjectKind;
  obj_location : vec3;
  obj_scale : vec3;
  obj_select : bool;
  obj_material : option nat;        (* active_material, into bpy.data.materials *)
  obj_modifiers : list Modifier;    (* the stack, not applied *)
  obj_applied : list Modifier;      (* modifiers applied to the mesh, in order *)
  obj_cuts : list pynum             (* number_cuts of each subdivide, as passed *)
}.

Record Space : Type := {
  space_type : string;
  viewport_shade : string;
  clip_end : pynum
}.

Record Area : Type := {
  area_type : string;
  spaces : list Space
}.

Record Scene : Type := {
  render_engine : string;
  material_mode : string;
  unit_system : string;
  frame_type : string;
  horizon_color : vec3;
  show_framerate_profile : bool
}.

Record Blender : Type := {
  images : list Image;
  textures : list Texture;
  materials : list Material;
  objects : list Object;
  active_object : option nat;       (* bpy.context.object *)
  mode : string;
  areas : list Area;                (* bpy.context.window.screen.areas *)
  scene : Scene;
  packed : bool;                    (* bpy.ops.file.pack_all was run *)
  saved : list (string * bool * bool);  (* save_mainfile calls *)
  data_filepath : string            (* bpy.data.filepath *)
}.

(** The files the host can open as images, by path, with the pixel
    dimensions it reports for them. *)
Abbreviation Disk := (gmap string (Z * Z)).

(** The state of the process: the host, the disk, and what the script wrote. *)
Record State : Type := {
  bpy : Blender;
  disk : Disk;
  sys_path : list string;
  stdout : list string;
  stderr : list string;
  commands : list string            (* shell commands run, oldest first *)
}.

(** *** Field updates *)

Definition set_images (v : list Image) (b : Blender) : Blender :=
  {| images := v; textures := textures b; materials := materials b;
     objects := objects b; active_object := active_object b; mode := mode b;
     areas := areas b; scene := scene b; packed := packed b;
     saved := saved b; data_filepath := data_filepath b |}.

Definition set_textures (v : list Texture) (b : Blender) : Blender :=
  {| images := images b; textures := v; materials := materials b;
     objects := objects b; active_object := active_object b; mode := mode b;
     areas := areas b; scene := scene b; packed := packed b;
     saved := saved b; data_filepath := data_filepath b |}.

Definition set_materials (v : list Material) (b : Blender) : Blender :=
  {| images := images b; textures := textures b; materials := v;
     objects := objects b; active_object := active_object b; mode := mode b;
     areas := areas b; scene := scene b; packed := packed b;
     saved := saved b; data_filepath := data_filepath b |}.

Definition set_objects (v : list Object) (b : Blender) : Blender :=
  {| images := images b; textures := textures b; materials := materials b;
     objects := v; active_object := active_object b; mode := mode b;
     areas := areas b; scene := scene b; packed := packed b;
     saved := saved b; data_filepath := data_filepath b |}.

Definition set_active_object (v : option nat) (b : Blender) : Blender :=
  {| images := images b; textures := textures b; materials := materials b;
     objects := objects b; active_object := v; mode := mode b;
     areas := areas b; scene := scene b; packed := packed b;
     saved := saved b; data_filepath := data_filepath b |}.

Definition set_mode (v : string) (b : Blender) : Blender :=
  {| images := images b; textures := textures b; materials := materials b;
     objects := objects b; active_object := active_object b; mode := v;
     areas := areas b; scene := scene b; packed := packed b;
     saved := saved b; data_filepath := data_filepath b |}.

Definition set_areas (v : list Area) (b : Blender) : Blender :=
  {| images := images b; textures := textures b; materials := materials b;
     objects := objects b; active_object := active_object b; mode := mode b;
     areas := v; scene := scene b; packed := packed b;
     saved := saved b; data_filepath := data_filepath b |}.

Definition set_scene (v : Scene) (b : Blender) : Blender :=
  {| images := images b; textures := textures b; materials := materials b;
     objects := objects b; active_object := active_object b; mode := mode b;
     areas := areas b; scene := v; packed := packed b;
     saved := saved b; data_filepath := data_filepath b |}.

Definition with_render_engine (v : string) (sc : Scene) : Scene :=
  {| render_engine := v; material_mode := material_mode sc;
     unit_system := unit_system sc; frame_type := frame_type sc;
     horizon_color := horizon_color sc;
     show_framerate_profile := show_framerate_profile sc |}.

Definition with_material_mode (v : string) (sc : Scene) : Scene :=
  {| render_engine := render_engine sc; material_mode := v;
     unit_system := unit_system sc; frame_type := frame_type sc;
     horizon_color := horizon_color sc;
     show_framerate_profile := show_framerate_profile sc |}.

Definition with_unit_system (v : string) (sc : Scene) : Scene :=
  {| render_engine := render_engine sc; material_mode := material_mode sc;
     unit_system := v; frame_type := frame_type sc;
     horizon_color := horizon_color sc;
     show_framerate_profile := show_framerate_profile sc |}.

Definition with_frame_type (v : string) (sc : Scene) : Scene :=
  {| render_engine := render_engine sc; material_mode := material_mode sc;
     unit_system := unit_system sc; frame_type := v;
     horizon_color := horizon_color sc;
     show_framerate_profile := show_framerate_profile sc |}.

Definition with_horizon_color (v : vec3) (sc : Scene) : Scene :=
  {| render_engine := render_engine sc; material_mode := material_mode sc;
     unit_system := unit_system sc; frame_type := frame_type sc;
     horizon_color := v;
     show_framerate_profile := show_framerate_profile sc |}.

Definition with_show_framerate_profile (v : bool) (sc : Scene) : Scene :=
  {| render_engine := render_engine sc; material_mode := material_mode sc;
     unit_system := unit_system sc; frame_type := frame_type sc;
     horizon_color := horizon_color sc;
     show_framerate_profile := v |}.

Definition set_packed (v : bool) (b : Blender) : Blender :=
  {| images := images b; textures := textures b; materials := materials b;
     objects := objects b; active_object := active_object b; mode := mode b;
     areas := areas b; scene := scene b; packed := v;
     saved := saved b; data_filepath := data_filepath b |}.

Definition set_saved (v : list (string * bool * bool)) (p : string)
    (b : Blender) : Blender :=
  {| images := images b; textures := textures b; materials := materials b;
     objects := objects b; active_object := active_object b; mode := mode b;
     areas := areas b; scene := scene b; packed := packed b;
     saved := v; data_filepath := p |}.

Definition set_bpy (v : Blender) (s : State) : State :=
  {| bpy := v; disk := disk s; sys_path := sys_path s; stdout := stdout s;
     stderr := stderr s; commands := commands s |}.

Definition set_disk (v : Disk) (s : State) : State :=
  {| bpy := bpy s; disk := v; sys_path := sys_path s; stdout := stdout s;
     stderr := stderr s; commands := commands s |}.

Definition set_sys_path (v : list string) (s : State) : State :=
  {| bpy := bpy s; disk := disk s; sys_path := v; stdout := stdout s;
     stderr := stderr s; commands := commands s |}.

Definition set_stdout (v : list string) (s : State) : State :=
  {| bpy := bpy s; disk := disk s; sys_path := sys_path s; stdout := v;
     stderr := stderr s; commands := commands s |}.

Definition set_stderr (v : list string) (s : State) : State :=
  {| bpy := bpy s; disk := disk s; sys_path := sys_path s; stdout := stdout s;
     stderr := v; commands := commands s |}.

Definition set_commands (v : list string) (s : State) : State :=
  {| bpy := bpy s; disk := disk s; sys_path := sys_path s; stdout := stdout s;
     stderr := stderr s; commands := v |}.

(** ** The state-and-exception monad

    A raised exception keeps the state reached so far, as in Python. *)

Definition M (A : Type) : Type := State -> result A * State.

Definition ret {A : Type} (a : A) : M A := fun s => (Ok a, s).

Definition raise {A : Type} (e : exn) : M A := fun s => (Raise e, s).

Definition lift {A : Type} (r : result A) : M A := fun s => (r, s).

Definition bind {A B : Type} (m : M A) (k : A -> M B) : M B :=
  fun s =>
    match m s with
    | (Ok a, s') => k a s'
    | (Raise e, s') => (Raise e, s')
    end.

(** [try: m except Exception: h] *)
Definition try_except {A : Type} (m : M A) (h : exn -> M A) : M A :=
  fun s =>
    match m s with
    | (Ok a, s') => (Ok a, s')
    | (Raise e, s') => h e s'
    end.

Notation "'let!' x ':=' m 'in' k" := (bind m (fun x => k))
  (at level 10, x name, m at level 100, k at level 200).
Notation "'do!' m 'in' k" := (bind m (fun _ => k))
  (at level 10, m at level 100, k at level 200).

Definition get_bpy : M Blender := fun s => (Ok (bpy s), s).

Definition put_bpy (b : Blender) : M unit := fun s => (Ok tt, set_bpy b s).

Definition modify_bpy (f : Blender -> Blender) : M unit :=
  fun s => (Ok tt, set_bpy (f (bpy s)) s).

(** An attribute assignment below [bpy.context.scene]. *)
Definition update_scene (f : Scene -> Scene) : M unit :=
  modify_bpy (fun b => set_scene (f (scene b)) b).

(** [print(line)] and [sys.stderr.write(text)] *)
Definition print (line : string) : M unit :=
  fun s => (Ok tt, set_stdout (stdout s ++ [line]) s).

Definition stderr_write (text : string) : M unit :=
  fun s => (Ok tt, set_stderr (stderr s ++ [text]) s).

(** Reading and writing through a reference to a data-block. *)
Definition deref {A : Type} (l : list A) (i : nat) : result A :=
  match l !! i with
  | Some a => Ok a
  | None => Raise ReferenceError
  end.

Definition assign {A : Type} (l : list A) (i : nat) (f : A -> A)
    : result (list A) :=
  match l !! i with
  | Some a => Ok (<[i := f a]> l)
  | None => Raise ReferenceError
  end.

Definition get_image (i : nat) : M Image :=
  let! b := get_bpy in lift (deref (images b) i).

Definition update_image (i : nat) (f : Image -> Image) : M unit :=
  let! b := get_bpy in
  let! l := lift (assign (images b) i f) in
  put_bpy (set_images l b).

Definition update_texture (i : nat) (f : Texture -> Texture) : M unit :=
  let! b := get_bpy in
  let! l := lift (assign (textures b) i f) in
  put_bpy (set_textures l b).

Definition get_material (i : nat) : M Material :=
  let! b := get_bpy in lift (deref (materials b) i).

Definition update_material (i : nat) (f : Material -> Material) : M unit :=
  let! b := get_bpy in
  let! l := lift (assign (materials b) i f) in
  put_bpy (set_materials l b).

Definition update_object (i : nat) (f : Object -> Object) : M unit :=
  let! b := get_bpy in
  let! l := lift (assign (objects b) i f) in
  put_bpy (set_objects l b).

(** [bpy.context.object]; an attribute access on [None] raises. *)
Definition context_object : M nat :=
  let! b := get_bpy in
  match active_object b with
  | Some i => ret i
  | None => raise AttributeError
  end.

(** *** Field assignments on blocks *)

Definition with_colorspace (v : string) (i : Image) : Image :=
  {| img_name := img_name i; img_filepath := img_filepath i;
     img_size := img_size i; colorspace_name := v |}.

Definition with_tex_name (v : string) (t : Texture) : Texture :=
  {| tex_name := v; tex_type := tex_type t; tex_image := tex_image t;
     use_normal_map := use_normal_map t |}.

Definition with_tex_type (v : string) (t : Texture) : Texture :=
  {| tex_name := tex_name t; tex_type := v; tex_image := tex_image t;
     use_normal_map := use_normal_map t |}.

Definition with_tex_image (v : nat) (t : Texture) : Texture :=
  {| tex_name := tex_name t; tex_type := tex_type t; tex_image := Some v;
     use_normal_map := use_normal_map t |}.

Definition with_use_normal_map (v : bool) (t : Texture) : Texture :=
  {| tex_name := tex_name t; tex_type := tex_type t; tex_image := tex_image t;
     use_normal_map := v |}.

Definition with_slots (v : list (option TextureSlot)) (m : Material) : Material :=
  {| mat_name := mat_name m; specular_intensity := specular_intensity m;
     active_texture_index := active_texture_index m; texture_slots := v;
     use_textures := use_textures m; use_shadeless := use_shadeless m;
     diffuse_color := diffuse_color m |}.

Definition with_use_textures (v : list bool) (m : Material) : Material :=
  {| mat_name := mat_name m; specular_intensity := specular_intensity m;
     active_texture_index := active_texture_index m;
     texture_slots := texture_slots m; use_textures := v;
     use_shadeless := use_shadeless m; diffuse_color := diffuse_color m |}.

(** The host keeps the index inside the slots. *)
Definition with_active_texture_index (v : nat) (m : Material) : Material :=
  {| mat_name := mat_name m; specular_intensity := specular_intensity m;
     active_texture_index := Nat.min v (MAX_MTEX - 1);
     texture_slots := texture_slots m; use_textures := use_textures m;
     use_shadeless := use_shadeless m; diffuse_color := diffuse_color m |}.

Definition with_specular_intensity (v : pynum) (m : Material) : Material :=
  {| mat_name := mat_name m; specular_intensity := v;
     active_texture_index := active_texture_index m;
     texture_slots := texture_slots m; use_textures := use_textures m;
     use_shadeless := use_shadeless m; diffuse_color := diffuse_color m |}.

Definition with_mat_name (v : string) (m : Material) : Material :=
  {| mat_name := v; specular_intensity := specular_intensity m;
     active_texture_index := active_texture_index m;
     texture_slots := texture_slots m; use_textures := use_textures m;
     use_shadeless := use_shadeless m; diffuse_color := diffuse_color m |}.

Definition with_use_shadeless (v : bool) (m : Material) : Material :=
  {| mat_name := mat_name m; specular_intensity := specular_intensity m;
     active_texture_index := active_texture_index m;
     texture_slots := texture_slots m; use_textures := use_textures m;
     use_shadeless := v; diffuse_color := diffuse_color m |}.

Definition with_diffuse_color (v : vec3) (m : Material) : Material :=
  {| mat_name := mat_name m; specular_intensity := specular_intensity m;
     active_texture_index := active_texture_index m;
     texture_slots := texture_slots m; use_textures := use_textures m;
     use_shadeless := use_shadeless m; diffuse_color := v |}.

Definition with_obj_name (v : string) (o : Object) : Object :=
  {| obj_name := v; obj_kind := obj_kind o; obj_location := obj_location o;
     obj_scale := obj_scale o; obj_select := obj_select o;
     obj_material := obj_material o; obj_modifiers := obj_modifiers o;
     obj_applied := obj_applied o; obj_cuts := obj_cuts o |}.

Definition with_obj_scale (v : vec3) (o : Object) : Object :=
  {| obj_name := obj_name o; obj_kind := obj_kind o;
     obj_location := obj_location o; obj_scale := v;
     obj_select := obj_select o; obj_material := obj_material o;
     obj_modifiers := obj_modifiers o; obj_applied := obj_applied o;
     obj_cuts := obj_cuts o |}.

Definition with_obj_select (v : bool) (o : Object) : Object :=
  {| obj_name := obj_name o; obj_kind := obj_kind o;
     obj_location := obj_location o; obj_scale := obj_scale o;
     obj_select := v; obj_material := obj_material o;
     obj_modifiers := obj_modifiers o; obj_applied := obj_applied o;
     obj_cuts := obj_cuts o |}.

Definition with_obj_material (v : nat) (o : Object) : Object :=
  {| obj_name := obj_name o; obj_kind := obj_kind o;
     obj_location := obj_location o; obj_scale := obj_scale o;
     obj_select := obj_select o; obj_material := Some v;
     obj_modifiers := obj_modifiers o; obj_applied := obj_applied o;
     obj_cuts := obj_cuts o |}.

Definition with_obj_modifiers (v : list Modifier) (o : Object) : Object :=
  {| obj_name := obj_name o; obj_kind := obj_kind o;
     obj_location := obj_location o; obj_scale := obj_scale o;
     obj_select := obj_select o; obj_material := obj_material o;
     obj_modifiers := v; obj_applied := obj_applied o;
     obj_cuts := obj_cuts o |}.

Definition with_obj_applied (v : list Modifier) (o : Object) : Object :=
  {| obj_name := obj_name o; obj_kind := obj_kind o;
     obj_location := obj_location o; obj_scale := obj_scale o;
     obj_select := obj_select o; obj_material := obj_material o;
     obj_modifiers := obj_modifiers o; obj_applied := v;
     obj_cuts := obj_cuts o |}.

Definition with_obj_cuts (v : list pynum) (o : Object) : Object :=
  {| obj_name := obj_name o; obj_kind := obj_kind o;
     obj_location := obj_location o; obj_scale := obj_scale o;
     obj_select := obj_select o; obj_material := obj_material o;
     obj_modifiers := obj_modifiers o; obj_applied := obj_applied o;
     obj_cuts := v |}.

(** *** Names and the listing order

    How the host orders names, how it makes a name unique and how it names
    an image after its file are the host's own: they are parameters. *)

Class Host : Type := {
  (** [name_before a b]: the host lists a block named [a] before a block
      named [b] of the same collection. *)
  name_before : string -> string -> bool;
  (** The name the host gives a block that asks for the name [name] in a
      collection whose other blocks are named [names]. *)
  unique_name : list string -> string -> string;
  (** The name an image asks for when it is loaded from a file. *)
  image_name : string -> string
}.

(** [newest names n]: a block named [n] is listed after blocks of these
    names. *)
Definition newest {host : Host} (names : list string) (n : string) : bool :=
  forallb (fun n' => name_before n' n) names.

(** The position of the block the host lists last among [l], the blocks
    [best] (named [best_name]) and before having been read: a block takes
    the place of the last one so far when the host lists it after. *)
Fixpoint last_from {host : Host} {A : Type} (name : A -> string)
    (best : nat) (best_name : string) (i : nat) (l : list A) : nat :=
  match l with
  | [] => best
  | x :: l' =>
      if name_before best_name (name x)
      then last_from name i (name x) (S i) l'
      else last_from name best best_name (S i) l'
  end.

(** [coll[-1]]: a reference to the block the host lists last. *)
Definition last_named {host : Host} {A : Type} (name : A -> string)
    (l : list A) : result nat :=
  match l with
  | [] => Raise IndexError
  | x :: l' => Ok (last_from name 0 (name x) 1 l')
  end.

(** [block.name = v]: the host keeps the name unique among the other
    blocks of the collection. *)
Definition rename_texture {host : Host} (i : nat) (v : string) : M unit :=
  let! b := get_bpy in
  update_texture i
    (with_tex_name (unique_name (map tex_name (delete i (textures b))) v)).

Definition rename_material {host : Host} (i : nat) (v : string) : M unit :=
  let! b := get_bpy in
  update_material i
    (with_mat_name (unique_name (map mat_name (delete i (materials b))) v)).

(** *** Operators of the host ([bpy.ops....]) *)

Definition one : pynum := PyFloat (decimal 1 0).
Definition zero : pynum := PyFloat (S754_zero false).

Definition default_texture : Texture :=
  {| tex_name := "Texture"; tex_type := "NONE"; tex_image := None;
     use_normal_map := false |}.

Definition default_slot (t : nat) : TextureSlot :=
  {| slot_texture := t; use_map_color_diffuse := true;
     use_map_normal := false; normal_factor := one |}.

Definition default_material : Material :=
  {| mat_name := "Material"; specular_intensity := PyFloat (decimal 5 1);
     active_texture_index := 0;
     texture_slots := replicate MAX_MTEX None;
     use_textures := replicate MAX_MTEX true;
     use_shadeless := false;
     diffuse_color :=
       (PyFloat (decimal 8 1), PyFloat (decimal 8 1), PyFloat (decimal 8 1)) |}.

Definition default_object (name : string) (kind : ObjectKind) (loc : vec3)
    : Object :=
  {| obj_name := name; obj_kind := kind; obj_location := loc;
     obj_scale := (one, one, one); obj_select := true;
     obj_material := None; obj_modifiers := []; obj_applied := [];
     obj_cuts := [] |}.

(** [bpy.ops.texture.new()]: the new block asks for the name "Texture". *)
Definition ops_texture_new {host : Host} : M unit :=
  modify_bpy (fun b =>
    set_textures
      (textures b ++
       [with_tex_name (unique_name (map tex_name (textures b)) "Texture")
          default_texture]) b).

(** [bpy.ops.material.new()]: the new block asks for the name "Material". *)
Definition ops_material_new {host : Host} : M unit :=
  modify_bpy (fun b =>
    set_materials
      (materials b ++
       [with_mat_name (unique_name (map mat_name (materials b)) "Material")
          default_material]) b).

(** Whether the file at [filepath] is loaded in one of the images. *)
Definition opened (imgs : list Image) (filepath : string) : bool :=
  existsb (fun i => bool_decide (img_filepath i = filepath)) imgs.

(** [bpy.ops.image.open(filepath=...)]: the operator fails on a file that
    cannot be read as an image; it makes no second block for a file that is
    loaded already; a new block is named after the file. *)
Definition ops_image_open {host : Host} (filepath : string) : M unit :=
  fun s =>
    match disk s !! filepath with
    | Some size =>
        if opened (images (bpy s)) filepath then (Ok tt, s)
        else
          (Ok tt,
           set_bpy (set_images
                      (images (bpy s) ++
                       [{| img_name :=
                             unique_name (map img_name (images (bpy s)))
                               (image_name filepath);
                           img_filepath := filepath; img_size := size;
                           colorspace_name := "sRGB" |}])
                      (bpy s)) s)
    | None => (Raise RuntimeError, s)
    end.

(** [bpy.ops.object.select_all(action='SELECT' | 'DESELECT')] *)
Definition ops_select_all (selected : bool) : M unit :=
  modify_bpy (fun b => set_objects (map (with_obj_select selected) (objects b)) b).

(** [bpy.ops.object.delete()]: removes the selected objects. *)
Definition ops_object_delete : M unit :=
  modify_bpy (fun b =>
    set_active_object None
      (set_objects (List.filter (fun o => negb (obj_select o)) (objects b)) b)).

(** An operator that adds an object makes it the active one. *)
Definition add_object (o : Object) : M unit :=
  modify_bpy (fun b =>
    set_active_object (Some (length (objects b)))
      (set_objects (objects b ++ [o]) b)).

(** [bpy.ops.mesh.primitive_plane_add()], [primitive_cube_add()] *)
Definition ops_primitive_plane_add : M unit :=
  add_object (default_object "Plane" PlaneMesh (zero, zero, zero)).

Definition ops_primitive_cube_add : M unit :=
  add_object (default_object "Cube" CubeMesh (zero, zero, zero)).

(** [bpy.ops.object.lamp_add(type='SUN', location=...)] *)
Definition ops_lamp_add_sun (loc : vec3) : M unit :=
  add_object (default_object "Sun" SunLamp loc).

(** [bpy.ops.object.mode_set(mode=...)]: needs an active object. *)
Definition ops_mode_set (m : string) : M unit :=
  let! b := get_bpy in
  match active_object b with
  | Some _ => put_bpy (set_mode m b)
  | None => raise RuntimeError
  end.

(** [bpy.ops.mesh.subdivide(number_cuts=...)] on the active object; the
    argument is recorded as the script passes it. *)
Definition ops_mesh_subdivide (number_cuts : pynum) : M unit :=
  let! b := get_bpy in
  match active_object b with
  | Some i => update_object i (fun o => with_obj_cuts (obj_cuts o ++ [number_cuts]) o)
  | None => raise RuntimeError
  end.

Definition default_modifier (displace : bool) : Modifier :=
  if displace then Displace None one "NORMAL"
  else Decimate true one.

(** [bpy.ops.object.modifier_add(type='DISPLACE' | 'DECIMATE')] on the
    active object. *)
Definition ops_modifier_add (displace : bool) : M unit :=
  let! b := get_bpy in
  match active_object b with
  | Some i =>
      update_object i
        (fun o => with_obj_modifiers (obj_modifiers o ++ [default_modifier displace]) o)
  | None => raise RuntimeError
  end.

(** [bpy.ops.object.modifier_apply(modifier=name)] on the active object.
    Names are unique within a stack, so the name the script passes
    ([modifier.name]) stands for the position [k] of the modifier it holds. *)
Definition ops_modifier_apply (k : nat) : M unit :=
  let! b := get_bpy in
  match active_object b with
  | Some i =>
      let! o := lift (deref (objects b) i) in
      match obj_modifiers o !! k with
      | Some md =>
          update_object i
            (fun o => with_obj_applied (obj_applied o ++ [md])
                        (with_obj_modifiers (delete k (obj_modifiers o)) o))
      | None => raise RuntimeError
      end
  | None => raise RuntimeError
  end.

(** [bpy.ops.file.pack_all()] *)
Definition ops_pack_all : M unit :=
  modify_bpy (set_packed true).

(** [bpy.ops.wm.save_mainfile(filepath, check_existing, compress)] *)
Definition ops_save_mainfile (filepath : string) (check_existing compress : bool)
    : M unit :=
  modify_bpy (fun b =>
    set_saved (saved b ++ [(filepath, check_existing, compress)]) filepath b).

(** [material.active_texture] (read): the texture of the active slot. *)
Definition get_active_texture (material : nat) : M (option nat) :=
  let! m := get_material material in
  match texture_slots m !! active_texture_index m with
  | Some (Some sl) => ret (Some (slot_texture sl))
  | _ => ret None
  end.

(** [material.active_texture = t]: binds [t] in the active slot, which is
    created with the host's defaults when empty. *)
Definition set_active_texture (material : nat) (t : nat) : M unit :=
  update_material material (fun m =>
    with_slots
      (<[active_texture_index m :=
           Some match texture_slots m !! active_texture_index m with
                | Some (Some sl) =>
                    {| slot_texture := t;
                       use_map_color_diffuse := use_map_color_diffuse sl;
                       use_map_normal := use_map_normal sl;
                       normal_factor := normal_factor sl |}
                | _ => default_slot t
                end]> (texture_slots m)) m).

(** An attribute assignment on [material.active_texture]. *)
Definition update_active_texture (material : nat) (f : Texture -> Texture)
    : M unit :=
  let! t := get_active_texture material in
  match t with
  | Some i => update_texture i f
  | None => raise AttributeError
  end.

(** [material.active_texture.name = v] *)
Definition rename_active_texture {host : Host} (material : nat) (v : string)
    : M unit :=
  let! t := get_active_texture material in
  match t with
  | Some i => rename_texture i v
  | None => raise AttributeError
  end.

(** ** The script

    Each definition below is the source function of the same name.  What the
    script takes from outside its own code is a parameter: the builtin
    [float] on strings ([None] for [ValueError]), the shell that runs a
    command line on the current disk, and [sys.version_info]. *)

Class Runtime : Type := {
  float_of_string : string -> option spec_float;
  shell : string -> Disk -> result (Z * string) * Disk;
  version_info : Z * Z
}.

Section Script.

Context {host : Host} {rt : Runtime}.

Definition dquote : string := String "034"%char EmptyString.
Definition newline : string := String "010"%char EmptyString.
Definition os_pathsep : string := ":".

(** [seq[-1]] of a sequence the host keeps in the order of its elements
    (a modifier stack). *)
Definition last_ref {A : Type} (l : list A) : result nat :=
  match l with
  | [] => Raise IndexError
  | _ :: l' => Ok (length l')
  end.

(** A shell command runs on the disk and is recorded. *)
Definition run_shell (cmd : string) : M (Z * string) :=
  fun s =>
    let '(r, d) := shell cmd (disk s) in
    (r, set_commands (commands s ++ [cmd]) (set_disk d s)).

(** [subprocess.getoutput(cmd)] and [subprocess.getstatusoutput(cmd)] *)
Definition getoutput (cmd : string) : M string :=
  let! r := run_shell cmd in ret (snd r).

Definition getstatusoutput (cmd : string) : M (Z * string) :=
  run_shell cmd.

(** [float(value)] *)
Definition py_float (value : string) : result pynum :=
  match float_of_string value with
  | Some x => Ok (PyFloat x)
  | None => Raise ValueError
  end.

(** [[float(value) for value in l]] *)
Fixpoint float_list (l : list string) : result (list pynum) :=
  match l with
  | [] => Ok []
  | value :: l' =>
      match py_float value with
      | Ok x =>
          match float_list l' with
          | Ok xs => Ok (x :: xs)
          | Raise e => Raise e
          end
      | Raise e => Raise e
      end
  end.

Definition new_texture : M nat :=
  do! ops_texture_new in
  let! b := get_bpy in
  lift (last_named tex_name (textures b)).

Definition new_material : M nat :=
  do! ops_material_new in
  let! b := get_bpy in
  lift (last_named mat_name (materials b)).

Definition open_image (filepath : string) : M nat :=
  do! ops_image_open filepath in
  let! b := get_bpy in
  lift (last_named img_name (images b)).

Definition new_image_texture (material image : nat) (name : string)
    : M (option nat) :=
  let! t := new_texture in
  do! set_active_texture material t in
  do! rename_active_texture material name in
  do! update_active_texture material (with_tex_type "IMAGE") in
  do! update_active_texture material (with_tex_image image) in
  get_active_texture material.

Definition new_plane (name : string) (scale : vec3) : M nat :=
  do! ops_select_all false in
  do! ops_primitive_plane_add in
  let! o := context_object in
  do! update_object o (with_obj_scale scale) in
  let! o := context_object in
  do! update_object o (with_obj_name name) in
  context_object.

Definition select_only (obj : nat) : M unit :=
  do! ops_select_all false in
  do! update_object obj (with_obj_select true) in
  modify_bpy (set_active_object (Some obj)).

Definition subdivide (obj : nat) (number_cuts : pynum) : M nat :=
  do! select_only obj in
  do! ops_mode_set "EDIT" in
  do! ops_mesh_subdivide number_cuts in
  do! ops_mode_set "OBJECT" in
  ret obj.

Definition new_cube (name : string) (scale : vec3) : M nat :=
  do! ops_select_all false in
  do! ops_primitive_cube_add in
  let! o := context_object in
  do! update_object o (with_obj_scale scale) in
  let! o := context_object in
  do! update_object o (with_obj_name name) in
  context_object.

Definition set_viewport (shade : string) (clip : pynum) : M unit :=
  modify_bpy (fun b =>
    set_areas
      (map (fun area =>
              if bool_decide (area_type area = "VIEW_3D")
              then {| area_type := area_type area;
                      spaces :=
                        map (fun space =>
                               if bool_decide (space_type space = "VIEW_3D")
                               then {| space_type := space_type space;
                                       viewport_shade := shade;
                                       clip_end := clip |}
                               else space)
                            (spaces area) |}
              else area)
           (areas b)) b).

Definition save (filepath : option string) (check_existing compress : bool)
    : M unit :=
  let! b := get_bpy in
  let filepath :=
    match filepath with
    | None | Some EmptyString => data_filepath b
    | Some p => p
    end in
  ops_save_mainfile filepath check_existing compress.

Definition setup : M unit :=
  (* Delete the default objects *)
  do! ops_select_all true in
  do! ops_object_delete in
  (* Add light (sun) *)
  do! ops_lamp_add_sun (PyInt 0, PyInt 0, PyInt 300) in
  (* Set Game mode *)
  do! update_scene (with_render_engine "BLENDER_GAME") in
  do! update_scene (with_material_mode "GLSL") in
  do! update_scene (with_unit_system "METRIC") in
  do! update_scene (with_frame_type "EXTEND") in
  do! set_viewport "TEXTURED" (PyInt 10000) in
  (* Set the color at the horizon to dark azure *)
  do! update_scene
        (with_horizon_color
           (PyFloat (decimal 5 2), PyFloat (decimal 22 2), PyFloat (decimal 4 1))) in
  update_scene (with_show_framerate_profile true).

Definition usage_text : string :=
  "usage: blender -P blend_dtm.py -- file_dem.tiff file_img.tiff" +:+ newline.

Definition usage : M unit :=
  stderr_write usage_text.

Definition ext_exec (cmd : string) (python : option string) : M string :=
  let python :=
    match python with
    | None | Some EmptyString =>
        "python" +:+ pretty (fst version_info) +:+ "." +:+
        pretty (snd version_info)
    | Some p => p
    end in
  getoutput (python +:+ " -c" +:+ dquote +:+ cmd +:+ dquote).

Definition fix_python_path : M unit :=
  let! pythonpath :=
    ext_exec "import os,sys;print(os.pathsep.join(sys.path))" None in
  fun s =>
    (Ok tt, set_sys_path (sys_path s ++ py_split os_pathsep pythonpath) s).

Definition gdal_query (filepath : string) : string :=
  "import gdal,gdalconst;print(gdal.Open('" +:+ filepath +:+
  "', gdalconst.GA_ReadOnly).GetGeoTransform())".

(** The default transform [(0,1,0,0,0,1)]. *)
Definition identity_transform : list pynum :=
  [PyInt 0; PyInt 1; PyInt 0; PyInt 0; PyInt 0; PyInt 1].

(** The [try] block returns [Some] at its [return] and [None] when control
    falls through to the statement after the [try]. *)
Definition geotransform (filepath : string) : M (list pynum) :=
  let! r :=
    try_except
      (let! geot := ext_exec (gdal_query filepath) None in
       match geot with
       | EmptyString => ret None
       | _ =>
           do! print ("[DEBUG] GetGeoTransform: " +:+ geot) in
           let! values := lift (float_list (py_split ", " (strip_ends geot))) in
           ret (Some values)
       end)
      (fun _ =>
         do! print "[WARNING] GDAL error GetGeoTransform" in
         ret None) in
  match r with
  | Some values => ret values
  | None => ret identity_transform
  end.

(** [obj.active_material] (read), for an attribute access on it. *)
Definition object_material (obj : nat) : M nat :=
  let! b := get_bpy in
  let! o := lift (deref (objects b) obj) in
  match obj_material o with
  | Some m => ret m
  | None => raise AttributeError
  end.

(** A reference to a modifier: the object and the position in its stack. *)
Definition modifier_ref : Type := nat * nat.

(** [bpy.context.object.modifiers[-1]] *)
Definition last_modifier : M modifier_ref :=
  let! o := context_object in
  let! b := get_bpy in
  let! ob := lift (deref (objects b) o) in
  let! k := lift (last_ref (obj_modifiers ob)) in
  ret (o, k).

(** An attribute assignment on a modifier; [f] fails on a modifier that
    has no such attribute. *)
Definition update_modifier (r : modifier_ref) (f : Modifier -> result Modifier)
    : M unit :=
  let! b := get_bpy in
  let! ob := lift (deref (objects b) (fst r)) in
  let! md := lift (deref (obj_modifiers ob) (snd r)) in
  let! md' := lift (f md) in
  update_object (fst r)
    (fun o => with_obj_modifiers (<[snd r := md']> (obj_modifiers o)) o).

Definition set_texture (t : option nat) (md : Modifier) : result Modifier :=
  match md with
  | Displace _ st d => Ok (Displace t st d)
  | Decimate _ _ => Raise AttributeError
  end.

Definition set_strength (st : pynum) (md : Modifier) : result Modifier :=
  match md with
  | Displace t _ d => Ok (Displace t st d)
  | Decimate _ _ => Raise AttributeError
  end.

Definition set_direction (d : string) (md : Modifier) : result Modifier :=
  match md with
  | Displace t st _ => Ok (Displace t st d)
  | Decimate _ _ => Raise AttributeError
  end.

Definition set_show_viewport (v : bool) (md : Modifier) : result Modifier :=
  match md with
  | Decimate _ r => Ok (Decimate v r)
  | Displace _ _ _ => Raise AttributeError
  end.

Definition set_ratio (r : pynum) (md : Modifier) : result Modifier :=
  match md with
  | Decimate v _ => Ok (Decimate v r)
  | Displace _ _ _ => Raise AttributeError
  end.

Definition add_displace_modifier (obj : nat) (texture : option nat)
    (strength : pynum) (direction : string) (apply : bool) : M modifier_ref :=
  do! select_only obj in
  do! ops_modifier_add true in
  let! modifier := last_modifier in
  do! update_modifier modifier (set_texture texture) in
  do! update_modifier modifier (set_strength strength) in
  do! update_modifier modifier (set_direction direction) in
  do! (if apply then ops_modifier_apply (snd modifier) else ret tt) in
  ret modifier.

Definition add_decimate_modifier (obj : nat) (ratio : pynum)
    (apply show_viewport : bool) : M modifier_ref :=
  do! select_only obj in
  do! ops_modifier_add false in
  let! modifier := last_modifier in
  do! update_modifier modifier (set_show_viewport show_viewport) in
  do! update_modifier modifier (set_ratio ratio) in
  do! (if apply then ops_modifier_apply (snd modifier) else ret tt) in
  ret modifier.

Definition add_water_cube (scale : vec3) : M nat :=
  let! cube := new_cube "Water" scale in
  let! m := new_material in
  do! update_object cube (with_obj_material m) in
  let! m := object_material cube in
  do! rename_material m "Water" in
  let! m := object_material cube in
  do! update_material m (with_use_shadeless true) in
  let! m := object_material cube in
  do! update_material m
        (with_diffuse_color
           (PyFloat (decimal 3 1), PyFloat (decimal 4 1), PyFloat (decimal 8 1))) in
  ret cube.

(** [material.use_textures[material.active_texture_index] = v] *)
Definition set_use_texture (material : nat) (v : bool) : M unit :=
  let! m := get_material material in
  if (active_texture_index m <? length (use_textures m))%nat
  then update_material material
         (fun m => with_use_textures
                     (<[active_texture_index m := v]> (use_textures m)) m)
  else raise IndexError.

(** [material.active_texture_index += 1] *)
Definition next_texture_index (material : nat) : M unit :=
  let! m := get_material material in
  update_material material
    (with_active_texture_index (active_texture_index m + 1)).

Definition main (argv : list string) : M Z :=
  let! args :=
    (if bool_decide ("--" ∈ argv)
     then let! i := lift (py_index "--" argv) in ret (drop (i + 1) argv)
     else ret []) in
  if decide (length args < 2)%nat then
    do! usage in
    ret 1
  else
    let! dem_path := lift (py_getitem args 0) in
    let! image_dem := open_image dem_path in
    let! img_path := lift (py_getitem args 1) in
    let! image_img := open_image img_path in
    let! dem := get_image image_dem in
    let! img := get_image image_img in
    do! (if bool_decide (img_size dem ≠ img_size img)
         then print "[WARN] The size of the 2 image differ"
         else ret tt) in
    do! fix_python_path in
    let! dem_path := lift (py_getitem args 0) in
    let! geot := geotransform dem_path in
    let! dem := get_image image_dem in
    let! g1 := lift (py_getitem geot 1) in
    let! xw := lift (py_mul (PyInt (fst (img_size dem))) (py_abs g1)) in
    let! xsize := lift (py_truediv xw (PyInt 2)) in
    let! dem := get_image image_dem in
    let! g5 := lift (py_getitem geot 5) in
    let! yh := lift (py_mul (PyInt (snd (img_size dem))) (py_abs g5)) in
    let! ysize := lift (py_truediv yh (PyInt 2)) in
    do! setup in
    (* Add our ground object *)
    let! ground := new_plane "Ground" (xsize, ysize, PyInt 1) in
    do! subdivide ground (py_max xsize ysize) in
    (* Add material *)
    let! m := new_material in
    do! update_object ground (with_obj_material m) in
    let! m := object_material ground in
    do! update_material m (with_specular_intensity (PyInt 0)) in
    let! m := object_material ground in
    do! rename_material m "Ground" in
    let! material := object_material ground in
    (* Add texture *)
    do! update_image image_dem (with_colorspace "Linear") in
    let! texture_dem := new_image_texture material image_dem "dem" in
    do! set_use_texture material false in
    do! next_texture_index material in
    let! texture_img := new_image_texture material image_img "img" in
    (* strength=1, direction='Z', apply=False; the calls of
       add_decimate_modifier and add_water_cube are commented out in the
       source *)
    do! add_displace_modifier ground texture_dem (PyInt 1) "Z" false in
    do! ops_pack_all in
    (* check_existing=False, compress=True *)
    do! save (Some "/tmp/dtm.blend") false true in
    ret 0.

(** [material.texture_slots[material.active_texture_index]], for the
    attribute assignments on it. *)
Definition update_active_slot (material : nat) (f : TextureSlot -> TextureSlot)
    : M unit :=
  let! m := get_material material in
  match texture_slots m !! active_texture_index m with
  | Some (Some sl) =>
      update_material material (fun m =>
        with_slots (<[active_texture_index m := Some (f sl)]> (texture_slots m)) m)
  | Some None => raise AttributeError
  | None => raise IndexError
  end.

Definition hillshade_path (demfile : string) : string :=
  demfile +:+ ".hillshade.png".

Definition gdaldem_command (demfile : string) : string :=
  "gdaldem hillshade " +:+ demfile +:+ " " +:+ hillshade_path demfile +:+
  " -of png".

Definition add_hillshade (demfile : string) (material : nat) : M unit :=
  let hillshade_png := hillshade_path demfile in
  let! d := (fun s => (Ok (disk s), s)) in
  do! (if bool_decide (is_Some (d !! hillshade_png))
       then ret tt
       else do! getstatusoutput (gdaldem_command demfile) in ret tt) in
  let! image_hsh := open_image hillshade_png in
  do! next_texture_index material in
  let! texture_hsh := new_image_texture material image_hsh "hsh" in
  do! match texture_hsh with
      | Some t => update_texture t (with_use_normal_map true)
      | None => raise AttributeError
      end in
  do! update_active_slot material (fun sl =>
        {| slot_texture := slot_texture sl; use_map_color_diffuse := false;
           use_map_normal := use_map_normal sl;
           normal_factor := normal_factor sl |}) in
  do! update_active_slot material (fun sl =>
        {| slot_texture := slot_texture sl;
           use_map_color_diffuse := use_map_color_diffuse sl;
           use_map_normal := true; normal_factor := normal_factor sl |}) in
  update_active_slot material (fun sl =>
    {| slot_texture := slot_texture sl;
       use_map_color_diffuse := use_map_color_diffuse sl;
       use_map_normal := use_map_normal sl;
       normal_factor := PyFloat (SFopp (decimal 5 1)) |}).

End Script.

(** ** Definitions in the specification's words *)

(** The arguments that follow the separator token: what stands after the
    first ["--"] of the argument vector, nothing when there is none. *)
Fixpoint args_after_separator (argv : list string) : list string :=
  match argv with
  | [] => []
  | a :: argv' =>
      if bool_decide (a = "--") then argv' else args_after_separator argv'
  end.

(** The extent of §3: [(width * |pixelWidth| / 2, height * |pixelHeight| / 2)],
    the operations being Python's, on the coefficients 1 and 5 of the
    transform. *)
Definition half_extent (pixels : Z) (c : pynum) : result pynum :=
  match py_mul (PyInt pixels) (py_abs c) with
  | Ok p => py_truediv p (PyInt 2)
  | Raise e => Raise e
  end.

Definition Extent (size : Z * Z) (geot : list pynum) : result (pynum * pynum) :=
  match py_getitem geot 1 with
  | Ok c1 =>
      match half_extent (fst size) c1 with
      | Ok x =>
          match py_getitem geot 5 with
          | Ok c5 =>
              match half_extent (snd size) c5 with
              | Ok y => Ok (x, y)
              | Raise e => Raise e
              end
          | Raise e => Raise e
          end
      | Raise e => Raise e
      end
  | Raise e => Raise e
  end.

(** A piece of text with no comma in it, as every float literal is. *)
Fixpoint comma_free (t : string) : bool :=
  match t with
  | EmptyString => true
  | String c t' => if bool_decide (c = ","%char) then false else comma_free t'
  end.

(** The text of a tuple as Python prints it: the pieces separated by a
    comma and a space, in parentheses. *)
Definition tuple_text (pieces : list string) : string :=
  "(" +:+ py_join ", " pieces +:+ ")".

(** The command line of the metadata query for a raster. *)
Definition python_name {rt : Runtime} : string :=
  "python" +:+ pretty (fst version_info) +:+ "." +:+ pretty (snd version_info).

Definition geotransform_command {rt : Runtime} (filepath : string) : string :=
  python_name +:+ " -c" +:+ dquote +:+ gdal_query filepath +:+ dquote.

(** The state after a shell command left the disk [d]. *)
Definition after_command (cmd : string) (d : Disk) (s : State) : State :=
  set_commands (commands s ++ [cmd]) (set_disk d s).

(** The command line of the path query of [fix_python_path]. *)
Definition path_command {rt : Runtime} : string :=
  python_name +:+ " -c" +:+ dquote +:+
  "import os,sys;print(os.pathsep.join(sys.path))" +:+ dquote.

(** What [geotransform] returns, and what it prints, for a given result of
    the metadata query. *)
Definition resolve {rt : Runtime} (rq : result (Z * string)) : list pynum :=
  match rq with
  | Ok (_, EmptyString) => identity_transform
  | Ok (_, out) =>
      match float_list (py_split ", " (strip_ends out)) with
      | Ok values => values
      | Raise _ => identity_transform
      end
  | Raise _ => identity_transform
  end.

Definition resolve_lines {rt : Runtime} (rq : result (Z * string))
    : list string :=
  match rq with
  | Ok (_, EmptyString) => []
  | Ok (_, out) =>
      match float_list (py_split ", " (strip_ends out)) with
      | Ok values => ["[DEBUG] GetGeoTransform: " +:+ out]
      | Raise _ => ["[DEBUG] GetGeoTransform: " +:+ out;
                    "[WARNING] GDAL error GetGeoTransform"]
      end
  | Raise _ => ["[WARNING] GDAL error GetGeoTransform"]
  end.

(** Zero, a positive finite number or plus infinity: the floats [x] with
    [0 <= x]. *)
Definition nonnegative (x : spec_float) : bool :=
  match x with
  | S754_zero _ | S754_infinity false | S754_finite false _ _ => true
  | _ => false
  end.

(** Zero or a positive finite number. *)
Definition finite_nonnegative (x : spec_float) : bool :=
  match x with
  | S754_zero _ | S754_finite false _ _ => true
  | _ => false
  end.

(** A number that is neither NaN nor infinite. *)
Definition number_finite (c : pynum) : bool :=
  match c with
  | PyInt _ => true
  | PyFloat f => is_finite f
  end.

(** *** The scene [main] builds

    The host after a run of [main] that returns, from a host [b] that lists
    the blocks [main] creates after the blocks it holds: the two images, the
    two textures and the material are added to the blocks already there; the
    objects are the sun and the ground. *)

Definition mk_image (name filepath : string) (size : Z * Z) : Image :=
  {| img_name := name; img_filepath := filepath; img_size := size;
     colorspace_name := "sRGB" |}.

Definition sun : Object :=
  {| obj_name := "Sun"; obj_kind := SunLamp;
     obj_location := (PyInt 0, PyInt 0, PyInt 300);
     obj_scale := (one, one, one); obj_select := false;
     obj_material := None; obj_modifiers := []; obj_applied := [];
     obj_cuts := [] |}.

Definition ground (x y : pynum) (material texture_dem : nat) : Object :=
  {| obj_name := "Ground"; obj_kind := PlaneMesh;
     obj_location := (zero, zero, zero);
     obj_scale := (x, y, PyInt 1); obj_select := true;
     obj_material := Some material;
     obj_modifiers := [Displace (Some texture_dem) (PyInt 1) "Z"];
     obj_applied := [];
     obj_cuts := [py_max x y] |}.

Definition image_texture (name : string) (image : nat) : Texture :=
  {| tex_name := name; tex_type := "IMAGE"; tex_image := Some image;
     use_normal_map := false |}.

Definition ground_material (name : string) (texture_dem texture_img : nat)
    : Material :=
  {| mat_name := name; specular_intensity := PyInt 0;
     active_texture_index := 1;
     texture_slots :=
       Some (default_slot texture_dem) :: Some (default_slot texture_img) ::
       replicate 16 None;
     use_textures := false :: replicate 17 true;
     use_shadeless := false;
     diffuse_color := diffuse_color default_material |}.

Definition game_scene : Scene :=
  {| render_engine := "BLENDER_GAME"; material_mode := "GLSL";
     unit_system := "METRIC"; frame_type := "EXTEND";
     horizon_color :=
       (PyFloat (decimal 5 2), PyFloat (decimal 22 2), PyFloat (decimal 4 1));
     show_framerate_profile := true |}.

Definition textured (ar : list Area) : list Area :=
  map (fun area =>
         if bool_decide (area_type area = "VIEW_3D")
         then {| area_type := area_type area;
                 spaces :=
                   map (fun space =>
                          if bool_decide (space_type space = "VIEW_3D")
                          then {| space_type := space_type space;
                                  viewport_shade := "TEXTURED";
                                  clip_end := PyInt 10000 |}
                          else space)
                       (spaces area) |}
         else area) ar.

(** The names the host gives the blocks [main] creates, from the host [b]. *)
Definition dem_image_name {host : Host} (b : Blender) (dem_path : string)
    : string :=
  unique_name (map img_name (images b)) (image_name dem_path).

Definition colour_image_name {host : Host} (b : Blender)
    (dem_path img_path : string) : string :=
  unique_name (map img_name (images b) ++ [dem_image_name b dem_path])
    (image_name img_path).

Definition dem_texture_name {host : Host} (b : Blender) : string :=
  unique_name (map tex_name (textures b)) "dem".

Definition img_texture_name {host : Host} (b : Blender) : string :=
  unique_name (map tex_name (textures b) ++ [dem_texture_name b]) "img".

Definition ground_material_name {host : Host} (b : Blender) : string :=
  unique_name (map mat_name (materials b)) "Ground".

(** The images once [main] has opened both files, neither of which was
    loaded before. *)
Definition loaded {host : Host} (b : Blender) (dem_path img_path : string)
    (dem_dims img_dims : Z * Z) : list Image :=
  images b ++
  [mk_image (dem_image_name b dem_path) dem_path dem_dims;
   mk_image (colour_image_name b dem_path img_path) img_path img_dims].

(** The block [main] takes for the colour image: the one the host lists
    last once both files are loaded; and its pixel dimensions. *)
Definition listed_last {host : Host} (imgs : list Image) : nat :=
  match last_named img_name imgs with
  | Ok k => k
  | Raise _ => O
  end.

Definition listed_last_size {host : Host} (imgs : list Image) : Z * Z :=
  match imgs !! listed_last imgs with
  | Some i => img_size i
  | None => (0, 0)
  end.

(** Neither file is loaded yet, and the host [b] lists the DEM's image,
    the two textures and the material of the run after the blocks it holds
    when each is created: the [coll[-1]] that follows then designates the
    block just created. *)
Definition created_last {host : Host} (b : Blender)
    (dem_path img_path : string) : bool :=
  negb (opened (images b) dem_path) &&
  negb (opened (images b) img_path) &&
  negb (bool_decide (dem_path = img_path)) &&
  newest (map img_name (images b)) (dem_image_name b dem_path) &&
  newest (map tex_name (textures b))
    (unique_name (map tex_name (textures b)) "Texture") &&
  newest (map tex_name (textures b) ++ [dem_texture_name b])
    (unique_name (map tex_name (textures b) ++ [dem_texture_name b])
       "Texture") &&
  newest (map mat_name (materials b))
    (unique_name (map mat_name (materials b)) "Material").

(** The host lists the image of the second file after the DEM's and the
    images it held. *)
Definition colour_last {host : Host} (b : Blender)
    (dem_path img_path : string) : bool :=
  newest (map img_name (images b) ++ [dem_image_name b dem_path])
    (colour_image_name b dem_path img_path).

Definition built {host : Host} (b : Blender) (dem_path img_path : string)
    (dem_dims img_dims : Z * Z) (x y : pynum) : Blender :=
  {| images :=
       images b ++
       [with_colorspace "Linear"
          (mk_image (dem_image_name b dem_path) dem_path dem_dims);
        mk_image (colour_image_name b dem_path img_path) img_path img_dims];
     textures :=
       textures b ++
       [image_texture (dem_texture_name b) (length (images b));
        image_texture (img_texture_name b)
          (listed_last (loaded b dem_path img_path dem_dims img_dims))];
     materials :=
       materials b ++
       [ground_material (ground_material_name b)
          (length (textures b)) (length (textures b) + 1)];
     objects := [sun; ground x y (length (materials b)) (length (textures b))];
     active_object := Some 1%nat;
     mode := "OBJECT";
     areas := textured (areas b);
     scene := game_scene;
     packed := true;
     saved := saved b ++ [("/tmp/dtm.blend", false, true)];
     data_filepath := "/tmp/dtm.blend" |}.

(** The line [main] prints when the two rasters differ in size. *)
Definition size_warning (dem_dims img_dims : Z * Z) : list string :=
  if bool_decide (dem_dims <> img_dims)
  then ["[WARN] The size of the 2 image differ"]
  else [].

(** A texture layer of a material, as the renderer reads it: the image
    bound in slot [i] through its texture, and whether the layer shows in
    the material ([use_textures[i]]). *)
Definition material_layer (b : Blender) (m : Material) (i : nat)
    : option (Image * bool) :=
  match texture_slots m !! i with
  | Some (Some sl) =>
      match textures b !! slot_texture sl with
      | Some t =>
          match tex_image t with
          | Some im =>
              match images b !! im, use_textures m !! i with
              | Some image, Some visible => Some (image, visible)
              | _, _ => None
              end
          | None => None
          end
      | None => None
      end
  | _ => None
  end.

(** The material of the object at position [o]. *)
Definition material_of (b : Blender) (o : nat) : option Material :=
  match objects b !! o with
  | Some ob =>
      match obj_material ob with
      | Some m => materials b !! m
      | None => None
      end
  | None => None
  end.



(** Runs of [add_hillshade], one after the other, each on a DEM path and
    a material. *)
Definition run_hillshade {host : Host} {rt : Runtime}
    (runs : list (string * nat))
    (s : State) : State :=
  foldl (fun s r => snd (add_hillshade (fst r) (snd r) s)) s runs.

(** What a step on the host alone leaves as it was. *)
Definition same_outside (s s' : State) : Prop :=
  disk s' = disk s /\ commands s' = commands s /\
  images (bpy s') = images (bpy s).

Definition host_only {A : Type} (m : M A) : Prop :=
  forall s, same_outside s (snd (m s)).

(** A step that runs no command and writes nothing to the error stream. *)
Definition silent {A : Type} (m : M A) : Prop :=
  forall s, commands (snd (m s)) = commands s /\
            stderr (snd (m s)) = stderr s.

(** From [s] to [s'], [gdaldem] ran once on [demfile], and nothing else
    touched the disk or ran a command. *)
Definition tool_ran {rt : Runtime} (demfile : string) (s s' : State) : Prop :=
  disk s' = snd (shell (gdaldem_command demfile) (disk s)) /\
  commands s' = commands s ++ [gdaldem_command demfile].

(** ** Definitions for the functions beside [main]'s path *)

(** The lamp [setup] adds, as the operator leaves it. *)
Definition sun_lamp : Object :=
  default_object "Sun" SunLamp (PyInt 0, PyInt 0, PyInt 300).

(** The host after [setup], from the host [b]. *)
Definition after_setup (b : Blender) : Blender :=
  {| images := images b; textures := textures b; materials := materials b;
     objects := [sun_lamp];
     active_object := Some 0%nat; mode := mode b;
     areas := textured (areas b); scene := game_scene;
     packed := packed b; saved := saved b;
     data_filepath := data_filepath b |}.

(** Whether some 3D area of the screen holds a 3D space. *)
Definition has_viewport (ar : list Area) : bool :=
  existsb (fun area =>
             bool_decide (area_type area = "VIEW_3D") &&
             existsb (fun space => bool_decide (space_type space = "VIEW_3D"))
                     (spaces area)) ar.

(** A directory name without the path separator in it. *)
Fixpoint pathsep_free (t : string) : bool :=
  match t with
  | EmptyString => true
  | String c t' => if bool_decide (c = ":"%char) then false else pathsep_free t'
  end.

(** The object [o] once selected and given the modifier [md], on its stack
    or, when applied, on its mesh. *)
Definition with_modifier (md : Modifier) (apply : bool) (o : Object) : Object :=
  if apply
  then with_obj_applied (obj_applied o ++ [md]) (with_obj_select true o)
  else with_obj_modifiers (obj_modifiers o ++ [md]) (with_obj_select true o).

(** The state in which [obj] alone is selected, is active, and reads [o']. *)
Definition focused (obj : nat) (o' : Object) (s : State) : State :=
  set_bpy
    (set_active_object (Some obj)
       (set_objects
          (<[obj := o']> (map (with_obj_select false) (objects (bpy s))))
          (bpy s))) s.

(** The material and the object [add_water_cube] makes. *)
Definition water_material (name : string) : Material :=
  with_diffuse_color
    (PyFloat (decimal 3 1), PyFloat (decimal 4 1), PyFloat (decimal 8 1))
    (with_use_shadeless true (with_mat_name name default_material)).

Definition water_cube (scale : vec3) (material : nat) : Object :=
  {| obj_name := "Water"; obj_kind := CubeMesh;
     obj_location := (zero, zero, zero); obj_scale := scale;
     obj_select := true; obj_material := Some material;
     obj_modifiers := []; obj_applied := []; obj_cuts := [] |}.

(** The texture and the slot of the hillshade layer. *)
Definition hillshade_texture (name : string) (image : nat) : Texture :=
  {| tex_name := name; tex_type := "IMAGE"; tex_image := Some image;
     use_normal_map := true |}.

Definition hillshade_slot (texture : nat) : TextureSlot :=
  {| slot_texture := texture; use_map_color_diffuse := false;
     use_map_normal := true; normal_factor := PyFloat (SFopp (decimal 5 1)) |}.

(** ** A sample world, for concrete runs *)

Definition digit_value (c : ascii) : option Z :=
  let n := Z.of_nat (nat_of_ascii c) in
  if (48 <=? n) && (n <=? 57) then Some (n - 48) else None.

(** Reads [digits] or [digits.digits]: the integer the digits spell and the
    number of digits after the point. *)
Fixpoint read_decimal (t : string) (acc : Z) (frac : option Z) (seen : bool)
    : option (Z * Z) :=
  match t with
  | EmptyString => if seen then Some (acc, default 0 frac) else None
  | String c t' =>
      if bool_decide (c = "."%char) then
        match frac with
        | None => read_decimal t' acc (Some 0) seen
        | Some _ => None
        end
      else
        match digit_value c with
        | Some v => read_decimal t' (10 * acc + v) (option_map Z.succ frac) true
        | None => None
        end
  end.

(** The part of Python's [float] on strings used in the sample runs: plain
    decimal literals with an optional minus sign, correctly rounded. *)
Definition decimal_literal (t : string) : option spec_float :=
  match t with
  | String "-" t' =>
      option_map (fun nd => SFopp (decimal (fst nd) (snd nd)))
        (read_decimal t' 0 None false)
  | _ =>
      option_map (fun nd => decimal (fst nd) (snd nd))
        (read_decimal t 0 None false)
  end.

(** A shell in which the metadata query prints [geot_output], the path
    query prints one directory, and [gdaldem] writes the hillshade of
    [dem.tif]. *)
Definition sample_shell (geot_output : string) (cmd : string) (d : Disk)
    : result (Z * string) * Disk :=
  if bool_decide (cmd = gdaldem_command "dem.tif")
  then (Ok (0, ""), <[hillshade_path "dem.tif" := (200, 100)]> d)
  else if String.prefix "gdaldem" cmd
  then (Ok (1, "ERROR"), d)
  else if String.prefix ("python3.3 -c" +:+ dquote +:+ "import os") cmd
  then (Ok (0, "/usr/lib/python3.3"), d)
  else (Ok (0, geot_output), d).

Definition sample_runtime (geot_output : string) : Runtime :=
  {| float_of_string := decimal_literal;
     shell := sample_shell geot_output;
     version_info := (3, 3) |}.

(** A host that lists names in alphabetical order without regard to case,
    numbers a name that is taken from [.001] on, and names an image after
    the last component of its path. *)
Definition lower (c : ascii) : nat :=
  let n := nat_of_ascii c in
  if (65 <=? n)%nat && (n <=? 90)%nat then (n + 32)%nat else n.

Fixpoint alphabetical (a b : string) : bool :=
  match a, b with
  | _, EmptyString => false
  | EmptyString, String _ _ => true
  | String c a', String d b' =>
      if (lower c <? lower d)%nat then true
      else if (lower d <? lower c)%nat then false
      else alphabetical a' b'
  end.

Definition numbered (name : string) (k : nat) : string :=
  name +:+ "." +:+
  (if (k <? 10)%nat then "00" else if (k <? 100)%nat then "0" else "") +:+
  pretty k.

Fixpoint first_free (names : list string) (name : string) (k fuel : nat)
    : string :=
  match fuel with
  | O => numbered name k
  | S fuel' =>
      if bool_decide (numbered name k ∈ names)
      then first_free names name (S k) fuel'
      else numbered name k
  end.

Definition sample_unique (names : list string) (name : string) : string :=
  if bool_decide (name ∈ names)
  then first_free names name 1 (length names)
  else name.

Fixpoint basename_from (acc t : string) : string :=
  match t with
  | EmptyString => acc
  | String c t' =>
      if bool_decide (c = "/"%char) then basename_from EmptyString t'
      else basename_from (acc +:+ String c EmptyString) t'
  end.

Definition sample_host : Host :=
  {| name_before := alphabetical;
     unique_name := sample_unique;
     image_name := basename_from EmptyString |}.

(** A host as it starts up, with the cube, its material, a texture and
    one 3D view, and a disk with a DEM of [dem_size] pixels and an image of
    [img_size] pixels. *)
Definition sample_state (dem_size img_size : Z * Z) : State :=
  {| bpy :=
       {| images := [];
          textures := [with_tex_name "Tex" default_texture];
          materials := [default_material];
          objects :=
            [with_obj_material 0
               (default_object "Cube" CubeMesh (zero, zero, zero))];
          active_object := Some 0%nat; mode := "OBJECT";
          areas := [{| area_type := "VIEW_3D";
                       spaces := [{| space_type := "VIEW_3D";
                                     viewport_shade := "SOLID";
                                     clip_end := PyFloat (decimal 1000 0) |}] |}];
          scene := {| render_engine := "BLENDER_RENDER";
                      material_mode := "MULTITEXTURE";
                      unit_system := "NONE"; frame_type := "LETTERBOX";
                      horizon_color := (zero, zero, zero);
                      show_framerate_profile := false |};
          packed := false; saved := []; data_filepath := "" |};
     disk := {[ "dem.tif" := dem_size; "img.tif" := img_size ]};
     sys_path := []; stdout := []; stderr := []; commands := [] |}.

Definition sample_argv : list string :=
  ["blender"; "-P"; "blend_dtm.py"; "--"; "dem.tif"; "img.tif"].

(** * Verification *)

(** ** Running the monad *)

Lemma bind_ok {A B : Type} (m : M A) (k : A -> M B) s a s' :
  m s = (Ok a, s') -> bind m k s = k a s'.
Proof. intros H. unfold bind. now rewrite H. Qed.

Lemma bind_raise {A B : Type} (m : M A) (k : A -> M B) s e s' :
  m s = (Raise e, s') -> bind m k s = (Raise e, s').
Proof. intros H. unfold bind. now rewrite H. Qed.

(** A run of [bind] that returns went through both of its parts. *)
Lemma bind_inv {A B : Type} (m : M A) (k : A -> M B) s b s' :
  bind m k s = (Ok b, s') ->
  exists a s1, m s = (Ok a, s1) /\ k a s1 = (Ok b, s').
Proof.
  unfold bind. destruct (m s) as [[a|e] s1]; intros H.
  - exists a, s1. auto.
  - discriminate.
Qed.

(** ** Evaluating a run step by step

    Field updates unfold under [cbn]; arithmetic and parsing stay folded. *)

Arguments set_images _ _ /.
Arguments set_textures _ _ /.
Arguments set_materials _ _ /.
Arguments set_objects _ _ /.
Arguments set_active_object _ _ /.
Arguments set_mode _ _ /.
Arguments set_areas _ _ /.
Arguments set_scene _ _ /.
Arguments set_packed _ _ /.
Arguments with_render_engine _ _ /.
Arguments with_material_mode _ _ /.
Arguments with_unit_system _ _ /.
Arguments with_frame_type _ _ /.
Arguments with_horizon_color _ _ /.
Arguments with_show_framerate_profile _ _ /.
Arguments set_bpy _ _ /.
Arguments set_disk _ _ /.
Arguments set_sys_path _ _ /.
Arguments set_stdout _ _ /.
Arguments set_stderr _ _ /.
Arguments set_commands _ _ /.
Arguments with_colorspace _ _ /.
Arguments with_tex_name _ _ /.
Arguments with_tex_type _ _ /.
Arguments with_tex_image _ _ /.
Arguments with_use_normal_map _ _ /.
Arguments with_slots _ _ /.
Arguments with_use_textures _ _ /.
Arguments with_active_texture_index _ _ /.
Arguments with_specular_intensity _ _ /.
Arguments with_mat_name _ _ /.
Arguments with_use_shadeless _ _ /.
Arguments with_diffuse_color _ _ /.
Arguments with_obj_name _ _ /.
Arguments with_obj_scale _ _ /.
Arguments with_obj_select _ _ /.
Arguments with_obj_material _ _ /.
Arguments with_obj_modifiers _ _ /.
Arguments with_obj_applied _ _ /.
Arguments with_obj_cuts _ _ /.
Arguments set_saved _ _ _ /.
Arguments after_command _ _ _ /.
Arguments default_object _ _ _ /.
Arguments default_slot _ /.
Arguments default_modifier _ /.
Arguments mk_image _ _ _ /.
Arguments decimal : simpl never.
Arguments py_max : simpl never.
Arguments py_split : simpl never.
Arguments py_mul : simpl never.
Arguments py_truediv : simpl never.
Arguments py_abs : simpl never.
Arguments half_extent : simpl never.
Arguments resolve : simpl never.
Arguments resolve_lines : simpl never.
Arguments newest : simpl never.
Arguments opened : simpl never.
Arguments listed_last : simpl never.

(** ** The block the host lists last *)

Lemma newest_cons {host : Host} (n' : string) (names : list string)
    (n : string) :
  newest (n' :: names) n = name_before n' n && newest names n.
Proof. reflexivity. Qed.

Lemma newest_app {host : Host} (names1 names2 : list string) (n : string) :
  newest (names1 ++ names2) n = newest names1 n && newest names2 n.
Proof. unfold newest. apply forallb_app. Qed.

(** A block listed after all the others is the one [coll[-1]] designates. *)
Lemma last_from_newest {host : Host} {A : Type} (name : A -> string) (x : A) :
  forall (l : list A) (best : nat) (best_name : string) (i : nat),
    name_before best_name (name x) = true ->
    newest (map name l) (name x) = true ->
    last_from name best best_name i (l ++ [x]) = (i + length l)%nat.
Proof.
  induction l as [|a l IH]; intros best best_name i Hbest Hl; cbn.
  - rewrite Hbest. cbn. lia.
  - cbn [map] in Hl. rewrite newest_cons in Hl.
    apply andb_prop in Hl as [Ha Hl].
    destruct (name_before best_name (name a)); rewrite IH by assumption; lia.
Qed.

Lemma last_named_snoc {host : Host} {A : Type} (name : A -> string)
    (l : list A) (x : A) :
  newest (map name l) (name x) = true ->
  last_named name (l ++ [x]) = Ok (length l + 0)%nat.
Proof.
  intros H. destruct l as [|a l]; cbn; [reflexivity|].
  cbn [map] in H. rewrite newest_cons in H. apply andb_prop in H as [Ha Hl].
  rewrite last_from_newest by assumption. f_equal. lia.
Qed.

Lemma last_named_snoc2 {host : Host} {A : Type} (name : A -> string)
    (l : list A) (a x : A) :
  newest (map name l ++ [name a]) (name x) = true ->
  last_named name (l ++ [a; x]) = Ok (length l + 1)%nat.
Proof.
  intros H. change (l ++ [a; x]) with (l ++ [a] ++ [x]).
  rewrite app_assoc, last_named_snoc.
  - rewrite length_app. cbn. f_equal. lia.
  - now rewrite map_app.
Qed.

(** [coll[-1]] fails on an empty collection only, and designates a block. *)
Lemma last_from_bound {host : Host} {A : Type} (name : A -> string) :
  forall (l : list A) (best : nat) (best_name : string) (i : nat),
    (best < i)%nat ->
    (last_from name best best_name i l < i + length l)%nat.
Proof.
  induction l as [|a l IH]; intros best best_name i Hi; cbn; [lia|].
  destruct (name_before best_name (name a)).
  - pose proof (IH i (name a) (S i) ltac:(lia)). lia.
  - pose proof (IH best best_name (S i) ltac:(lia)). lia.
Qed.

Lemma last_named_bound {host : Host} {A : Type} (name : A -> string)
    (l : list A) :
  l <> [] -> exists k, last_named name l = Ok k /\ (k < length l)%nat.
Proof.
  destruct l as [|a l]; [congruence|]. intros _. eexists. split; [reflexivity|].
  pose proof (last_from_bound name l 0 (name a) 1 ltac:(lia)).
  cbn. lia.
Qed.

Lemma delete_app_at {A : Type} (l r : list A) (k : nat) :
  delete (length l + k)%nat (l ++ r) = l ++ delete k r.
Proof. induction l as [|a l IH]; simpl; [reflexivity | now rewrite IH]. Qed.

(** Solves a side condition on names from a hypothesis. *)
Ltac names :=
  solve [repeat (rewrite ?map_app;
                 cbn [map app img_name tex_name mat_name]);
         assumption].

(** References into a collection that ends in known blocks. *)
Lemma last_ref_app {A : Type} (l : list A) (x : A) (r : list A) :
  last_ref (l ++ x :: r) = Ok (length l + length r)%nat.
Proof.
  unfold last_ref. destruct l as [|a l]; simpl.
  - reflexivity.
  - rewrite length_app. simpl. f_equal. lia.
Qed.

Lemma deref_app {A : Type} (l r : list A) (k : nat) :
  deref (l ++ r) (length l + k) = deref r k.
Proof. unfold deref. rewrite lookup_app_r by lia. now rewrite Nat.add_sub'. Qed.

Lemma assign_app {A : Type} (l r : list A) (k : nat) (f : A -> A) :
  assign (l ++ r) (length l + k) f =
  match assign r k f with Ok r' => Ok (l ++ r') | Raise e => Raise e end.
Proof.
  unfold assign. rewrite lookup_app_r by lia. rewrite Nat.add_sub'.
  destruct (r !! k); [|reflexivity]. now rewrite insert_app_r.
Qed.

Lemma lookup_app_at {A : Type} (l r : list A) (k : nat) :
  (l ++ r) !! (length l + k)%nat = r !! k.
Proof. rewrite lookup_app_r by lia. now rewrite Nat.add_sub'. Qed.

Lemma lookup_app_end {A : Type} (l r : list A) :
  (l ++ r) !! length l = r !! 0%nat.
Proof. rewrite <- (lookup_app_at l r 0). now rewrite Nat.add_0_r. Qed.

Ltac lookups :=
  repeat (progress (cbn; rewrite ?lookup_app_at, ?lookup_app_end)).

Lemma length_app_add {A : Type} (l r : list A) (k : nat) :
  (length (l ++ r) + k = length l + (length r + k))%nat.
Proof. rewrite length_app. lia. Qed.

(** [setup] deletes every object: all are selected first. *)
Lemma setup_objects (l : list Object) :
  List.filter (fun o => negb (obj_select o)) (map (with_obj_select true) l) = [].
Proof. induction l as [|o l IH]; simpl; [reflexivity | exact IH]. Qed.

Ltac expose :=
  unfold update_material, update_image, update_texture, get_material,
    get_image, new_texture, new_material, new_image_texture,
    set_active_texture, update_active_texture, get_active_texture,
    rename_active_texture, rename_texture, rename_material,
    set_use_texture, next_texture_index, ops_texture_new, ops_material_new,
    setup, update_scene, ops_select_all, ops_object_delete,
    modify_bpy, get_bpy, put_bpy, bind, lift.

(** Solves [m s = (Ok ?a, ?s')] by evaluating [m] on the state [s]; a
    [coll[-1]] is resolved from a hypothesis that the block is listed
    last. *)
Ltac run1 :=
  expose;
  repeat (progress (cbn;
                    rewrite ?last_named_snoc, ?last_named_snoc2 by names;
                    rewrite ?last_ref_app, ?deref_app, ?assign_app,
                      ?delete_app_at, ?app_nil_r, ?map_app,
                      ?length_app_add, <- ?app_assoc, ?setup_objects));
  reflexivity.

Ltac step := erewrite bind_ok by run1.

(** Normalises the states in the goal without touching the code to run. *)
Ltac state_simpl :=
  cbn [bpy disk sys_path stdout stderr commands images textures materials
       objects active_object mode areas scene packed saved data_filepath
       fst snd set_bpy set_disk set_sys_path set_stdout set_stderr
       set_commands set_images set_textures set_materials set_objects
       set_active_object set_mode set_areas set_scene set_packed set_saved
       after_command] in *.

(** ** Command line *)

Lemma py_index_separator (argv : list string) :
  match py_index "--" argv with
  | Ok i => ("--" ∈ argv) /\ (drop (i + 1) argv = args_after_separator argv)
  | Raise _ => ("--" ∉ argv) /\ (args_after_separator argv = [])
  end.
Proof.
  induction argv as [|a argv IH]; simpl.
  - split; [apply not_elem_of_nil | reflexivity].
  - case_bool_decide as Ha.
    + subst a. split; [apply list_elem_of_here | reflexivity].
    + destruct (py_index "--" argv) as [i|e]; destruct IH as [H1 H2].
      * split; [now apply list_elem_of_further | exact H2].
      * split; [|exact H2].
        intros Hin. apply elem_of_cons in Hin as [Heq|Hin]; [|tauto].
        now apply Ha.
Qed.

(** ** Binary64 arithmetic: signs and overflow *)

Lemma shr_1_bounds (r : shr_record) :
  0 <= shr_m r -> 0 <= shr_m (shr_1 r) <= shr_m r.
Proof.
  destruct r as [m b1 b2]. simpl.
  destruct m as [|p|p]; simpl; [lia| |lia].
  destruct p; simpl; lia.
Qed.

Lemma iter_shr_1_bounds (p : positive) : forall r,
  0 <= shr_m r -> 0 <= shr_m (SpecFloat.iter_pos shr_1 p r) <= shr_m r.
Proof.
  induction p as [p IH|p IH|]; intros r Hr; simpl.
  - pose proof (shr_1_bounds r Hr) as H1.
    pose proof (IH (shr_1 r) (proj1 H1)) as H2.
    pose proof (IH _ (proj1 H2)) as H3. lia.
  - pose proof (IH r Hr) as H2.
    pose proof (IH _ (proj1 H2)) as H3. lia.
  - now apply shr_1_bounds.
Qed.

Lemma shr_fexp_bounds (m e : Z) (l : location) :
  0 <= m ->
  0 <= shr_m (fst (shr_fexp prec emax m e l)) <= m /\
  snd (shr_fexp prec emax m e l) = Z.max e (fexp prec emax (Zdigits2 m + e)).
Proof.
  intros Hm. unfold shr_fexp, shr.
  assert (Hrec : shr_m (shr_record_of_loc m l) = m)
    by (destruct l as [|[]]; reflexivity).
  destruct (fexp prec emax (Zdigits2 m + e) - e) as [|n|n] eqn:E; simpl.
  - rewrite Hrec. lia.
  - pose proof (iter_shr_1_bounds n (shr_record_of_loc m l)) as H.
    rewrite Hrec in H. specialize (H Hm). lia.
  - rewrite Hrec. lia.
Qed.

Lemma round_nearest_even_bounds (m : Z) (l : location) :
  m <= round_nearest_even m l <= m + 1.
Proof.
  unfold round_nearest_even. destruct l as [|[]]; try lia.
  destruct (Z.even m); lia.
Qed.

(** Rounding a non-negative mantissa keeps the sign and yields no NaN. *)
Lemma binary_round_aux_nonnegative (mx ex : Z) (lx : location) :
  0 <= mx -> nonnegative (binary_round_aux prec emax false mx ex lx) = true.
Proof.
  intros Hm. unfold binary_round_aux.
  destruct (shr_fexp_bounds mx ex lx Hm) as [H1 _].
  destruct (shr_fexp prec emax mx ex lx) as [r1 e1]. simpl in H1.
  pose proof (round_nearest_even_bounds (shr_m r1) (loc_of_shr_record r1)) as Hr.
  set (m1 := round_nearest_even (shr_m r1) (loc_of_shr_record r1)) in *.
  assert (Hm1 : 0 <= m1) by lia.
  destruct (shr_fexp_bounds m1 e1 loc_Exact Hm1) as [H2 _].
  destruct (shr_fexp prec emax m1 e1 loc_Exact) as [r2 e2]. simpl in H2.
  destruct (shr_m r2) as [|p|p]; [reflexivity| |lia].
  now destruct (e2 <=? emax - prec).
Qed.

Lemma digits2_pos_size (p : positive) : digits2_pos p = Pos.size p.
Proof. induction p as [p IH|p IH|]; simpl; congruence. Qed.

Lemma Zdigits2_log2 (m : Z) : 0 < m -> Zdigits2 m = Z.log2 m + 1.
Proof.
  destruct m as [|p|p]; try lia. intros _. simpl.
  destruct p as [p|p|]; simpl; rewrite ?digits2_pos_size; lia.
Qed.

Lemma Zdigits2_nonneg (m : Z) : 0 <= Zdigits2 m.
Proof. destruct m; simpl; lia. Qed.

Lemma Zdigits2_mono (a b : Z) : 0 <= a <= b -> Zdigits2 a <= Zdigits2 b.
Proof.
  intros [Ha Hab]. destruct (Z.eq_dec a 0) as [->|Hne].
  - apply Zdigits2_nonneg.
  - rewrite !Zdigits2_log2 by lia.
    pose proof (Z.log2_le_mono a b Hab). lia.
Qed.

Lemma Zdigits2_succ (a : Z) : 0 <= a -> Zdigits2 (a + 1) <= Zdigits2 a + 1.
Proof.
  intros Ha. destruct (Z.eq_dec a 0) as [->|Hne]; [simpl; lia|].
  rewrite !Zdigits2_log2 by lia.
  pose proof (Z.log2_succ_le a). unfold Z.succ in *. lia.
Qed.

(** Rounding a non-negative mantissa of moderate size does not overflow. *)
Lemma binary_round_aux_finite (mx ex : Z) (lx : location) :
  0 <= mx -> Zdigits2 mx <= 100 -> ex <= 100 ->
  finite_nonnegative (binary_round_aux prec emax false mx ex lx) = true.
Proof.
  intros Hm Hd He. unfold binary_round_aux.
  destruct (shr_fexp_bounds mx ex lx Hm) as [H1 E1].
  destruct (shr_fexp prec emax mx ex lx) as [r1 e1]. simpl in H1, E1.
  pose proof (round_nearest_even_bounds (shr_m r1) (loc_of_shr_record r1)) as Hr.
  set (m1 := round_nearest_even (shr_m r1) (loc_of_shr_record r1)) in *.
  assert (Hm1 : 0 <= m1) by lia.
  destruct (shr_fexp_bounds m1 e1 loc_Exact Hm1) as [H2 E2].
  destruct (shr_fexp prec emax m1 e1 loc_Exact) as [r2 e2]. simpl in H2, E2.
  destruct (shr_m r2) as [|p|p]; [reflexivity| |lia].
  assert (Hd1 : Zdigits2 m1 <= 101).
  { pose proof (Zdigits2_mono m1 (mx + 1) ltac:(lia)).
    pose proof (Zdigits2_succ mx Hm). lia. }
  pose proof (Zdigits2_nonneg mx). pose proof (Zdigits2_nonneg m1).
  unfold fexp, emin, prec, emax in *.
  destruct (Z.leb_spec e2 (1024 - 53)); [reflexivity | lia].
Qed.

Lemma digits2_pos_iter (k p : positive) :
  digits2_pos (Pos.iter xO p k) = (digits2_pos p + k)%positive.
Proof.
  induction k as [|k IH] using Pos.peano_ind.
  - simpl. lia.
  - rewrite Pos.iter_succ. simpl. rewrite IH. lia.
Qed.

Lemma Zdigits2_small (w : Z) : 0 <= w < 2 ^ 31 -> Zdigits2 w <= 31.
Proof.
  intros [H0 H1]. destruct (Z.eq_dec w 0) as [->|Hne]; [simpl; lia|].
  rewrite Zdigits2_log2 by lia.
  assert (Z.log2 w < 31) by (apply Z.log2_lt_pow2; lia). lia.
Qed.

(** [float(w)] of a pixel count does not overflow. *)
Lemma float_of_int_small (w : Z) :
  0 <= w < 2 ^ 31 ->
  exists f, float_of_int w = Ok f /\ finite_nonnegative f = true /\
            (w = 0 -> f = S754_zero false).
Proof.
  intros Hw. unfold float_of_int.
  destruct w as [|p|p]; [| |lia].
  - eexists. repeat split; reflexivity.
  - pose proof (Zdigits2_small (Zpos p) Hw) as Hd. simpl in Hd.
    assert (Hfin : finite_nonnegative (binary_normalize prec emax (Zpos p) 0 false) = true).
    { unfold binary_normalize, binary_round, shl_align.
      assert (Hf : fexp prec emax (Zpos (digits2_pos p) + 0) = Zpos (digits2_pos p) - 53)
        by (unfold fexp, emin, prec, emax; lia).
      rewrite Hf.
      destruct (Zpos (digits2_pos p) - 53 - 0) as [|k|k] eqn:E; try lia.
      apply binary_round_aux_finite; [lia| |lia].
      simpl. rewrite digits2_pos_iter. lia. }
    destruct (binary_normalize prec emax (Zpos p) 0 false) as [| | |[] m e];
      try discriminate; eexists; repeat split; try reflexivity; discriminate.
Qed.

Lemma fmul_nonnegative (x y : spec_float) :
  finite_nonnegative x = true -> finite_nonnegative y = true ->
  nonnegative (fmul x y) = true.
Proof.
  destruct x as [sx|sx| |[] mx ex]; try discriminate;
    destruct y as [sy|sy| |[] my ey]; try discriminate; intros _ _;
    try reflexivity.
  unfold fmul, SFmul. apply binary_round_aux_nonnegative. lia.
Qed.

Lemma fmul_zero_l (y : spec_float) :
  finite_nonnegative y = true -> is_zero (fmul (S754_zero false) y) = true.
Proof. destruct y as [sy|sy| |[] my ey]; try discriminate; reflexivity. Qed.

Lemma div_eucl_nonneg (a : Z) (b : positive) :
  0 <= a -> 0 <= fst (Z.div_eucl a (Zpos b)) <= a.
Proof.
  intros Ha. change (fst (Z.div_eucl a (Zpos b))) with (a / Zpos b).
  split; [apply Z.div_pos; lia|].
  apply Z.div_le_upper_bound; [lia|]. nia.
Qed.

(** Dividing by a positive finite number keeps [0 <= x]. *)
Lemma fdiv_nonnegative (x : spec_float) (my : positive) (ey : Z) :
  nonnegative x = true ->
  nonnegative (fdiv x (S754_finite false my ey)) = true.
Proof.
  destruct x as [sx|[]| |[] mx ex]; try discriminate; intros _; try reflexivity.
  unfold fdiv, SFdiv, SFdiv_core_binary.
  set (e' := Z.min _ _). set (m' := match ex - ey - e' with Z0 => _ | _ => _ end).
  assert (Hm' : 0 <= m').
  { subst m'. destruct (ex - ey - e'); try lia. apply Z.shiftl_nonneg. lia. }
  pose proof (div_eucl_nonneg m' my Hm') as Hq.
  destruct (Z.div_eucl m' (Zpos my)) as [q r]. simpl in Hq.
  apply binary_round_aux_nonnegative. lia.
Qed.

Lemma fdiv_zero (x : spec_float) (my : positive) (ey : Z) :
  is_zero x = true -> is_zero (fdiv x (S754_finite false my ey)) = true.
Proof. destruct x; try discriminate; reflexivity. Qed.

(** [w / 2] for a pixel count [w]. *)
Lemma int_half_small (w : Z) :
  0 <= w < 2 ^ 31 ->
  finite_nonnegative (fdiv (exact_of_int w) (exact_of_int 2)) = true /\
  (w = 0 -> is_zero (fdiv (exact_of_int w) (exact_of_int 2)) = true).
Proof.
  intros Hw. destruct w as [|p|p]; [split; reflexivity| |lia].
  split; [|discriminate].
  pose proof (Zdigits2_small (Zpos p) Hw) as Hd.
  pose proof (Zdigits2_nonneg (Zpos p)) as Hd0.
  unfold fdiv, exact_of_int, SFdiv, SFdiv_core_binary.
  change (Zdigits2 2) with 2.
  assert (He : Z.min (fexp prec emax (Zdigits2 (Zpos p) + 0 - (2 + 0))) (0 - 0)
               = Zdigits2 (Zpos p) - 55)
    by (unfold fexp, emin, prec, emax; lia).
  rewrite He.
  set (m' := match 0 - 0 - (Zdigits2 (Zpos p) - 55) with Z0 => _ | _ => _ end).
  assert (Hm' : 0 <= m' /\ Zdigits2 m' <= 100).
  { subst m'. destruct (0 - 0 - (Zdigits2 (Zpos p) - 55)) as [|k|k] eqn:E; try lia.
    split; [apply Z.shiftl_nonneg; lia|].
    assert (0 < Z.shiftl (Zpos p) (Zpos k)).
    { rewrite Z.shiftl_mul_pow2 by lia.
      apply Z.mul_pos_pos; [lia | apply Z.pow_pos_nonneg; lia]. }
    rewrite Zdigits2_log2 by lia. rewrite Z.log2_shiftl by lia.
    rewrite Zdigits2_log2 in Hd by lia. lia. }
  pose proof (div_eucl_nonneg m' 2 (proj1 Hm')) as Hq.
  destruct (Z.div_eucl m' 2) as [q r]. simpl in Hq.
  apply binary_round_aux_finite; [lia| |lia].
  pose proof (Zdigits2_mono q m' ltac:(lia)). lia.
Qed.

(** The two halves of the extent, for a pixel count [w]. *)
Lemma half_extent_float (w : Z) (f : spec_float) :
  0 <= w < 2 ^ 31 -> is_finite f = true ->
  exists x, half_extent w (PyFloat f) = Ok (PyFloat x) /\
            nonnegative x = true /\ (w = 0 -> is_zero x = true).
Proof.
  intros Hw Hf.
  destruct (float_of_int_small w Hw) as (fw & Hfw & Hfin & Hz).
  assert (H2 : float_of_int 2 = Ok (S754_finite false 4503599627370496 (-51)))
    by (vm_compute; reflexivity).
  assert (Habs : finite_nonnegative (SFabs f) = true)
    by (destruct f; try discriminate; reflexivity).
  unfold half_extent, py_abs, py_mul. rewrite Hfw.
  unfold py_truediv. rewrite H2. unfold float_truediv. cbn [is_zero].
  eexists. split; [reflexivity|]. split.
  - apply fdiv_nonnegative. now apply fmul_nonnegative.
  - intros ->. apply fdiv_zero. rewrite (Hz eq_refl). now apply fmul_zero_l.
Qed.

Lemma half_extent_int (w n : Z) :
  0 <= w < 2 ^ 31 -> n = 0 \/ n = 1 ->
  exists x, half_extent w (PyInt n) = Ok (PyFloat x) /\
            nonnegative x = true /\ (w = 0 -> is_zero x = true).
Proof.
  intros Hw Hn. unfold half_extent, py_abs, py_mul, py_truediv.
  change (2 =? 0) with false. cbv iota.
  assert (Hp : 0 <= w * Z.abs n < 2 ^ 31) by (destruct Hn; subst n; lia).
  destruct (int_half_small (w * Z.abs n) Hp) as [Hfin Hz].
  destruct (fdiv (exact_of_int (w * Z.abs n)) (exact_of_int 2))
    as [sx|sx| |[] m e] eqn:E; try discriminate.
  - eexists. split; [reflexivity|]. split; [reflexivity|]. reflexivity.
  - eexists. split; [reflexivity|]. split; [reflexivity|].
    intros ->. now apply Hz.
Qed.

Lemma py_le_zero (x : spec_float) :
  nonnegative x = true -> py_le (PyInt 0) (PyFloat x) = true.
Proof.
  destruct x as [sx|[]| |[] m e]; try discriminate; intros _;
    unfold py_le, py_compare, compare_int_float; try reflexivity.
  unfold signed. destruct (0 <=? e) eqn:He.
  - apply Z.leb_le in He.
    assert (0 < Zpos m * 2 ^ e)
      by (apply Z.mul_pos_pos; [lia | apply Z.pow_pos_nonneg; lia]).
    now destruct (Z.compare_spec 0 (Zpos m * 2 ^ e)); try lia.
  - reflexivity.
Qed.

Lemma py_eq_zero (x : spec_float) :
  is_zero x = true -> py_eq (PyFloat x) (PyInt 0) = true.
Proof. destruct x; try discriminate; reflexivity. Qed.

(** ** Comparison and [max] *)

Lemma SFcompare_antisym (f g : spec_float) :
  SFcompare g f = option_map CompOpp (SFcompare f g).
Proof.
  destruct f as [s1| s1| |s1 m1 e1], g as [s2|s2| |s2 m2 e2]; cbn;
    try reflexivity;
    try (destruct s1; reflexivity); try (destruct s2; reflexivity);
    try (destruct s1, s2; reflexivity).
  destruct s1, s2; cbn; try reflexivity;
    rewrite (Z.compare_antisym e1 e2);
    destruct (e1 ?= e2); cbn; try reflexivity;
    rewrite (Pos.compare_cont_antisym m1 m2 Eq); cbn;
    destruct (Pos.compare_cont Eq m1 m2); reflexivity.
Qed.

Lemma SFcompare_refl (f g : spec_float) (c : comparison) :
  SFcompare f g = Some c -> SFcompare f f = Some Eq.
Proof.
  destruct f as [s1| s1| |s1 m1 e1]; cbn; try reflexivity.
  - destruct s1; reflexivity.
  - destruct g; discriminate.
  - intros _. rewrite Z.compare_refl.
    change (Pos.compare_cont Eq m1 m1) with (Pos.compare m1 m1).
    rewrite Pos.compare_refl. destruct s1; reflexivity.
Qed.

Lemma py_compare_antisym (x y : pynum) :
  py_compare y x = option_map CompOpp (py_compare x y).
Proof.
  destruct x as [a|f], y as [b|g]; cbn.
  - now rewrite (Z.compare_antisym a b).
  - reflexivity.
  - destruct (compare_int_float b f) as [[| |]|]; reflexivity.
  - apply SFcompare_antisym.
Qed.

(** Two numbers that compare are each equal to themselves: neither is NaN. *)
Lemma py_compare_refl (x y : pynum) (c : comparison) :
  py_compare x y = Some c -> py_compare x x = Some Eq.
Proof.
  destruct x as [a|f]; cbn.
  - intros _. now rewrite Z.compare_refl.
  - destruct y as [b|g]; cbn.
    + destruct f as [s| s| |s m e]; cbn; try discriminate; intros _;
        try (destruct s; reflexivity).
      rewrite Z.compare_refl.
      change (Pos.compare_cont Eq m m) with (Pos.compare m m).
      rewrite Pos.compare_refl. destruct s; reflexivity.
    + apply SFcompare_refl.
Qed.

(** [max(x, y)] is one of its arguments, and neither argument is greater
    when the two compare. *)
Lemma py_max_either (x y : pynum) : py_max x y = x \/ py_max x y = y.
Proof. unfold py_max. destruct (py_gt y x); auto. Qed.

Lemma py_max_upper (x y : pynum) :
  py_compare x y <> None ->
  py_le x (py_max x y) = true /\ py_le y (py_max x y) = true.
Proof.
  intros Hc. destruct (py_compare x y) as [c|] eqn:Hxy; [|congruence].
  pose proof (py_compare_antisym x y) as Hyx. rewrite Hxy in Hyx. cbn in Hyx.
  pose proof (py_compare_refl x y c Hxy) as Hxx.
  pose proof (py_compare_refl y x _ Hyx) as Hyy.
  unfold py_max, py_gt, py_le. rewrite Hyx.
  destruct c; cbn; rewrite ?Hxy, ?Hyx, ?Hxx, ?Hyy; auto.
Qed.

Section Verification.

Context {host : Host} {rt : Runtime}.

(** The slice the source takes of [argv] is [args_after_separator]. *)
Lemma main_args (argv : list string) (s : State) :
  (if bool_decide ("--" ∈ argv)
   then let! i := lift (py_index "--" argv) in ret (drop (i + 1) argv)
   else ret []) s = (Ok (args_after_separator argv), s).
Proof.
  pose proof (py_index_separator argv) as H.
  destruct (py_index "--" argv) as [i|e]; destruct H as [H1 H2].
  - rewrite bool_decide_true by assumption.
    unfold bind, lift, ret. now rewrite H2.
  - rewrite bool_decide_false by assumption.
    unfold ret. now rewrite H2.
Qed.

(** Every [return] of [main] after the usage check is [return 0]. *)
Lemma main_returns_zero (argv : list string) (s s' : State) (r : Z) :
  (2 <= length (args_after_separator argv))%nat ->
  main argv s = (Ok r, s') -> r = 0.
Proof.
  intros Hlen. unfold main.
  unfold bind at 1. rewrite main_args.
  destruct (decide (length (args_after_separator argv) < 2)%nat); [lia|].
  intros H.
  repeat (apply bind_inv in H as (? & ? & _ & H)).
  unfold ret in H. congruence.
Qed.

(** C6: for every argument vector in which fewer than two arguments follow
    the separator ["--"] (none at all when there is no separator), [main]
    writes the usage message to the error stream and returns 1, leaving the
    host, the disk and everything else as they were: no mesh is built.  For
    every other argument vector, a run of [main] that returns, returns 0. *)
Theorem main_exit_status (argv : list string) (s : State) :
  if decide (length (args_after_separator argv) < 2)%nat
  then main argv s = (Ok 1, set_stderr (stderr s ++ [usage_text]) s)
  else forall r s', main argv s = (Ok r, s') -> r = 0.
Proof.
  destruct (decide (length (args_after_separator argv) < 2)%nat) as [Hlt|Hge].
  - unfold main. unfold bind at 1. rewrite main_args.
    destruct (decide (length (args_after_separator argv) < 2)%nat); [|lia].
    reflexivity.
  - intros r s'. apply main_returns_zero. lia.
Qed.

(** ** Strings: splitting the text of a tuple *)

Lemma append_cons (c : ascii) (s1 s2 : string) :
  String c s1 +:+ s2 = String c (s1 +:+ s2).
Proof. reflexivity. Qed.

Lemma append_empty_l (s1 : string) : "" +:+ s1 = s1.
Proof. reflexivity. Qed.

Lemma append_assoc (s1 s2 s3 : string) : (s1 +:+ s2) +:+ s3 = s1 +:+ s2 +:+ s3.
Proof.
  induction s1 as [|c s1 IH]; rewrite ?append_cons, ?append_empty_l;
    congruence.
Qed.

Lemma append_empty_r (s1 : string) : s1 +:+ "" = s1.
Proof.
  induction s1 as [|c s1 IH]; rewrite ?append_cons, ?append_empty_l;
    congruence.
Qed.

(** A piece without a comma is read through to its end. *)
Lemma split_from_piece (t : string) : forall acc rest,
  comma_free t = true ->
  split_from ", " 0 acc (t +:+ rest) = split_from ", " 0 (acc +:+ t) rest.
Proof.
  induction t as [|c t IH]; intros acc rest Hfree; simpl in Hfree.
  - now rewrite append_empty_r, append_empty_l.
  - case_bool_decide as Hc; [discriminate|].
    rewrite append_cons. cbn [split_from String.prefix].
    destruct (ascii_dec "," c) as [Heq|_]; [now subst c|].
    rewrite IH by assumption.
    now rewrite append_assoc, append_cons, append_empty_l.
Qed.

Lemma split_join (l : list string) : forall t acc,
  forallb comma_free (t :: l) = true ->
  split_from ", " 0 acc (py_join ", " (t :: l)) = (acc +:+ t) :: l.
Proof.
  induction l as [|t2 l IH]; intros t acc Hfree.
  - simpl in *. apply andb_prop in Hfree as [Ht _].
    rewrite <- (append_empty_r t) at 1.
    now rewrite split_from_piece.
  - change (py_join ", " (t :: t2 :: l))
      with (t +:+ ", " +:+ py_join ", " (t2 :: l)).
    simpl in Hfree. apply andb_prop in Hfree as [Ht Hrest].
    rewrite split_from_piece by assumption.
    change (", " +:+ py_join ", " (t2 :: l))
      with (String "," (String " " (py_join ", " (t2 :: l)))).
    cbn [split_from String.prefix String.length Nat.sub].
    destruct (ascii_dec "," ","); [|congruence].
    destruct (ascii_dec " " " "); [|congruence].
    replace (String.prefix "" (py_join ", " (t2 :: l))) with true
      by now destruct (py_join ", " (t2 :: l)).
    now rewrite IH, append_empty_l.
Qed.

Lemma substring_prefix (body rest : string) :
  substring 0 (String.length body) (body +:+ rest) = body.
Proof.
  induction body as [|c body IH]; rewrite ?append_cons, ?append_empty_l; simpl.
  - now destruct rest.
  - now rewrite IH.
Qed.

Lemma length_append (s1 s2 : string) :
  String.length (s1 +:+ s2) = (String.length s1 + String.length s2)%nat.
Proof.
  induction s1 as [|c s1 IH]; rewrite ?append_cons, ?append_empty_l; simpl;
    congruence.
Qed.

Lemma strip_ends_tuple (pieces : list string) :
  strip_ends (tuple_text pieces) = py_join ", " pieces.
Proof.
  unfold strip_ends, tuple_text. rewrite append_cons, append_empty_l.
  simpl. rewrite length_append. simpl.
  replace (String.length (py_join ", " pieces) + 1 - 1)%nat
    with (String.length (py_join ", " pieces)) by lia.
  apply substring_prefix.
Qed.

(** The pieces of a printed tuple are read back as they were printed. *)
Lemma split_tuple_text (pieces : list string) :
  pieces <> [] ->
  forallb comma_free pieces = true ->
  py_split ", " (strip_ends (tuple_text pieces)) = pieces.
Proof.
  intros Hne Hfree. rewrite strip_ends_tuple.
  destruct pieces as [|t l]; [congruence|].
  unfold py_split. now rewrite split_join.
Qed.

(** ** The list comprehension over [float] *)

Lemma float_list_parsed (pieces : list string) (values : list spec_float) :
  Forall2 (fun t v => float_of_string t = Some v) pieces values ->
  float_list pieces = Ok (map PyFloat values).
Proof.
  induction 1 as [|t v pieces values Ht _ IH]; simpl.
  - reflexivity.
  - unfold py_float. now rewrite Ht, IH.
Qed.

Lemma float_list_rejects (pieces : list string) :
  Exists (fun t => float_of_string t = None) pieces ->
  float_list pieces = Raise ValueError.
Proof.
  induction 1 as [t pieces Ht|t pieces _ IH]; simpl; unfold py_float.
  - now rewrite Ht.
  - destruct (float_of_string t); [now rewrite IH | reflexivity].
Qed.

Lemma float_list_length (pieces : list string) : forall values,
  float_list pieces = Ok values -> length values = length pieces.
Proof.
  induction pieces as [|t pieces IH]; simpl; intros values H.
  - now inversion H.
  - destruct (py_float t); [|discriminate].
    destruct (float_list pieces) as [vs|]; [|discriminate].
    inversion H. simpl. now rewrite (IH vs).
Qed.

(** ** [geotransform], branch by branch *)

Lemma ext_exec_default (cmd : string) (s : State) :
  ext_exec cmd None s =
  match shell (python_name +:+ " -c" +:+ dquote +:+ cmd +:+ dquote) (disk s) with
  | (Ok (_, out), d) =>
      (Ok out, after_command (python_name +:+ " -c" +:+ dquote +:+ cmd +:+ dquote) d s)
  | (Raise e, d) =>
      (Raise e, after_command (python_name +:+ " -c" +:+ dquote +:+ cmd +:+ dquote) d s)
  end.
Proof.
  unfold ext_exec, getoutput, run_shell, bind, python_name.
  destruct (shell _ (disk s)) as [[[st out]|e] d]; reflexivity.
Qed.

(** The query raised: warning, then the default. *)
Lemma geotransform_query_raises (filepath : string) (s : State) e d :
  shell (geotransform_command filepath) (disk s) = (Raise e, d) ->
  geotransform filepath s =
  (Ok identity_transform,
   set_stdout (stdout s ++ ["[WARNING] GDAL error GetGeoTransform"])
     (after_command (geotransform_command filepath) d s)).
Proof.
  intros H. unfold geotransform, bind, try_except.
  rewrite ext_exec_default. fold (geotransform_command filepath).
  rewrite H. reflexivity.
Qed.

(** Empty output: the default, without a warning. *)
Lemma geotransform_empty (filepath : string) (s : State) st d :
  shell (geotransform_command filepath) (disk s) = (Ok (st, ""), d) ->
  geotransform filepath s =
  (Ok identity_transform, after_command (geotransform_command filepath) d s).
Proof.
  intros H. unfold geotransform, bind, try_except.
  rewrite ext_exec_default. fold (geotransform_command filepath).
  rewrite H. reflexivity.
Qed.

(** Output whose pieces all read as floats: those floats, however many. *)
Lemma geotransform_parsed (filepath : string) (s : State) st out d values :
  shell (geotransform_command filepath) (disk s) = (Ok (st, out), d) ->
  out <> "" ->
  float_list (py_split ", " (strip_ends out)) = Ok values ->
  geotransform filepath s =
  (Ok values,
   set_stdout (stdout s ++ ["[DEBUG] GetGeoTransform: " +:+ out])
     (after_command (geotransform_command filepath) d s)).
Proof.
  intros H Hne Hv. unfold geotransform, bind, try_except.
  rewrite ext_exec_default. fold (geotransform_command filepath).
  rewrite H. destruct out as [|c out]; [congruence|].
  unfold print, lift, ret. cbv beta iota. rewrite Hv. reflexivity.
Qed.

(** Output with a piece that is no float: warning, then the default. *)
Lemma geotransform_rejected (filepath : string) (s : State) st out d e :
  shell (geotransform_command filepath) (disk s) = (Ok (st, out), d) ->
  out <> "" ->
  float_list (py_split ", " (strip_ends out)) = Raise e ->
  geotransform filepath s =
  (Ok identity_transform,
   set_stdout (stdout s ++ ["[DEBUG] GetGeoTransform: " +:+ out;
                            "[WARNING] GDAL error GetGeoTransform"])
     (after_command (geotransform_command filepath) d s)).
Proof.
  intros H Hne Hv. unfold geotransform, bind, try_except.
  rewrite ext_exec_default. fold (geotransform_command filepath).
  rewrite H. destruct out as [|c out]; [congruence|].
  unfold print, lift, ret. cbv beta iota. rewrite Hv.
  unfold set_stdout, after_command. simpl. now rewrite <- app_assoc.
Qed.

(** [geotransform] returns on every state, and touches nothing but the
    disk (through the query), the command record and the output. *)
Lemma geotransform_returns (filepath : string) (s : State) :
  exists values lines d,
    geotransform filepath s =
    (Ok values,
     set_stdout (stdout s ++ lines)
       (after_command (geotransform_command filepath) d s)).
Proof.
  destruct (shell (geotransform_command filepath) (disk s))
    as [[[st out]|e] d] eqn:H.
  - destruct (string_dec out "") as [->|Hne].
    + eexists _, [], d. rewrite (geotransform_empty _ _ _ _ H).
      f_equal. destruct s; unfold after_command, set_stdout; simpl.
      now rewrite app_nil_r.
    + destruct (float_list (py_split ", " (strip_ends out))) as [vs|e] eqn:Hv.
      * eexists _, _, d. now rewrite (geotransform_parsed _ _ _ _ _ _ H Hne Hv).
      * eexists _, _, d. now rewrite (geotransform_rejected _ _ _ _ _ _ H Hne Hv).
  - eexists _, _, d. now rewrite (geotransform_query_raises _ _ _ _ H).
Qed.

(** For any result of the query, what [geotransform] does. *)
Lemma geotransform_run (filepath : string) (s : State) rq d :
  shell (geotransform_command filepath) (disk s) = (rq, d) ->
  geotransform filepath s =
  (Ok (resolve rq),
   set_stdout (stdout s ++ resolve_lines rq)
     (after_command (geotransform_command filepath) d s)).
Proof.
  intros H. destruct rq as [[st out]|e].
  - destruct (string_dec out "") as [->|Hne].
    + rewrite (geotransform_empty _ _ _ _ H). simpl.
      destruct s; simpl. now rewrite app_nil_r.
    + unfold resolve, resolve_lines.
      destruct (float_list (py_split ", " (strip_ends out))) as [vs|e] eqn:Hv.
      * rewrite (geotransform_parsed _ _ _ _ _ _ H Hne Hv).
        destruct out; [congruence | reflexivity].
      * rewrite (geotransform_rejected _ _ _ _ _ _ H Hne Hv).
        destruct out; [congruence | reflexivity].
  - now rewrite (geotransform_query_raises _ _ _ _ H).
Qed.

(** The elements of a resolved transform: the integers 0 and 1 of the
    default, or floats. *)
Lemma float_list_floats (pieces : list string) : forall values,
  float_list pieces = Ok values ->
  Forall (fun c => exists f, c = PyFloat f) values.
Proof.
  induction pieces as [|t pieces IH]; simpl; intros values H.
  - inversion H. constructor.
  - unfold py_float in H. destruct (float_of_string t) as [f|]; [|discriminate].
    destruct (float_list pieces) as [vs|]; [|discriminate].
    inversion H. constructor; [now exists f | now apply IH].
Qed.

Lemma identity_number (i : nat) (c : pynum) :
  py_getitem identity_transform i = Ok c -> c = PyInt 0 \/ c = PyInt 1.
Proof.
  unfold py_getitem, identity_transform.
  do 6 (destruct i as [|i]; [cbn; intros H; inversion H; auto|]).
  discriminate.
Qed.

Lemma resolve_number (rq : result (Z * string)) (i : nat) (c : pynum) :
  py_getitem (resolve rq) i = Ok c ->
  (c = PyInt 0 \/ c = PyInt 1) \/ exists f, c = PyFloat f.
Proof.
  unfold resolve. destruct rq as [[st out]|e];
    [|intros H; left; now apply (identity_number i)].
  destruct out as [|a out]; [intros H; left; now apply (identity_number i)|].
  destruct (float_list _) as [vs|e] eqn:Hv;
    [|intros H; left; now apply (identity_number i)].
  unfold py_getitem. destruct (vs !! i) as [c'|] eqn:E; [|discriminate].
  intros H. inversion H; subst c'. right.
  apply float_list_floats in Hv.
  exact (proj1 (Forall_lookup _ _) Hv i c E).
Qed.

Lemma half_extent_resolved (rq : result (Z * string)) (i : nat) (c : pynum)
    (w : Z) :
  py_getitem (resolve rq) i = Ok c -> number_finite c = true ->
  0 <= w < 2 ^ 31 ->
  exists x, half_extent w c = Ok (PyFloat x) /\
            nonnegative x = true /\ (w = 0 -> is_zero x = true).
Proof.
  intros Hc Hfin Hw. destruct (resolve_number _ _ _ Hc) as [Hn|[f ->]].
  - destruct Hn as [-> | ->]; apply half_extent_int; auto.
  - now apply half_extent_float.
Qed.

(** C4 (amended): for every DEM raster (dimensions from 0 to 2^31 - 1) and
    every transform [geotransform] returns whose coefficients 1 and 5 exist
    and are finite numbers, the extent is defined and non-negative in both
    components; its first component is 0 when the width is 0 and its second
    component is 0 when the height is 0, so it is [(0, 0)] when both are. *)
Theorem extent_nonnegative (filepath : string) (s s' : State)
    (geot : list pynum) (w h : Z) (c1 c5 : pynum) :
  geotransform filepath s = (Ok geot, s') ->
  py_getitem geot 1 = Ok c1 -> py_getitem geot 5 = Ok c5 ->
  number_finite c1 = true -> number_finite c5 = true ->
  0 <= w < 2 ^ 31 -> 0 <= h < 2 ^ 31 ->
  exists x y,
    Extent (w, h) geot = Ok (x, y) /\
    py_le (PyInt 0) x = true /\ py_le (PyInt 0) y = true /\
    (w = 0 -> py_eq x (PyInt 0) = true) /\
    (h = 0 -> py_eq y (PyInt 0) = true).
Proof.
  intros Hrun H1 H5 Hf1 Hf5 Hw Hh.
  destruct (shell (geotransform_command filepath) (disk s)) as [rq d] eqn:Hq.
  rewrite (geotransform_run _ _ _ _ Hq) in Hrun.
  injection Hrun as <- _.
  destruct (half_extent_resolved _ _ _ w H1 Hf1 Hw) as (x & Hx & Hx0 & Hxz).
  destruct (half_extent_resolved _ _ _ h H5 Hf5 Hh) as (y & Hy & Hy0 & Hyz).
  exists (PyFloat x), (PyFloat y). unfold Extent. cbn [fst snd].
  rewrite H1, Hx, H5, Hy.
  split; [reflexivity|].
  split; [now apply py_le_zero|]. split; [now apply py_le_zero|].
  split; intros Hz; apply py_eq_zero; auto.
Qed.

(** ** [main], from the usage check to [return 0] *)

(** A file that is not loaded yet, and whose block the host lists last, is
    the image [open_image] returns. *)
Lemma open_image_run (p : string) (sz : Z * Z) (s : State) :
  disk s !! p = Some sz ->
  opened (images (bpy s)) p = false ->
  newest (map img_name (images (bpy s)))
    (unique_name (map img_name (images (bpy s))) (image_name p)) = true ->
  open_image p s =
  (Ok (length (images (bpy s)) + 0)%nat,
   set_bpy
     (set_images
        (images (bpy s) ++
         [mk_image (unique_name (map img_name (images (bpy s))) (image_name p))
            p sz]) (bpy s)) s).
Proof.
  intros H Hnew Hlast. unfold open_image, bind, ops_image_open.
  rewrite H, Hnew. unfold get_bpy, lift. cbn.
  now rewrite last_named_snoc by names.
Qed.

Lemma opened_app (l1 l2 : list Image) (p : string) :
  opened (l1 ++ l2) p = opened l1 p || opened l2 p.
Proof. unfold opened. apply existsb_app. Qed.

(** A file that is not loaded yet gets a block of its own; the image
    [open_image] returns is the one the host then lists last. *)
Lemma open_image_new (p : string) (sz : Z * Z) (s : State) :
  disk s !! p = Some sz ->
  opened (images (bpy s)) p = false ->
  open_image p s =
  (Ok (listed_last
         (images (bpy s) ++
          [mk_image (unique_name (map img_name (images (bpy s))) (image_name p))
             p sz])),
   set_bpy
     (set_images
        (images (bpy s) ++
         [mk_image (unique_name (map img_name (images (bpy s))) (image_name p))
            p sz]) (bpy s)) s).
Proof.
  intros H Hnew. unfold open_image, bind, ops_image_open, listed_last.
  rewrite H, Hnew. unfold get_bpy, lift. cbn.
  match goal with
  | |- context [last_named img_name ?l] =>
      destruct (last_named_bound img_name l) as (k & Hk & _)
  end.
  - intros Hnil. now apply app_eq_nil in Hnil as [_ ?].
  - now rewrite Hk.
Qed.

Lemma listed_last_lookup (imgs : list Image) :
  imgs <> [] ->
  exists i, imgs !! listed_last imgs = Some i /\
            listed_last_size imgs = img_size i.
Proof.
  intros Hne. unfold listed_last_size, listed_last.
  destruct (last_named_bound img_name imgs Hne) as (k & -> & Hk).
  destruct (lookup_lt_is_Some_2 imgs k Hk) as [i Hi].
  exists i. now rewrite Hi.
Qed.

(** When the host lists the second image last, that is the one taken. *)
Lemma listed_last_colour (b : Blender) (dem_path img_path : string)
    (dem_dims img_dims : Z * Z) :
  colour_last b dem_path img_path = true ->
  listed_last (loaded b dem_path img_path dem_dims img_dims)
  = (length (images b) + 1)%nat /\
  listed_last_size (loaded b dem_path img_path dem_dims img_dims) = img_dims.
Proof.
  intros H. unfold colour_last in H.
  assert (Hk : listed_last (loaded b dem_path img_path dem_dims img_dims)
               = (length (images b) + 1)%nat).
  { unfold listed_last, loaded. now rewrite last_named_snoc2 by names. }
  split; [exact Hk|].
  unfold listed_last_size. rewrite Hk. unfold loaded.
  now rewrite (lookup_app_at _ _ 1).
Qed.

(** What [created_last] says, part by part. *)
Lemma created_last_parts (b : Blender) (dem_path img_path : string) :
  created_last b dem_path img_path = true ->
  opened (images b) dem_path = false /\
  opened (images b) img_path = false /\
  dem_path <> img_path /\
  newest (map img_name (images b)) (dem_image_name b dem_path) = true /\
  newest (map tex_name (textures b))
    (unique_name (map tex_name (textures b)) "Texture") = true /\
  newest (map tex_name (textures b) ++ [dem_texture_name b])
    (unique_name (map tex_name (textures b) ++ [dem_texture_name b])
       "Texture") = true /\
  newest (map mat_name (materials b))
    (unique_name (map mat_name (materials b)) "Material") = true.
Proof.
  unfold created_last. intros H.
  repeat (apply andb_prop in H as [H ?]).
  repeat match goal with
         | H : negb _ = true |- _ => apply negb_true_iff in H
         end.
  repeat split; try assumption.
  match goal with
  | H : bool_decide _ = false |- _ => now apply bool_decide_eq_false in H
  end.
Qed.

Lemma fix_python_path_run (s : State) st out d :
  shell path_command (disk s) = (Ok (st, out), d) ->
  fix_python_path s =
  (Ok tt, set_sys_path (sys_path s ++ py_split os_pathsep out)
            (after_command path_command d s)).
Proof.
  intros H. unfold fix_python_path, bind. rewrite ext_exec_default.
  fold path_command. rewrite H. reflexivity.
Qed.

Section MainRun.

Variables (argv : list string) (s : State).
Variables (dem_path img_path : string) (rest : list string).
Variables (dem_dims img_dims : Z * Z).
Variables (st : Z) (out : string) (d1 d2 : Disk) (rq : result (Z * string)).

(** Two arguments at least follow the separator, both rasters open, the
    host lists the blocks of the run last, the path query returns, and the
    metadata query leaves the result [rq]. *)
Hypothesis Hargs : args_after_separator argv = dem_path :: img_path :: rest.
Hypothesis Hdem : disk s !! dem_path = Some dem_dims.
Hypothesis Himg : disk s !! img_path = Some img_dims.
Hypothesis Hlast : created_last (bpy s) dem_path img_path = true.
Hypothesis Hpath : shell path_command (disk s) = (Ok (st, out), d1).
Hypothesis Hquery : shell (geotransform_command dem_path) d1 = (rq, d2).

(** The pixel dimensions of the block [main] takes for the colour image. *)
Definition colour_dims : Z * Z :=
  listed_last_size (loaded (bpy s) dem_path img_path dem_dims img_dims).

(** The state in which [main] computes the extent: both images are open,
    nothing is built yet. *)
Definition before_extent : State :=
  {| bpy := set_images
              (loaded (bpy s) dem_path img_path dem_dims img_dims) (bpy s);
     disk := d2;
     sys_path := sys_path s ++ py_split os_pathsep out;
     stdout :=
       stdout s ++ size_warning dem_dims colour_dims ++ resolve_lines rq;
     stderr := stderr s;
     commands := commands s ++ [path_command; geotransform_command dem_path] |}.

(** The state [main] returns in, for the extent [(x, y)]. *)
Definition finished (x y : pynum) : State :=
  {| bpy := built (bpy s) dem_path img_path dem_dims img_dims x y;
     disk := d2;
     sys_path := sys_path s ++ py_split os_pathsep out;
     stdout :=
       stdout s ++ size_warning dem_dims colour_dims ++ resolve_lines rq;
     stderr := stderr s;
     commands := commands s ++ [path_command; geotransform_command dem_path] |}.

Ltac raise_here :=
  erewrite bind_raise by reflexivity;
  cbn; rewrite <- ?app_assoc; reflexivity.

(** From there [main] raises what the extent arithmetic raises, before it
    builds anything; when the extent is defined it builds the scene and
    returns 0. *)
Lemma main_outcome :
  main argv s =
  match Extent dem_dims (resolve rq) with
  | Ok (x, y) => (Ok 0, finished x y)
  | Raise e => (Raise e, before_extent)
  end.
Proof using Hargs Hdem Himg Hlast Hpath Hquery.
  destruct (created_last_parts _ _ _ Hlast)
    as (Ho1 & Ho2 & Hne & Hi1 & Ht1 & Ht2 & Hm).
  destruct (listed_last_lookup
              (loaded (bpy s) dem_path img_path dem_dims img_dims))
    as (colour & Hcolour & Hsize).
  { unfold loaded. intros Hnil. now apply app_eq_nil in Hnil as [_ ?]. }
  unfold main, before_extent, finished, built, colour_dims.
  rewrite Hsize. clear Hsize.
  unfold loaded, colour_image_name, dem_image_name, img_texture_name,
    dem_texture_name, ground_material_name in *.
  unfold bind at 1. rewrite main_args, Hargs.
  destruct (decide (length (dem_path :: img_path :: rest) < 2)%nat) as [Hlt|_];
    [simpl in Hlt; lia|].
  erewrite bind_ok by reflexivity.
  erewrite bind_ok by (apply open_image_run; eassumption).
  erewrite bind_ok by reflexivity.
  erewrite bind_ok.
  2:{ apply open_image_new; cbn [bpy images disk set_bpy set_images].
      - exact Himg.
      - rewrite opened_app, Ho2. unfold opened. cbn.
        now rewrite bool_decide_false by assumption. }
  destruct s as [b dk sp so se cm].
  destruct b as [imgs texs mats objs act md ar sc pk sv fp].
  state_simpl. rewrite ?map_app, <- ?app_assoc in *.
  cbn [map app img_name mk_image] in *.
  step.
  erewrite bind_ok with (a := colour)
    by (unfold get_image, bind, get_bpy, lift, deref; cbn [bpy images];
        now rewrite Hcolour).
  cbn [img_size].
  erewrite bind_ok with (a := tt)
    (s' := {| bpy := _; disk := _; sys_path := _;
              stdout := so ++ size_warning dem_dims (img_size colour);
              stderr := _; commands := _ |}).
  2:{ unfold size_warning. case_bool_decide; unfold print, ret; cbn.
      - reflexivity.
      - now rewrite app_nil_r. }
  erewrite bind_ok by (eapply fix_python_path_run; exact Hpath).
  erewrite bind_ok by reflexivity.
  erewrite bind_ok by (eapply geotransform_run; exact Hquery).
  state_simpl. unfold Extent, half_extent. cbn [fst snd].
  step.
  destruct (py_getitem (resolve rq) 1) as [c1|e]; [|raise_here].
  erewrite bind_ok by reflexivity.
  cbn [img_size].
  destruct (py_mul (PyInt (fst dem_dims)) (py_abs c1)) as [xw|e];
    [|raise_here].
  erewrite bind_ok by reflexivity.
  destruct (py_truediv xw (PyInt 2)) as [x|e]; [|raise_here].
  erewrite bind_ok by reflexivity.
  step.
  destruct (py_getitem (resolve rq) 5) as [c5|e]; [|raise_here].
  erewrite bind_ok by reflexivity.
  cbn [img_size].
  destruct (py_mul (PyInt (snd dem_dims)) (py_abs c5)) as [yh|e];
    [|raise_here].
  erewrite bind_ok by reflexivity.
  destruct (py_truediv yh (PyInt 2)) as [y|e]; [|raise_here].
  erewrite bind_ok by reflexivity.
  repeat step.
  unfold ret. cbn. rewrite !Nat.add_0_r, <- ?app_assoc.
  reflexivity.
Qed.

Variables (x y : pynum).

(** The extent arithmetic on the resolved transform gives [(x, y)]. *)
Hypothesis Hextent : Extent dem_dims (resolve rq) = Ok (x, y).

Lemma main_run : main argv s = (Ok 0, finished x y).
Proof using Hargs Hdem Himg Hlast Hpath Hquery Hextent.
  rewrite main_outcome. now rewrite Hextent.
Qed.


(** C3 (amended): the number of cuts [main] passes to the mesh subdivision
    is [max(xsize, ysize)] itself: the float, not rounded and with no
    minimum of 1.  It is one of the two half-extents and, when they compare
    (neither is NaN), neither is greater; for the extents [(200.0, 50.0)]
    and [(50.0, 200.0)] it is [200.0]. *)
Theorem main_number_cuts :
  (exists g,
     objects (bpy (snd (main argv s))) !! 1%nat = Some g /\
     obj_name g = "Ground" /\ obj_cuts g = [py_max x y]) /\
  (py_max x y = x \/ py_max x y = y) /\
  (py_compare x y <> None ->
   py_le x (py_max x y) = true /\ py_le y (py_max x y) = true) /\
  py_max (PyFloat (decimal 200 0)) (PyFloat (decimal 50 0))
  = PyFloat (decimal 200 0) /\
  py_max (PyFloat (decimal 50 0)) (PyFloat (decimal 200 0))
  = PyFloat (decimal 200 0).
Proof using Hargs Hdem Himg Hlast Hpath Hquery Hextent.
  split; [|split; [|split; [|split]]].
  - rewrite main_run. eexists. split; [reflexivity|]. split; reflexivity.
  - apply py_max_either.
  - apply py_max_upper.
  - vm_compute. reflexivity.
  - vm_compute. reflexivity.
Qed.

(** C5, where the host lists the colour image last: the material of the
    ground has texture layer 0 bound to the DEM image, in linear colour
    space, with its [use_textures] flag off (it does not show in the
    material), and texture layer 1 bound to the colour image with the flag
    on.  In any host, layer 1 is bound to the image listed last once both
    files are loaded. *)
Theorem main_material :
  exists m,
    material_of (bpy (snd (main argv s))) 1 = Some m /\
    mat_name m = ground_material_name (bpy s) /\
    material_layer (bpy (snd (main argv s))) m 0
    = Some (with_colorspace "Linear"
              (mk_image (dem_image_name (bpy s) dem_path) dem_path dem_dims),
            false) /\
    material_layer (bpy (snd (main argv s))) m 1
    = option_map (fun i => (i, true))
        (images (bpy (snd (main argv s)))
           !! listed_last (loaded (bpy s) dem_path img_path dem_dims img_dims)) /\
    (colour_last (bpy s) dem_path img_path = true ->
     material_layer (bpy (snd (main argv s))) m 1
     = Some (mk_image (colour_image_name (bpy s) dem_path img_path)
               img_path img_dims, true)).
Proof using Hargs Hdem Himg Hlast Hpath Hquery Hextent.
  rewrite main_run. unfold finished. cbn [snd bpy].
  exists (ground_material (ground_material_name (bpy s))
            (length (textures (bpy s))) (length (textures (bpy s)) + 1)).
  split; [unfold material_of, built; lookups; reflexivity|].
  split; [reflexivity|].
  split; [unfold material_layer, built; lookups; reflexivity|].
  assert (Hlayer1 :
    material_layer
      (built (bpy s) dem_path img_path dem_dims img_dims x y)
      (ground_material (ground_material_name (bpy s))
         (length (textures (bpy s))) (length (textures (bpy s)) + 1)) 1
    = option_map (fun i => (i, true))
        (images (built (bpy s) dem_path img_path dem_dims img_dims x y)
           !! listed_last (loaded (bpy s) dem_path img_path dem_dims img_dims))).
  { unfold material_layer, built. lookups.
    now destruct (_ !! listed_last _). }
  split; [exact Hlayer1|].
  intros Hcolour. rewrite Hlayer1.
  destruct (listed_last_colour _ _ _ dem_dims img_dims Hcolour) as [-> _].
  unfold built. cbn [images]. now rewrite (lookup_app_at _ _ 1).
Qed.

(** C7, where the host lists the colour image last: for every DEM/image
    pair whose pixel dimensions differ, [main] prints the size warning and
    runs to completion, returning 0; the ground plane it builds is scaled by
    the extent of the DEM's dimensions, and no object depends on the
    dimensions of the colour image. *)
Theorem main_size_mismatch :
  colour_last (bpy s) dem_path img_path = true ->
  dem_dims <> img_dims ->
  fst (main argv s) = Ok 0 /\
  "[WARN] The size of the 2 image differ" ∈ stdout (snd (main argv s)) /\
  Extent dem_dims (resolve rq) = Ok (x, y) /\
  objects (bpy (snd (main argv s)))
  = [sun; ground x y (length (materials (bpy s))) (length (textures (bpy s)))].
Proof using Hargs Hdem Himg Hlast Hpath Hquery Hextent.
  intros Hcolour Hne. rewrite main_run.
  split; [reflexivity|]. split; [|split; [assumption | reflexivity]].
  cbn. unfold size_warning, colour_dims.
  destruct (listed_last_colour _ _ _ dem_dims img_dims Hcolour) as [_ ->].
  rewrite bool_decide_true by assumption.
  apply elem_of_app. right. apply elem_of_app. left. apply list_elem_of_here.
Qed.


End MainRun.

(** *** The runs of [main] that raise before the extent *)

Lemma open_image_unreadable (p : string) (s : State) :
  disk s !! p = None -> open_image p s = (Raise RuntimeError, s).
Proof.
  intros H. unfold open_image, bind, ops_image_open. now rewrite H.
Qed.

(** On a file the host can open, [open_image] returns a reference to one
    of the images, and touches nothing but the images. *)
Lemma open_image_returns (p : string) (sz : Z * Z) (s : State) :
  disk s !! p = Some sz ->
  exists k imgs',
    open_image p s = (Ok k, set_bpy (set_images imgs' (bpy s)) s) /\
    (k < length imgs')%nat /\
    opened imgs' p = true /\
    (imgs' = images (bpy s) \/
     opened (images (bpy s)) p = false /\
     imgs' = images (bpy s) ++
             [mk_image (unique_name (map img_name (images (bpy s)))
                          (image_name p)) p sz]).
Proof.
  intros H. unfold open_image, bind, ops_image_open. rewrite H.
  destruct (opened (images (bpy s)) p) eqn:Hopen.
  - unfold get_bpy, lift.
    destruct (last_named_bound img_name (images (bpy s))) as (k & Hk & Hlt).
    { intros Hnil. rewrite Hnil in Hopen. discriminate. }
    exists k, (images (bpy s)). rewrite Hk.
    split; [|auto]. f_equal.
    destruct s as [b dk sp so se cm].
    now destruct b as [imgs texs mats objs act md ar sc pk sv fp].
  - unfold get_bpy, lift. cbn.
    match goal with
    | |- context [last_named img_name ?l] =>
        destruct (last_named_bound img_name l) as (k & Hk & Hlt)
    end.
    { intros Hnil. now apply app_eq_nil in Hnil as [_ ?]. }
    eexists k, _. rewrite Hk. split; [reflexivity|].
    split; [exact Hlt|]. split; [|auto].
    rewrite opened_app. unfold opened at 2. cbn.
    rewrite bool_decide_true by reflexivity. apply orb_true_r.
Qed.

(** ** [add_hillshade]: what it runs and what it opens *)

Lemma same_outside_refl (s : State) : same_outside s s.
Proof. now repeat split. Qed.

Lemma same_outside_trans (s1 s2 s3 : State) :
  same_outside s1 s2 -> same_outside s2 s3 -> same_outside s1 s3.
Proof. unfold same_outside. intros (?&?&?) (?&?&?). repeat split; congruence. Qed.

Lemma host_only_bind {A B : Type} (m : M A) (k : A -> M B) :
  host_only m -> (forall a, host_only (k a)) -> host_only (bind m k).
Proof.
  intros Hm Hk s. unfold bind. specialize (Hm s).
  destruct (m s) as [[a|e] s1]; simpl in *.
  - eapply same_outside_trans; [exact Hm | apply Hk].
  - exact Hm.
Qed.

Lemma host_only_raise {A : Type} (e : exn) : host_only (raise (A := A) e).
Proof. intros s. apply same_outside_refl. Qed.

(** Solves [host_only m] for a step that reads the host and writes back
    blocks other than images. *)
Ltac host_step :=
  intros s; unfold same_outside; cbv beta iota zeta delta
    [update_material update_texture get_material get_active_texture
     set_active_texture update_active_texture update_active_slot
     rename_active_texture rename_texture
     next_texture_index new_texture ops_texture_new modify_bpy get_bpy
     put_bpy bind lift ret raise];
  repeat (match goal with
          | |- context [match assign ?l ?i ?f with _ => _ end] =>
              destruct (assign l i f)
          | |- context [match deref ?l ?i with _ => _ end] =>
              destruct (deref l i)
          | |- context [match last_named ?n ?l with _ => _ end] =>
              destruct (last_named n l)
          | |- context [match ?l !! ?i with _ => _ end] =>
              destruct (l !! i) as [[?|]|]
          end; cbv beta iota zeta);
  cbn; auto.

Lemma host_only_update_texture (t : nat) (f : Texture -> Texture) :
  host_only (update_texture t f).
Proof. host_step. Qed.

Lemma host_only_update_active_texture (m : nat) (f : Texture -> Texture) :
  host_only (update_active_texture m f).
Proof. host_step. Qed.

Lemma host_only_rename_active_texture (m : nat) (v : string) :
  host_only (rename_active_texture m v).
Proof. host_step. Qed.

Lemma host_only_set_active_texture (m t : nat) :
  host_only (set_active_texture m t).
Proof. host_step. Qed.

Lemma host_only_get_active_texture (m : nat) :
  host_only (get_active_texture m).
Proof. host_step. Qed.

Lemma host_only_new_texture : host_only new_texture.
Proof. host_step. Qed.

Lemma host_only_next_texture_index (m : nat) :
  host_only (next_texture_index m).
Proof. host_step. Qed.

Lemma host_only_update_active_slot (m : nat) (f : TextureSlot -> TextureSlot) :
  host_only (update_active_slot m f).
Proof. host_step. Qed.

Lemma host_only_new_image_texture (m image : nat) (name : string) :
  host_only (new_image_texture m image name).
Proof.
  unfold new_image_texture.
  apply host_only_bind; [apply host_only_new_texture | intros t].
  apply host_only_bind; [apply host_only_set_active_texture | intros _].
  apply host_only_bind; [apply host_only_rename_active_texture | intros _].
  do 2 (apply host_only_bind;
        [apply host_only_update_active_texture | intros _]).
  apply host_only_get_active_texture.
Qed.

(** The part of [add_hillshade] after the image is opened. *)
Lemma host_only_hillshade_layer (material image_hsh : nat) :
  host_only
    (do! next_texture_index material in
     let! texture_hsh := new_image_texture material image_hsh "hsh" in
     do! match texture_hsh with
         | Some t => update_texture t (with_use_normal_map true)
         | None => raise AttributeError
         end in
     do! update_active_slot material (fun sl =>
           {| slot_texture := slot_texture sl; use_map_color_diffuse := false;
              use_map_normal := use_map_normal sl;
              normal_factor := normal_factor sl |}) in
     do! update_active_slot material (fun sl =>
           {| slot_texture := slot_texture sl;
              use_map_color_diffuse := use_map_color_diffuse sl;
              use_map_normal := true; normal_factor := normal_factor sl |}) in
     update_active_slot material (fun sl =>
       {| slot_texture := slot_texture sl;
          use_map_color_diffuse := use_map_color_diffuse sl;
          use_map_normal := use_map_normal sl;
          normal_factor := PyFloat (SFopp (decimal 5 1)) |})).
Proof.
  apply host_only_bind; [apply host_only_next_texture_index | intros _].
  apply host_only_bind; [apply host_only_new_image_texture | intros t].
  apply host_only_bind;
    [destruct t; auto using host_only_update_texture, host_only_raise
    | intros _].
  do 2 (apply host_only_bind;
        [apply host_only_update_active_slot | intros _]).
  apply host_only_update_active_slot.
Qed.

(** With the hillshade on disk, [add_hillshade] runs no command; the file
    is loaded afterwards, in the block it had or in a new one. *)
Lemma add_hillshade_present (demfile : string) (material : nat) (s : State)
    (r : Z * Z) :
  disk s !! hillshade_path demfile = Some r ->
  disk (snd (add_hillshade demfile material s)) = disk s /\
  commands (snd (add_hillshade demfile material s)) = commands s /\
  opened (images (bpy (snd (add_hillshade demfile material s))))
    (hillshade_path demfile) = true /\
  images (bpy (snd (add_hillshade demfile material s)))
  = (if opened (images (bpy s)) (hillshade_path demfile)
     then images (bpy s)
     else images (bpy s) ++
          [mk_image (unique_name (map img_name (images (bpy s)))
                       (image_name (hillshade_path demfile)))
             (hillshade_path demfile) r]).
Proof.
  intros H.
  destruct (open_image_returns _ _ s H) as (k & imgs' & Hrun & _ & Hopen & Himgs).
  destruct (host_only_hillshade_layer material k
              (set_bpy (set_images imgs' (bpy s)) s)) as (Hd & Hc & Hi).
  match type of Hd with
  | disk (snd ?run) = _ =>
      assert (Heq : add_hillshade demfile material s = run)
  end.
  { unfold add_hillshade. unfold bind at 1. cbv beta iota.
    rewrite bool_decide_true by (rewrite H; eauto).
    erewrite bind_ok by reflexivity.
    unfold bind at 1. now rewrite Hrun. }
  rewrite Heq, Hd, Hc, Hi. cbn [disk commands bpy images set_bpy set_images].
  split; [reflexivity|]. split; [reflexivity|]. split; [exact Hopen|].
  destruct Himgs as [->|[Hnot ->]].
  - now rewrite Hopen.
  - now rewrite Hnot.
Qed.

(** Without it, [add_hillshade] runs [gdaldem] once, whatever follows. *)
Lemma add_hillshade_absent (demfile : string) (material : nat) (s : State) :
  disk s !! hillshade_path demfile = None ->
  tool_ran demfile s (snd (add_hillshade demfile material s)).
Proof.
  intros H. unfold add_hillshade.
  unfold bind at 1. cbv beta iota.
  rewrite bool_decide_false by (rewrite H; intros [? ?]; discriminate).
  unfold bind at 1. unfold bind at 1.
  unfold getstatusoutput, run_shell.
  destruct (shell (gdaldem_command demfile) (disk s)) as [[v|e] d] eqn:Hs.
  - unfold ret at 1. cbv beta iota.
    set (s1 := set_commands _ _).
    assert (Hs1 : tool_ran demfile s s1)
      by (unfold tool_ran; rewrite Hs; split; reflexivity).
    unfold bind at 1.
    destruct (disk s1 !! hillshade_path demfile) as [sz|] eqn:Hfile.
    + destruct (open_image_returns _ _ s1 Hfile) as (k & imgs' & Hrun & _).
      rewrite Hrun. cbv beta iota.
      destruct (host_only_hillshade_layer material k
                  (set_bpy (set_images imgs' (bpy s1)) s1)) as (Hd & Hc & _).
      destruct Hs1 as [Hd1 Hc1]. split.
      * rewrite Hd. cbn [disk set_bpy]. exact Hd1.
      * rewrite Hc. cbn [commands set_bpy]. exact Hc1.
    + now rewrite (open_image_unreadable _ _ Hfile).
  - unfold tool_ran. rewrite Hs. split; reflexivity.
Qed.

Lemma append_cancel_l (a x y : string) : a +:+ x = a +:+ y -> x = y.
Proof.
  induction a as [|c a IH]; rewrite ?append_cons, ?append_empty_l;
    [auto | intros H; injection H; auto].
Qed.

Lemma append_same_length (a b x y : string) :
  String.length a = String.length b -> a +:+ x = b +:+ y -> a = b.
Proof.
  revert b. induction a as [|c a IH]; intros [|c' b]; try discriminate.
  - reflexivity.
  - rewrite !append_cons. simpl. intros Hlen H. injection H as -> H.
    f_equal. apply IH; [lia | exact H].
Qed.

Lemma gdaldem_command_inj (p q : string) :
  gdaldem_command p = gdaldem_command q -> p = q.
Proof.
  unfold gdaldem_command, hillshade_path. intros H.
  apply append_cancel_l in H.
  assert (Hlen : String.length p = String.length q).
  { apply (f_equal String.length) in H.
    rewrite !length_append in H. simpl in H. lia. }
  exact (append_same_length _ _ _ _ Hlen H).
Qed.

Lemma run_hillshade_commands (runs : list (string * nat)) : forall s,
  (forall q d, q ∈ runs.*1 ->
     is_Some (snd (shell (gdaldem_command q) d) !! hillshade_path q)) ->
  (forall q d p, q ∈ runs.*1 -> is_Some (d !! p) ->
     is_Some (snd (shell (gdaldem_command q) d) !! p)) ->
  exists new,
    commands (run_hillshade runs s) = commands s ++ new /\
    NoDup new /\
    forall q, is_Some (disk s !! hillshade_path q) -> gdaldem_command q ∉ new.
Proof.
  induction runs as [|[q0 m0] runs IH]; intros s Hwrites Hkeeps.
  - exists []. simpl. rewrite app_nil_r.
    split; [reflexivity|]. split; [constructor|].
    intros q _. apply not_elem_of_nil.
  - simpl. set (s1 := snd (add_hillshade q0 m0 s)).
    destruct (IH s1) as (new1 & Hc1 & Hnd & Hdone).
    { intros q d Hq. apply Hwrites. simpl. now apply list_elem_of_further. }
    { intros q d p Hq. apply Hkeeps. simpl. now apply list_elem_of_further. }
    assert (Hq0 : q0 ∈ ((q0, m0) :: runs).*1) by (simpl; apply list_elem_of_here).
    destruct (disk s !! hillshade_path q0) as [r|] eqn:E.
    + destruct (add_hillshade_present q0 m0 s r E) as (Hd & Hc & _).
      fold s1 in Hd, Hc.
      exists new1. fold (run_hillshade runs s1). rewrite Hc1, Hc.
      split; [reflexivity|]. split; [exact Hnd|].
      intros q Hq. apply Hdone. now rewrite Hd.
    + destruct (add_hillshade_absent q0 m0 s E) as [Hd Hc]. fold s1 in Hd, Hc.
      exists (gdaldem_command q0 :: new1). fold (run_hillshade runs s1).
      rewrite Hc1, Hc, <- app_assoc.
      split; [reflexivity|]. split.
      * constructor; [|exact Hnd].
        apply Hdone. rewrite Hd. now apply Hwrites.
      * intros q Hq Hin. apply elem_of_cons in Hin as [Heq|Hin].
        -- apply gdaldem_command_inj in Heq. subst q.
           rewrite E in Hq. destruct Hq; discriminate.
        -- revert Hin. apply Hdone. rewrite Hd. now apply Hkeeps.
Qed.

(** C9: if the hillshade file of a DEM path is on disk, [add_hillshade]
    runs no command and leaves the disk alone, and the file is loaded in
    the host afterwards: in the image it was loaded in already, when there
    is one, and in a new image otherwise.  So over any sequence of runs,
    with a [gdaldem] that writes its output file and removes no file, the
    tool is invoked at most once for a DEM path, and never for a path whose
    hillshade was there from the start. *)
Theorem add_hillshade_reuse (runs : list (string * nat)) (s : State) :
  (forall q d, q ∈ runs.*1 ->
     is_Some (snd (shell (gdaldem_command q) d) !! hillshade_path q)) ->
  (forall q d p, q ∈ runs.*1 -> is_Some (d !! p) ->
     is_Some (snd (shell (gdaldem_command q) d) !! p)) ->
  (forall demfile material r,
     disk s !! hillshade_path demfile = Some r ->
     commands (snd (add_hillshade demfile material s)) = commands s /\
     disk (snd (add_hillshade demfile material s)) = disk s /\
     opened (images (bpy (snd (add_hillshade demfile material s))))
       (hillshade_path demfile) = true /\
     images (bpy (snd (add_hillshade demfile material s)))
     = (if opened (images (bpy s)) (hillshade_path demfile)
        then images (bpy s)
        else images (bpy s) ++
             [mk_image (unique_name (map img_name (images (bpy s)))
                          (image_name (hillshade_path demfile)))
                (hillshade_path demfile) r])) /\
  (exists new,
     commands (run_hillshade runs s) = commands s ++ new /\
     NoDup new /\
     forall q, is_Some (disk s !! hillshade_path q) ->
               gdaldem_command q ∉ new).
Proof.
  intros Hwrites Hkeeps. split.
  - intros demfile material r H.
    destruct (add_hillshade_present demfile material s r H)
      as (Hd & Hc & Ho & Hi).
    auto.
  - now apply run_hillshade_commands.
Qed.

(** C1 (amended): for every well-formed 6-tuple printed by the metadata
    query (six float literals separated by a comma and a space, in
    parentheses), [geotransform] returns exactly those six floats in the
    printed order; for empty output, for output one of whose pieces is not
    a float literal, and for an exception raised by the query, it returns
    the identity transform [(0,1,0,0,0,1)]; and it never raises to its
    caller.  (Output that reads as a number of floats other than six is
    returned as it reads, not replaced by the identity.) *)
Theorem geotransform_resolve (filepath : string) (s : State) :
  (forall st d pieces values,
     shell (geotransform_command filepath) (disk s)
       = (Ok (st, tuple_text pieces), d) ->
     length pieces = 6%nat ->
     forallb comma_free pieces = true ->
     Forall2 (fun t v => float_of_string t = Some v) pieces values ->
     fst (geotransform filepath s) = Ok (map PyFloat values)) /\
  (forall st d,
     shell (geotransform_command filepath) (disk s) = (Ok (st, ""), d) ->
     fst (geotransform filepath s) = Ok identity_transform) /\
  (forall st out d,
     shell (geotransform_command filepath) (disk s) = (Ok (st, out), d) ->
     Exists (fun t => float_of_string t = None)
       (py_split ", " (strip_ends out)) ->
     fst (geotransform filepath s) = Ok identity_transform) /\
  (forall e d,
     shell (geotransform_command filepath) (disk s) = (Raise e, d) ->
     fst (geotransform filepath s) = Ok identity_transform) /\
  (exists values s', geotransform filepath s = (Ok values, s')).
Proof.
  repeat split.
  - intros st d pieces values H Hlen Hfree Hparse.
    assert (Hne : pieces <> []) by (intros ->; discriminate).
    erewrite geotransform_parsed; [reflexivity | exact H | discriminate |].
    rewrite split_tuple_text by assumption.
    now apply float_list_parsed.
  - intros st d H. now rewrite (geotransform_empty _ _ _ _ H).
  - intros st out d H Hbad.
    destruct (string_dec out "") as [->|Hne].
    + now rewrite (geotransform_empty _ _ _ _ H).
    + apply float_list_rejects in Hbad.
      now rewrite (geotransform_rejected _ _ _ _ _ _ H Hne Hbad).
  - intros e d H. now rewrite (geotransform_query_raises _ _ _ _ H).
  - destruct (geotransform_returns filepath s) as (values & lines & d & H).
    eauto.
Qed.

(** C10: the success branch of [geotransform] checks no length.  For
    non-empty output whose pieces (separated by a comma and a space) all
    read as floats, it returns the list of those floats, one per piece,
    whatever their number; the accesses [geot[1]] and [geot[5]] of [main]
    succeed on that list exactly when it has at least 6 elements; and they
    succeed on the identity fallback. *)
Theorem geotransform_length_unchecked (filepath : string) (s : State)
    (st : Z) (out : string) (d : Disk) (values : list pynum) :
  shell (geotransform_command filepath) (disk s) = (Ok (st, out), d) ->
  out <> "" ->
  float_list (py_split ", " (strip_ends out)) = Ok values ->
  fst (geotransform filepath s) = Ok values /\
  length values = length (py_split ", " (strip_ends out)) /\
  ((exists a b, py_getitem values 1 = Ok a /\ py_getitem values 5 = Ok b)
   <-> (6 <= length values)%nat) /\
  (exists a b, py_getitem identity_transform 1 = Ok a /\
               py_getitem identity_transform 5 = Ok b).
Proof.
  intros H Hne Hv. repeat split.
  - now rewrite (geotransform_parsed _ _ _ _ _ _ H Hne Hv).
  - now apply float_list_length.
  - intros (a & b & _ & Hb). unfold py_getitem in Hb.
    destruct (values !! 5%nat) eqn:E; [|discriminate].
    apply lookup_lt_Some in E. lia.
  - intros Hlen. unfold py_getitem.
    destruct (lookup_lt_is_Some_2 values 1%nat) as [a Ha]; [lia|].
    destruct (lookup_lt_is_Some_2 values 5%nat) as [b Hb]; [lia|].
    exists a, b. now rewrite Ha, Hb.
  - now exists (PyInt 1), (PyInt 1).
Qed.

End Verification.

(** ** Sample runs *)

Definition six_tuple : string := "(0.0, 2.0, 0.0, 0.0, 0.0, -1.0)".

Lemma geotransform_resolve_witness :
  fst (geotransform (rt := sample_runtime six_tuple) "dem.tif"
         (sample_state (200, 100) (200, 100)))
  = Ok (map PyFloat
          [decimal 0 1; decimal 20 1; decimal 0 1; decimal 0 1; decimal 0 1;
           SFopp (decimal 10 1)]).
Proof.
  apply (proj1 (geotransform_resolve (rt := sample_runtime six_tuple)
                  "dem.tif" (sample_state (200, 100) (200, 100))))
    with (st := 0) (d := disk (sample_state (200, 100) (200, 100)))
         (pieces := ["0.0"; "2.0"; "0.0"; "0.0"; "0.0"; "-1.0"]).
  - vm_compute. reflexivity.
  - reflexivity.
  - reflexivity.
  - repeat constructor.
Defined.

(** C1, as stated, fails on malformed output that reads as floats: a
    2-tuple is returned as two floats, not replaced by the identity. *)
Lemma geotransform_short_tuple :
  fst (geotransform (rt := sample_runtime "(1.0, 2.0)") "dem.tif"
         (sample_state (200, 100) (200, 100)))
  = Ok [PyFloat (decimal 10 1); PyFloat (decimal 20 1)] /\
  fst (geotransform (rt := sample_runtime "(1.0, 2.0)") "dem.tif"
         (sample_state (200, 100) (200, 100)))
  <> Ok identity_transform.
Proof. split; [vm_compute; reflexivity | vm_compute; discriminate]. Qed.

Lemma geotransform_length_unchecked_witness :
  fst (geotransform (rt := sample_runtime "(1.0, 2.0)") "dem.tif"
         (sample_state (200, 100) (200, 100)))
  = Ok [PyFloat (decimal 10 1); PyFloat (decimal 20 1)].
Proof.
  apply (geotransform_length_unchecked (rt := sample_runtime "(1.0, 2.0)")
           "dem.tif" (sample_state (200, 100) (200, 100))
           0 "(1.0, 2.0)" (disk (sample_state (200, 100) (200, 100)))).
  - vm_compute. reflexivity.
  - discriminate.
  - vm_compute. reflexivity.
Defined.

(** With that 2-tuple, [main] raises at [geot[5]]. *)
Example main_short_tuple :
  fst (main (host := sample_host) (rt := sample_runtime "(1.0, 2.0)")
         sample_argv (sample_state (200, 100) (200, 100)))
  = Raise IndexError.
Proof. vm_compute. reflexivity. Qed.

Example main_sample_run :
  fst (main (host := sample_host) (rt := sample_runtime six_tuple)
         sample_argv (sample_state (200, 100) (200, 100)))
  = Ok 0.
Proof. vm_compute. reflexivity. Qed.


(** *** The end-to-end scenario: a 200 x 100 DEM with transform
    [(0, 2, 0, 0, 0, -1)] and an image of the same size *)

Definition scenario_runtime : Runtime := sample_runtime six_tuple.
Definition scenario_state : State := sample_state (200, 100) (200, 100).

(** A DEM taller than wide, and a pair of files of which the DEM's name
    comes after the image's in the alphabet. *)
Definition tall_state : State := sample_state (100, 400) (100, 400).

Definition reversed_state : State :=
  set_disk {[ "z.tif" := (200, 100); "a.tif" := (150, 80) ]} scenario_state.

Definition reversed_argv : list string :=
  ["blender"; "-P"; "blend_dtm.py"; "--"; "z.tif"; "a.tif"].

Ltac scenario_hyps := vm_compute; reflexivity.


(** A DEM of 100 x 400 pixels: the half-extents are [(100.0, 200.0)] and
    the second is the one passed. *)
Lemma main_number_cuts_witness :
  exists g,
    objects (bpy (snd (main (host := sample_host) (rt := scenario_runtime)
                         sample_argv tall_state))) !! 1%nat = Some g /\
    obj_name g = "Ground" /\
    obj_scale g = (PyFloat (decimal 100 0), PyFloat (decimal 200 0), PyInt 1) /\
    obj_cuts g = [PyFloat (decimal 200 0)].
Proof.
  pose proof (main_number_cuts (host := sample_host) (rt := scenario_runtime)
                sample_argv tall_state "dem.tif" "img.tif" []
                (100, 400) (100, 400) 0 "/usr/lib/python3.3"
                (disk tall_state) (disk tall_state)
                (Ok (0, six_tuple))
                ltac:(scenario_hyps) ltac:(scenario_hyps) ltac:(scenario_hyps)
                ltac:(scenario_hyps) ltac:(scenario_hyps) ltac:(scenario_hyps)
                (PyFloat (decimal 100 0)) (PyFloat (decimal 200 0))
                ltac:(scenario_hyps)) as [(g & Hg & Hname & Hcuts) _].
  exists g. split; [exact Hg|]. split; [exact Hname|].
  split; [|rewrite Hcuts; vm_compute; reflexivity].
  vm_compute in Hg. injection Hg as <-. vm_compute. reflexivity.
Defined.

(** C3, as stated, fails for a DEM of one pixel under the identity
    fallback: the extent is [(0.5, 0.5)] and the number of cuts passed is
    [0.5], which is no rounded value and is below 1. *)
Lemma main_number_cuts_fraction :
  option_map obj_cuts
    (objects (bpy (snd (main (host := sample_host) (rt := sample_runtime "")
                          sample_argv (sample_state (1, 1) (1, 1)))))
       !! 1%nat)
  = Some [PyFloat (decimal 5 1)] /\
  py_le (PyInt 1) (PyFloat (decimal 5 1)) = false.
Proof. split; vm_compute; reflexivity. Qed.

Lemma extent_nonnegative_witness :
  exists x y,
    Extent (200, 100)
      (map PyFloat [decimal 0 1; decimal 20 1; decimal 0 1; decimal 0 1;
                    decimal 0 1; SFopp (decimal 10 1)])
    = Ok (x, y) /\
    py_le (PyInt 0) x = true /\ py_le (PyInt 0) y = true /\
    (200 = 0 -> py_eq x (PyInt 0) = true) /\
    (100 = 0 -> py_eq y (PyInt 0) = true).
Proof.
  refine (extent_nonnegative (rt := scenario_runtime) "dem.tif" scenario_state
            (snd (geotransform (rt := scenario_runtime) "dem.tif" scenario_state))
            _ 200 100 (PyFloat (decimal 20 1)) (PyFloat (SFopp (decimal 10 1)))
            _ _ _ _ _ _ _); try scenario_hyps; lia.
Defined.

(** C4, as stated, fails for a DEM of width 0 and height 100 under the
    identity fallback: the extent is [(0.0, 50.0)], not [(0, 0)]. *)
Lemma extent_zero_width :
  fst (geotransform (rt := sample_runtime "") "dem.tif"
         (sample_state (0, 100) (0, 100)))
  = Ok identity_transform /\
  Extent (0, 100) identity_transform
  = Ok (PyFloat (S754_zero false), PyFloat (decimal 50 0)) /\
  py_eq (PyFloat (decimal 50 0)) (PyInt 0) = false.
Proof. repeat split; vm_compute; reflexivity. Qed.

(** A NaN coefficient gives a NaN extent, of which [0 <= x] is false. *)
Example extent_nan :
  Extent (200, 100)
    (map PyFloat [decimal 0 1; S754_nan; decimal 0 1; decimal 0 1;
                  decimal 0 1; decimal 10 1])
  = Ok (PyFloat S754_nan, PyFloat (decimal 50 0)) /\
  py_le (PyInt 0) (PyFloat S754_nan) = false.
Proof. split; vm_compute; reflexivity. Qed.

(** In the scenario the host lists [img.tif] after [dem.tif]: the two
    layers are bound as meant. *)
Lemma main_material_witness :
  exists m,
    material_of (bpy (snd (main (host := sample_host) (rt := scenario_runtime)
                             sample_argv scenario_state))) 1 = Some m /\
    mat_name m = "Ground" /\
    material_layer (bpy (snd (main (host := sample_host)
                                (rt := scenario_runtime)
                                sample_argv scenario_state))) m 0
    = Some (with_colorspace "Linear" (mk_image "dem.tif" "dem.tif" (200, 100)),
            false) /\
    material_layer (bpy (snd (main (host := sample_host)
                                (rt := scenario_runtime)
                                sample_argv scenario_state))) m 1
    = Some (mk_image "img.tif" "img.tif" (200, 100), true).
Proof.
  pose proof (main_material (host := sample_host) (rt := scenario_runtime)
                sample_argv scenario_state "dem.tif" "img.tif" []
                (200, 100) (200, 100) 0 "/usr/lib/python3.3"
                (disk scenario_state) (disk scenario_state)
                (Ok (0, six_tuple))
                ltac:(scenario_hyps) ltac:(scenario_hyps) ltac:(scenario_hyps)
                ltac:(scenario_hyps) ltac:(scenario_hyps) ltac:(scenario_hyps)
                (PyFloat (decimal 200 0)) (PyFloat (decimal 50 0))
                ltac:(scenario_hyps))
    as (m & Hm & Hname & H0 & _ & H1).
  exists m. split; [exact Hm|]. split; [exact Hname|].
  split; [exact H0|]. apply H1. scenario_hyps.
Defined.

(** C5 fails for a DEM whose name the host lists after the image's: with
    [z.tif] as the DEM and [a.tif] as the image, in a host that holds no
    image, [bpy.data.images[-1]] after the second [open_image] is the DEM
    again, and layer 1 is bound to the DEM, not to the colour image. *)
Lemma main_material_reversed :
  disk reversed_state !! "z.tif" = Some (200, 100) /\
  disk reversed_state !! "a.tif" = Some (150, 80) /\
  images (bpy reversed_state) = [] /\
  colour_last (host := sample_host) (bpy reversed_state) "z.tif" "a.tif"
  = false /\
  fst (main (host := sample_host) (rt := scenario_runtime)
         reversed_argv reversed_state) = Ok 0 /\
  exists m,
    material_of (bpy (snd (main (host := sample_host) (rt := scenario_runtime)
                             reversed_argv reversed_state))) 1 = Some m /\
    material_layer (bpy (snd (main (host := sample_host)
                                (rt := scenario_runtime)
                                reversed_argv reversed_state))) m 1
    = Some (with_colorspace "Linear" (mk_image "z.tif" "z.tif" (200, 100)),
            true) /\
    material_layer (bpy (snd (main (host := sample_host)
                                (rt := scenario_runtime)
                                reversed_argv reversed_state))) m 1
    <> Some (mk_image "a.tif" "a.tif" (150, 80), true).
Proof.
  do 5 (split; [vm_compute; reflexivity|]).
  eexists. split; [vm_compute; reflexivity|].
  split; [vm_compute; reflexivity | vm_compute; discriminate].
Qed.

(** The scenario with an image of 150 x 80 pixels. *)
Lemma main_size_mismatch_witness :
  fst (main (host := sample_host) (rt := scenario_runtime) sample_argv
         (sample_state (200, 100) (150, 80))) = Ok 0 /\
  "[WARN] The size of the 2 image differ"
    ∈ stdout (snd (main (host := sample_host) (rt := scenario_runtime)
                     sample_argv (sample_state (200, 100) (150, 80)))) /\
  Extent (200, 100) (resolve (rt := scenario_runtime) (Ok (0, six_tuple)))
  = Ok (PyFloat (decimal 200 0), PyFloat (decimal 50 0)) /\
  objects (bpy (snd (main (host := sample_host) (rt := scenario_runtime)
                       sample_argv (sample_state (200, 100) (150, 80)))))
  = [sun; ground (PyFloat (decimal 200 0)) (PyFloat (decimal 50 0)) 1 1].
Proof.
  refine (main_size_mismatch (host := sample_host) (rt := scenario_runtime)
            sample_argv (sample_state (200, 100) (150, 80))
            "dem.tif" "img.tif" []
            (200, 100) (150, 80) 0 "/usr/lib/python3.3"
            (disk (sample_state (200, 100) (150, 80)))
            (disk (sample_state (200, 100) (150, 80)))
            (Ok (0, six_tuple)) _ _ _ _ _ _
            (PyFloat (decimal 200 0)) (PyFloat (decimal 50 0)) _ _ _);
    try scenario_hyps.
  intros H. inversion H.
Defined.

(** C7 fails for the same pair: the DEM [z.tif] has 200 x 100 pixels and
    the image [a.tif] 150 x 80, the run returns 0, and no warning is
    printed: the two sizes [main] compares are both the DEM's. *)
Lemma main_size_mismatch_silent :
  disk reversed_state !! "z.tif" = Some (200, 100) /\
  disk reversed_state !! "a.tif" = Some (150, 80) /\
  fst (main (host := sample_host) (rt := scenario_runtime)
         reversed_argv reversed_state) = Ok 0 /\
  stdout (snd (main (host := sample_host) (rt := scenario_runtime)
                 reversed_argv reversed_state))
  = ["[DEBUG] GetGeoTransform: " +:+ six_tuple].
Proof. repeat split; vm_compute; reflexivity. Qed.


(** The whole scene of the scenario, computed. *)
Example main_scenario :
  main (host := sample_host) (rt := scenario_runtime) sample_argv scenario_state
  = (Ok 0,
     finished (host := sample_host) (rt := scenario_runtime)
       scenario_state "dem.tif" "img.tif"
       (200, 100) (200, 100) "/usr/lib/python3.3" (disk scenario_state)
       (Ok (0, six_tuple))
       (PyFloat (decimal 200 0)) (PyFloat (decimal 50 0))).
Proof. vm_compute. reflexivity. Qed.

(** *** Two runs of [add_hillshade] on one DEM *)

Lemma twice_dem (q : string) : q ∈ ["dem.tif"; "dem.tif"] -> q = "dem.tif".
Proof.
  intros H. apply elem_of_cons in H as [H|H]; [exact H|].
  apply elem_of_cons in H as [H|H]; [exact H|]. inversion H.
Qed.

Lemma sample_gdaldem_writes (g : string) (q : string) (d : Disk) :
  q ∈ ["dem.tif"; "dem.tif"] ->
  is_Some (snd (sample_shell g (gdaldem_command q) d) !! hillshade_path q).
Proof.
  intros Hq. apply twice_dem in Hq as ->.
  unfold sample_shell. rewrite bool_decide_true by reflexivity.
  cbn [snd]. rewrite lookup_insert_eq. eauto.
Qed.

Lemma sample_gdaldem_keeps (g : string) (q : string) (d : Disk) (p : string) :
  q ∈ ["dem.tif"; "dem.tif"] -> is_Some (d !! p) ->
  is_Some (snd (sample_shell g (gdaldem_command q) d) !! p).
Proof.
  intros Hq Hp. apply twice_dem in Hq as ->.
  unfold sample_shell. rewrite bool_decide_true by reflexivity.
  cbn [snd]. destruct (decide (hillshade_path "dem.tif" = p)) as [<-|Hne].
  - rewrite lookup_insert_eq. eauto.
  - now rewrite lookup_insert_ne.
Qed.

(** The scenario once [gdaldem] has written the hillshade of the DEM. *)
Definition hillshade_on_disk : State :=
  set_disk (<[hillshade_path "dem.tif" := (200, 100)]> (disk scenario_state))
    scenario_state.

Lemma add_hillshade_reuse_witness :
  (commands (snd (add_hillshade (host := sample_host) (rt := scenario_runtime)
                    "dem.tif" 0 hillshade_on_disk))
   = commands hillshade_on_disk /\
   disk (snd (add_hillshade (host := sample_host) (rt := scenario_runtime)
                "dem.tif" 0 hillshade_on_disk))
   = disk hillshade_on_disk /\
   opened (images (bpy (snd (add_hillshade (host := sample_host)
                               (rt := scenario_runtime)
                               "dem.tif" 0 hillshade_on_disk))))
     (hillshade_path "dem.tif") = true) /\
  exists new,
    commands (run_hillshade (host := sample_host) (rt := scenario_runtime)
                [("dem.tif", 0%nat); ("dem.tif", 0%nat)] hillshade_on_disk)
    = commands hillshade_on_disk ++ new /\
    NoDup new /\
    forall q, is_Some (disk hillshade_on_disk !! hillshade_path q) ->
              gdaldem_command q ∉ new.
Proof.
  pose proof (add_hillshade_reuse (host := sample_host)
                (rt := scenario_runtime)
                [("dem.tif", 0%nat); ("dem.tif", 0%nat)] hillshade_on_disk
                (sample_gdaldem_writes six_tuple)
                (sample_gdaldem_keeps six_tuple)) as [H1 H2].
  split; [|exact H2].
  destruct (H1 "dem.tif" 0%nat (200, 100) ltac:(scenario_hyps))
    as (Hc & Hd & Ho & _).
  auto.
Defined.

(** From a disk without the hillshade, two runs on one DEM invoke the tool
    once and load the file in one image. *)
Example add_hillshade_twice :
  commands (run_hillshade (host := sample_host) (rt := scenario_runtime)
              [("dem.tif", 0%nat); ("dem.tif", 0%nat)] scenario_state)
  = [gdaldem_command "dem.tif"] /\
  map img_filepath
    (images (bpy (run_hillshade (host := sample_host) (rt := scenario_runtime)
                    [("dem.tif", 0%nat); ("dem.tif", 0%nat)] scenario_state)))
  = [hillshade_path "dem.tif"].
Proof. split; vm_compute; reflexivity. Qed.

(** * The functions beside the path of [main] *)

Section Coverage.

Context {host : Host} {rt : Runtime}.

(** ** [set_viewport], [setup] and [save] *)

Lemma setup_run (s : State) :
  setup s = (Ok tt, set_bpy (after_setup (bpy s)) s).
Proof.
  destruct s as [b dk sp so se cm].
  destruct b as [imgs texs mats objs act md ar sc pk sv fp].
  unfold setup. repeat step. reflexivity.
Qed.

(** The viewport function of one call, on a space and on an area. *)
Lemma set_viewport_areas (shade : string) (clip : pynum) (s : State) :
  set_viewport shade clip s =
  (Ok tt,
   set_bpy
     (set_areas
        (map (fun area =>
                if bool_decide (area_type area = "VIEW_3D")
                then {| area_type := area_type area;
                        spaces :=
                          map (fun space =>
                                 if bool_decide (space_type space = "VIEW_3D")
                                 then {| space_type := space_type space;
                                         viewport_shade := shade;
                                         clip_end := clip |}
                                 else space)
                              (spaces area) |}
                else area)
             (areas (bpy s))) (bpy s)) s).
Proof. reflexivity. Qed.

(** X3: two calls of [set_viewport] in a row leave what the second alone
    leaves: the shading and the clipping distance of the last call win, and
    a repeated call changes nothing more. *)
Theorem set_viewport_last_wins (shade1 shade2 : string) (clip1 clip2 : pynum)
    (s : State) :
  set_viewport shade2 clip2 (snd (set_viewport shade1 clip1 s))
  = set_viewport shade2 clip2 s.
Proof.
  rewrite !set_viewport_areas. cbn [snd]. f_equal.
  destruct s as [b dk sp so se cm].
  destruct b as [imgs texs mats objs act md ar sc pk sv fp].
  cbn. do 2 f_equal.
  rewrite map_map. apply map_ext. intros area.
  destruct (bool_decide (area_type area = "VIEW_3D")) eqn:Ha;
    cbn [area_type spaces]; rewrite Ha; [|reflexivity].
  f_equal. rewrite map_map. apply map_ext. intros space.
  destruct (bool_decide (space_type space = "VIEW_3D")) eqn:Hs;
    cbn [space_type]; now rewrite Hs.
Qed.

(** X4: on a screen none of whose 3D areas holds a 3D space,
    [set_viewport] returns without changing anything. *)
Theorem set_viewport_without_view (shade : string) (clip : pynum) (s : State) :
  has_viewport (areas (bpy s)) = false ->
  set_viewport shade clip s = (Ok tt, s).
Proof.
  intros H. rewrite set_viewport_areas. f_equal.
  destruct s as [b dk sp so se cm].
  destruct b as [imgs texs mats objs act md ar sc pk sv fp].
  cbn in *. do 2 f_equal.
  induction ar as [|area ar IH]; [reflexivity|].
  cbn in H. apply orb_false_elim in H as [Ha Har].
  cbn. rewrite IH by assumption. f_equal.
  case_bool_decide as Ht; [|reflexivity].
  cbn in Ha. destruct area as [ty sps]. cbn in *. f_equal.
  clear -Ha. induction sps as [|space sps IH]; [reflexivity|].
  cbn in Ha. apply orb_false_elim in Ha as [Hs Hsps].
  cbn. rewrite IH by assumption.
  now rewrite Hs.
Qed.

Lemma textured_twice (ar : list Area) : textured (textured ar) = textured ar.
Proof.
  unfold textured. rewrite map_map. apply map_ext. intros area.
  destruct (bool_decide (area_type area = "VIEW_3D")) eqn:Ha;
    cbn [area_type spaces]; rewrite Ha; [|reflexivity].
  f_equal. rewrite map_map. apply map_ext. intros space.
  destruct (bool_decide (space_type space = "VIEW_3D")) eqn:Hs;
    cbn [space_type]; now rewrite Hs.
Qed.

(** X6: [setup] never raises, and whatever objects the scene held,
    selected or not, it leaves exactly one: the sun lamp at [(0, 0, 300)],
    selected and active.  The game settings are the fixed ones, every 3D
    view is textured with a clipping distance of 10000, and the images,
    textures, materials, saved files, disk, commands and output are as they
    were. *)
Theorem setup_scene (s : State) :
  fst (setup s) = Ok tt /\
  objects (bpy (snd (setup s))) = [sun_lamp] /\
  active_object (bpy (snd (setup s))) = Some 0%nat /\
  scene (bpy (snd (setup s))) = game_scene /\
  areas (bpy (snd (setup s))) = textured (areas (bpy s)) /\
  images (bpy (snd (setup s))) = images (bpy s) /\
  textures (bpy (snd (setup s))) = textures (bpy s) /\
  materials (bpy (snd (setup s))) = materials (bpy s) /\
  saved (bpy (snd (setup s))) = saved (bpy s) /\
  disk (snd (setup s)) = disk s /\
  commands (snd (setup s)) = commands s /\
  stdout (snd (setup s)) = stdout s.
Proof. rewrite setup_run. now repeat split. Qed.

(** X7: [setup] is idempotent: a second run returns in the state the
    first one left (one sun, not two). *)
Theorem setup_idempotent (s : State) :
  setup (snd (setup s)) = setup s.
Proof.
  rewrite !setup_run. cbn [snd]. f_equal.
  destruct s as [b dk sp so se cm]. cbn. f_equal.
  unfold after_setup. cbn. now rewrite textured_twice.
Qed.

(** X5: [save] with no path and [save] with the empty path do the same:
    they write the current file, [bpy.data.filepath].  After [save(p)] for a
    non-empty [p], the current file is [p]: a later [save()] writes [p]
    again. *)
Theorem save_current_file (p : string) (ce c ce' c' : bool) (s : State) :
  p <> "" ->
  save None ce c s = save (Some "") ce c s /\
  saved (bpy (snd (save None ce c s)))
  = saved (bpy s) ++ [(data_filepath (bpy s), ce, c)] /\
  saved (bpy (snd (save None ce' c' (snd (save (Some p) ce c s)))))
  = saved (bpy s) ++ [(p, ce, c); (p, ce', c')].
Proof.
  intros Hp. split; [reflexivity|]. split; [reflexivity|].
  destruct p as [|a p]; [congruence|].
  cbn. now rewrite <- app_assoc.
Qed.


(** ** [fix_python_path] and the command line of [main] *)

(** A directory without the separator is read through to its end. *)
Lemma split_from_directory (t : string) : forall acc rest,
  pathsep_free t = true ->
  split_from os_pathsep 0 acc (t +:+ rest)
  = split_from os_pathsep 0 (acc +:+ t) rest.
Proof.
  induction t as [|c t IH]; intros acc rest Hfree; simpl in Hfree.
  - now rewrite append_empty_r, append_empty_l.
  - case_bool_decide as Hc; [discriminate|].
    rewrite append_cons. unfold os_pathsep. cbn [split_from String.prefix].
    destruct (ascii_dec ":" c) as [Heq|_]; [now subst c|].
    fold os_pathsep. rewrite IH by assumption.
    now rewrite append_assoc, append_cons, append_empty_l.
Qed.

Lemma split_join_path (l : list string) : forall t acc,
  forallb pathsep_free (t :: l) = true ->
  split_from os_pathsep 0 acc (py_join os_pathsep (t :: l)) = (acc +:+ t) :: l.
Proof.
  induction l as [|t2 l IH]; intros t acc Hfree.
  - simpl in *. apply andb_prop in Hfree as [Ht _].
    rewrite <- (append_empty_r t) at 1.
    now rewrite split_from_directory.
  - change (py_join os_pathsep (t :: t2 :: l))
      with (t +:+ os_pathsep +:+ py_join os_pathsep (t2 :: l)).
    simpl in Hfree. apply andb_prop in Hfree as [Ht Hrest].
    rewrite split_from_directory by assumption.
    change (os_pathsep +:+ py_join os_pathsep (t2 :: l))
      with (String ":" (py_join os_pathsep (t2 :: l))).
    unfold os_pathsep at 1.
    cbn [split_from String.prefix String.length Nat.sub].
    destruct (ascii_dec ":" ":"); [|congruence].
    replace (String.prefix "" (py_join os_pathsep (t2 :: l))) with true
      by now destruct (py_join os_pathsep (t2 :: l)).
    fold os_pathsep. now rewrite IH, append_empty_l.
Qed.

Lemma split_path (dirs : list string) :
  dirs <> [] -> forallb pathsep_free dirs = true ->
  py_split os_pathsep (py_join os_pathsep dirs) = dirs.
Proof.
  intros Hne Hfree. destruct dirs as [|t l]; [congruence|].
  unfold py_split. now rewrite split_join_path.
Qed.

(** X8: when the interpreter prints its search path as directories
    joined by [os.pathsep], none of them holding the separator,
    [fix_python_path] appends exactly these directories, in order, after the
    entries [sys.path] already has, and runs that one command.  (The
    source never reads the parameter [python] of [fix_python_path]; the
    interpreter is always the default one of [ext_exec].) *)
Theorem fix_python_path_appends (dirs : list string) (st : Z) (d : Disk)
    (s : State) :
  dirs <> [] ->
  forallb pathsep_free dirs = true ->
  shell path_command (disk s) = (Ok (st, py_join os_pathsep dirs), d) ->
  fix_python_path s
  = (Ok tt, set_sys_path (sys_path s ++ dirs) (after_command path_command d s)).
Proof.
  intros Hne Hfree Hq.
  rewrite (fix_python_path_run _ _ _ _ Hq). now rewrite split_path.
Qed.

(** X9: [fix_python_path] does not look at what [sys.path] holds: run
    twice, it appends the interpreter's directories twice. *)
Theorem fix_python_path_twice (dirs : list string) (st : Z) (s : State) :
  dirs <> [] ->
  forallb pathsep_free dirs = true ->
  (forall d, shell path_command d = (Ok (st, py_join os_pathsep dirs), d)) ->
  sys_path (snd (fix_python_path (snd (fix_python_path s))))
  = sys_path s ++ dirs ++ dirs.
Proof.
  intros Hne Hfree Hq.
  rewrite (fix_python_path_run s _ _ _ (Hq _)). cbn [snd].
  erewrite fix_python_path_run by apply Hq.
  cbn. rewrite split_path by assumption. now rewrite <- app_assoc.
Qed.

Lemma args_after_prefix (pre l : list string) :
  "--" ∉ pre -> args_after_separator (pre ++ "--" :: l) = l.
Proof.
  induction pre as [|a pre IH]; intros H; cbn [app args_after_separator].
  - now rewrite bool_decide_true.
  - apply not_elem_of_cons in H as [Ha Hpre].
    rewrite bool_decide_false by congruence. now apply IH.
Qed.

(** X11: [main] reads its two paths right after the first ["--"] of the
    argument vector: what stands before the separator and what follows the
    second path (a further ["--"] included) does not change the run. *)
Theorem main_arguments (pre rest : list string) (dem img : string) (s : State) :
  "--" ∉ pre ->
  main (pre ++ "--" :: dem :: img :: rest) s = main ["--"; dem; img] s.
Proof.
  intros Hpre. unfold main. unfold bind at 1.
  rewrite main_args, args_after_prefix by assumption.
  symmetry. unfold bind at 1.
  rewrite main_args. cbn [args_after_separator].
  rewrite bool_decide_true by reflexivity.
  destruct (decide (length [dem; img] < 2)%nat) as [Hlt|_];
    [simpl in Hlt; lia|].
  destruct (decide (length (dem :: img :: rest) < 2)%nat) as [Hlt|_];
    [simpl in Hlt; lia|].
  reflexivity.
Qed.

(** X12: when the DEM or the image cannot be opened, [main] raises the
    host's [RuntimeError] before it runs a command, prints a line or touches
    the scene: objects, materials, textures, scene settings, saved files,
    disk, commands and both output streams are as they were; when it is the
    DEM that cannot be opened, the whole state is. *)
Theorem main_unreadable (argv : list string) (s : State)
    (dem_path img_path : string) (rest : list string) :
  args_after_separator argv = dem_path :: img_path :: rest ->
  disk s !! dem_path = None \/ disk s !! img_path = None ->
  fst (main argv s) = Raise RuntimeError /\
  objects (bpy (snd (main argv s))) = objects (bpy s) /\
  materials (bpy (snd (main argv s))) = materials (bpy s) /\
  textures (bpy (snd (main argv s))) = textures (bpy s) /\
  scene (bpy (snd (main argv s))) = scene (bpy s) /\
  saved (bpy (snd (main argv s))) = saved (bpy s) /\
  disk (snd (main argv s)) = disk s /\
  commands (snd (main argv s)) = commands s /\
  stdout (snd (main argv s)) = stdout s /\
  stderr (snd (main argv s)) = stderr s /\
  (disk s !! dem_path = None -> snd (main argv s) = s).
Proof.
  intros Hargs Hno.
  assert (Hrun : exists imgs',
             main argv s =
             (Raise RuntimeError,
              match disk s !! dem_path with
              | Some _ => set_bpy (set_images imgs' (bpy s)) s
              | None => s
              end)).
  { unfold main. unfold bind at 1. rewrite main_args, Hargs.
    destruct (decide (length (dem_path :: img_path :: rest) < 2)%nat)
      as [Hlt|_]; [simpl in Hlt; lia|].
    erewrite bind_ok by reflexivity.
    destruct (disk s !! dem_path) as [dem_dims|] eqn:Hdem.
    - destruct Hno as [Hno|Himg]; [discriminate|].
      destruct (open_image_returns _ _ _ Hdem) as (k & imgs' & Hopen & _).
      exists imgs'.
      erewrite bind_ok by exact Hopen.
      erewrite bind_ok by reflexivity.
      erewrite bind_raise by (apply open_image_unreadable; exact Himg).
      reflexivity.
    - exists [].
      erewrite bind_raise by (apply open_image_unreadable; exact Hdem).
      reflexivity. }
  destruct Hrun as (imgs' & Hrun). rewrite Hrun. cbn [fst snd].
  destruct (disk s !! dem_path) as [dem_dims|].
  - repeat split; try reflexivity. discriminate.
  - now repeat split.
Qed.

(** X10: [geotransform] prints the GDAL warning exactly when the query
    raised or printed something one of whose pieces is no float; on empty
    output it falls back to the default without a warning.  It runs the one
    query command and leaves the host alone. *)
Theorem geotransform_warning (filepath : string) (s : State) :
  exists lines,
    stdout (snd (geotransform filepath s)) = stdout s ++ lines /\
    ("[WARNING] GDAL error GetGeoTransform" ∈ lines <->
     match fst (shell (geotransform_command filepath) (disk s)) with
     | Raise _ => True
     | Ok (_, out) =>
         out <> "" /\
         exists e, float_list (py_split ", " (strip_ends out)) = Raise e
     end) /\
    bpy (snd (geotransform filepath s)) = bpy s /\
    commands (snd (geotransform filepath s))
    = commands s ++ [geotransform_command filepath].
Proof.
  destruct (shell (geotransform_command filepath) (disk s)) as [rq d] eqn:Hq.
  rewrite (geotransform_run _ _ _ _ Hq). cbn [fst snd].
  exists (resolve_lines rq). split; [reflexivity|].
  split; [|split; reflexivity].
  unfold resolve_lines. destruct rq as [[st out]|e].
  - destruct out as [|c out].
    + split; [intros H; now apply elem_of_nil in H | intros [H _]; congruence].
    + destruct (float_list _) as [vs|e] eqn:Hv.
      * split.
        -- intros H. apply list_elem_of_singleton in H. discriminate.
        -- intros [_ [e He]]. discriminate.
      * split; [intros _; split; [discriminate | eauto]|].
        intros _. apply list_elem_of_further, list_elem_of_here.
  - split; [auto|]. intros _. apply list_elem_of_here.
Qed.


(** ** Selection, subdivision and modifiers *)

Lemma assign_fmap {A : Type} (g f : A -> A) (l : list A) (i : nat) (a : A) :
  l !! i = Some a -> assign (map g l) i f = Ok (<[i := f (g a)]> (map g l)).
Proof.
  intros H. unfold assign.
  change (map g l) with (g <$> l). now rewrite list_lookup_fmap, H.
Qed.

Lemma assign_insert {A : Type} (f : A -> A) (l : list A) (i : nat) (x : A) :
  (i < length l)%nat -> assign (<[i := x]> l) i f = Ok (<[i := f x]> l).
Proof.
  intros H. unfold assign.
  rewrite list_lookup_insert_eq by assumption.
  now rewrite list_insert_insert_eq.
Qed.

Lemma deref_insert {A : Type} (l : list A) (i : nat) (x : A) :
  (i < length l)%nat -> deref (<[i := x]> l) i = Ok x.
Proof. intros H. unfold deref. now rewrite list_lookup_insert_eq. Qed.

Lemma select_only_run (obj : nat) (s : State) (o : Object) :
  objects (bpy s) !! obj = Some o ->
  select_only obj s =
  (Ok tt,
   set_bpy
     (set_active_object (Some obj)
        (set_objects
           (<[obj := with_obj_select true o]>
              (map (with_obj_select false) (objects (bpy s))))
           (bpy s))) s).
Proof.
  destruct s as [b dk sp so se cm].
  destruct b as [imgs texs mats objs act md ar sc pk sv fp].
  cbn [bpy objects]. intros H.
  unfold select_only. step.
  unfold update_object, bind, get_bpy, lift, put_bpy, modify_bpy. cbn.
  rewrite (assign_fmap _ _ _ _ _ H). reflexivity.
Qed.


Ltac object_run Hlt :=
  unfold ops_modifier_add, last_modifier, update_modifier, ops_modifier_apply,
    ops_mode_set, ops_mesh_subdivide,
    context_object, update_object, get_bpy, put_bpy, lift, bind, ret, raise;
  repeat (progress (cbn;
                    rewrite ?assign_insert, ?deref_insert by exact Hlt;
                    rewrite ?last_ref_app, ?deref_app, ?lookup_app_at,
                      ?insert_app_r, ?delete_app_at));
  rewrite ?app_nil_r, ?Nat.add_0_r; try reflexivity.

Lemma select_only_dangling (obj : nat) (s : State) :
  objects (bpy s) !! obj = None ->
  select_only obj s =
  (Raise ReferenceError,
   set_bpy (set_objects (map (with_obj_select false) (objects (bpy s))) (bpy s))
     s).
Proof.
  destruct s as [b dk sp so se cm].
  destruct b as [imgs texs mats objs act md ar sc pk sv fp].
  cbn [bpy objects]. intros H.
  unfold select_only. step.
  unfold update_object, bind, get_bpy, lift, put_bpy, modify_bpy, assign. cbn.
  change (map (with_obj_select false) objs) with (with_obj_select false <$> objs).
  now rewrite list_lookup_fmap, H.
Qed.

Ltac enter_object H Hlt L :=
  erewrite bind_ok by (apply select_only_run; exact H);
  match goal with
  | |- context [_ ?s] =>
      is_var s; destruct s as [[? ? ? ? ? ? ? ? ? ? ?] ? ? ? ? ?]
  end;
  cbn [bpy objects] in H;
  cbn [bpy objects set_bpy set_objects set_active_object focused];
  match type of H with
  | ?l !! ?i = _ =>
      assert (Hlt : (i < length (map (with_obj_select false) l))%nat)
        by (rewrite length_map; eapply lookup_lt_Some; exact H);
      let HL := fresh "HL" in
      remember (map (with_obj_select false) l) as L eqn:HL; clear HL H
  end.

Lemma add_decimate_modifier_run (obj : nat) (ratio : pynum)
    (apply show_viewport : bool) (s : State) (o : Object) :
  objects (bpy s) !! obj = Some o ->
  add_decimate_modifier obj ratio apply show_viewport s =
  (Ok (obj, length (obj_modifiers o)),
   focused obj (with_modifier (Decimate show_viewport ratio) apply o) s).
Proof.
  intros H. unfold add_decimate_modifier, focused.
  enter_object H Hlt L.
  destruct o as [nm kd loc scl sel mat mods app cuts].
  unfold with_modifier.
  destruct apply; object_run Hlt.
Qed.

Lemma add_displace_modifier_run (obj : nat) (texture : option nat)
    (strength : pynum) (direction : string) (apply : bool) (s : State)
    (o : Object) :
  objects (bpy s) !! obj = Some o ->
  add_displace_modifier obj texture strength direction apply s =
  (Ok (obj, length (obj_modifiers o)),
   focused obj (with_modifier (Displace texture strength direction) apply o) s).
Proof.
  intros H. unfold add_displace_modifier, focused.
  enter_object H Hlt L.
  destruct o as [nm kd loc scl sel mat mods app cuts].
  unfold with_modifier.
  destruct apply; object_run Hlt.
Qed.

Lemma subdivide_run (obj : nat) (number_cuts : pynum) (s : State) (o : Object) :
  objects (bpy s) !! obj = Some o ->
  subdivide obj number_cuts s =
  (Ok obj,
   set_bpy (set_mode "OBJECT"
              (bpy (focused obj
                      (with_obj_cuts (obj_cuts o ++ [number_cuts])
                         (with_obj_select true o)) s)))
     s).
Proof.
  intros H. unfold subdivide, focused.
  enter_object H Hlt L.
  destruct o as [nm kd loc scl sel mat mods app cuts].
  object_run Hlt.
Qed.

Lemma focused_lookup (obj : nat) (o o' : Object) (s : State) :
  objects (bpy s) !! obj = Some o ->
  objects (bpy (focused obj o' s)) !! obj = Some o' /\
  forall j, j <> obj ->
    objects (bpy (focused obj o' s)) !! j
    = with_obj_select false <$> objects (bpy s) !! j.
Proof.
  intros H. cbn. split.
  - apply list_lookup_insert_eq. rewrite length_map. eapply lookup_lt_Some, H.
  - intros j Hj. rewrite list_lookup_insert_ne by congruence.
    apply list_lookup_fmap.
Qed.

(** X1: after [select_only obj] on a live object, [obj] is the active
    object and the only selected one, every object being otherwise as it
    was; on a reference to no object it raises [ReferenceError], having
    deselected everything and left the active object as it was. *)
Theorem select_only_exclusive (obj : nat) (s : State) :
  match objects (bpy s) !! obj with
  | Some o =>
      fst (select_only obj s) = Ok tt /\
      active_object (bpy (snd (select_only obj s))) = Some obj /\
      forall j,
        objects (bpy (snd (select_only obj s))) !! j
        = with_obj_select (bool_decide (j = obj)) <$> objects (bpy s) !! j
  | None =>
      fst (select_only obj s) = Raise ReferenceError /\
      active_object (bpy (snd (select_only obj s))) = active_object (bpy s) /\
      forall j,
        objects (bpy (snd (select_only obj s))) !! j
        = with_obj_select false <$> objects (bpy s) !! j
  end.
Proof.
  destruct (objects (bpy s) !! obj) as [o|] eqn:H.
  - rewrite (select_only_run _ _ _ H). cbn [fst snd].
    split; [reflexivity|]. split; [reflexivity|].
    intros j. fold (focused obj (with_obj_select true o) s).
    destruct (focused_lookup obj o (with_obj_select true o) s H) as [Hobj Hrest].
    case_bool_decide as Hj.
    + subst j. now rewrite Hobj, H.
    + now apply Hrest.
  - rewrite (select_only_dangling _ _ H). cbn [fst snd].
    split; [reflexivity|]. split; [reflexivity|].
    intros j. cbn. apply list_lookup_fmap.
Qed.

(** X16: on a live object, [add_decimate_modifier] returns a handle to
    the end of the object's stack and puts a Decimate modifier with the
    given ratio and preview flag there, or, with [apply], onto the mesh after
    the modifiers already applied, the stack staying as it was; name, scale,
    material and subdivisions are kept.  On a reference to no object it
    raises [ReferenceError]. *)
Theorem add_decimate_modifier_effect (obj : nat) (ratio : pynum)
    (apply show_viewport : bool) (s : State) :
  match objects (bpy s) !! obj with
  | Some o =>
      fst (add_decimate_modifier obj ratio apply show_viewport s)
      = Ok (obj, length (obj_modifiers o)) /\
      exists o',
        objects (bpy (snd (add_decimate_modifier obj ratio apply show_viewport s)))
          !! obj = Some o' /\
        obj_modifiers o'
        = obj_modifiers o ++
          (if apply then [] else [Decimate show_viewport ratio]) /\
        obj_applied o'
        = obj_applied o ++
          (if apply then [Decimate show_viewport ratio] else []) /\
        obj_cuts o' = obj_cuts o /\ obj_scale o' = obj_scale o /\
        obj_material o' = obj_material o /\ obj_name o' = obj_name o
  | None =>
      fst (add_decimate_modifier obj ratio apply show_viewport s)
      = Raise ReferenceError
  end.
Proof.
  destruct (objects (bpy s) !! obj) as [o|] eqn:H.
  - rewrite (add_decimate_modifier_run _ _ _ _ _ _ H). cbn [fst snd].
    split; [reflexivity|]. eexists. split; [exact (proj1 (focused_lookup _ o _ _ H))|].
    unfold with_modifier. destruct apply; cbn; rewrite ?app_nil_r; auto 10.
  - unfold add_decimate_modifier.
    erewrite bind_raise by (apply select_only_dangling; exact H).
    reflexivity.
Qed.

(** X15: on a live object, [add_displace_modifier] appends a Displace
    modifier with the given texture, strength and direction and returns a
    handle to it; with [apply] the modifier goes onto the mesh instead and
    the handle returned points at no modifier of the stack. *)
Theorem add_displace_modifier_handle (obj : nat) (texture : option nat)
    (strength : pynum) (direction : string) (apply : bool) (s : State)
    (o : Object) :
  objects (bpy s) !! obj = Some o ->
  exists k o',
    fst (add_displace_modifier obj texture strength direction apply s)
    = Ok (obj, k) /\
    objects (bpy (snd (add_displace_modifier obj texture strength direction
                         apply s))) !! obj = Some o' /\
    obj_modifiers o' !! k
    = (if apply then None else Some (Displace texture strength direction)) /\
    obj_modifiers o'
    = obj_modifiers o ++
      (if apply then [] else [Displace texture strength direction]) /\
    obj_applied o'
    = obj_applied o ++
      (if apply then [Displace texture strength direction] else []).
Proof.
  intros H. rewrite (add_displace_modifier_run _ _ _ _ _ _ _ H). cbn [fst snd].
  eexists _, _. split; [reflexivity|]. split; [exact (proj1 (focused_lookup _ o _ _ H))|].
  unfold with_modifier. destruct apply; cbn; rewrite ?app_nil_r.
  - split; [|auto]. apply lookup_ge_None. lia.
  - split; [|auto]. now rewrite lookup_app_end.
Qed.

(** X17: [add_displace_modifier] followed by [add_decimate_modifier] on
    one object, neither applied, stacks Displace below Decimate after the
    modifiers the object had, and both handles returned stay valid. *)
Theorem displace_then_decimate (obj : nat) (texture : option nat)
    (strength ratio : pynum) (direction : string) (show_viewport : bool)
    (s : State) (o : Object) :
  objects (bpy s) !! obj = Some o ->
  exists k1 k2 s1 s2 o2,
    add_displace_modifier obj texture strength direction false s
    = (Ok (obj, k1), s1) /\
    add_decimate_modifier obj ratio false show_viewport s1
    = (Ok (obj, k2), s2) /\
    objects (bpy s2) !! obj = Some o2 /\
    obj_modifiers o2
    = obj_modifiers o ++
      [Displace texture strength direction; Decimate show_viewport ratio] /\
    obj_modifiers o2 !! k1 = Some (Displace texture strength direction) /\
    obj_modifiers o2 !! k2 = Some (Decimate show_viewport ratio).
Proof.
  intros H.
  pose proof (focused_lookup obj o
                (with_modifier (Displace texture strength direction) false o)
                s H) as [H1 _].
  pose proof (focused_lookup obj _
                (with_modifier (Decimate show_viewport ratio) false
                   (with_modifier (Displace texture strength direction) false o))
                _ H1) as [H2 _].
  eexists _, _, _, _, _.
  split; [apply add_displace_modifier_run; exact H|].
  split; [apply add_decimate_modifier_run; exact H1|].
  split; [exact H2|].
  cbn. rewrite <- app_assoc. split; [reflexivity|].
  split.
  - now rewrite lookup_app_end.
  - rewrite app_assoc. now rewrite lookup_app_end.
Qed.

(** X2: on a live object, [subdivide] returns the object it was given,
    and ends in object mode with that object active, selected, and with the
    cuts recorded on it: the object is as it was but for the selection and
    the cuts.  The other objects are deselected and otherwise untouched. *)
Theorem subdivide_effect (obj : nat) (number_cuts : pynum) (s : State)
    (o : Object) :
  objects (bpy s) !! obj = Some o ->
  fst (subdivide obj number_cuts s) = Ok obj /\
  mode (bpy (snd (subdivide obj number_cuts s))) = "OBJECT" /\
  active_object (bpy (snd (subdivide obj number_cuts s))) = Some obj /\
  (exists o',
     objects (bpy (snd (subdivide obj number_cuts s))) !! obj = Some o' /\
     o' = with_obj_cuts (obj_cuts o ++ [number_cuts])
            (with_obj_select true o) /\
     obj_select o' = true /\
     obj_cuts o' = obj_cuts o ++ [number_cuts] /\
     obj_modifiers o' = obj_modifiers o /\ obj_scale o' = obj_scale o) /\
  (forall j, j <> obj ->
     objects (bpy (snd (subdivide obj number_cuts s))) !! j
     = with_obj_select false <$> objects (bpy s) !! j).
Proof.
  intros H. rewrite (subdivide_run _ _ _ _ H). cbn [fst snd].
  split; [reflexivity|]. split; [reflexivity|]. split; [reflexivity|].
  destruct (focused_lookup obj o
              (with_obj_cuts (obj_cuts o ++ [number_cuts])
                 (with_obj_select true o)) s H) as [Hobj Hrest].
  split.
  - eexists. split; [exact Hobj|]. cbn. auto.
  - exact Hrest.
Qed.


(** ** [add_water_cube] and the hillshade layer *)

Lemma deref_app_end {A : Type} (l r : list A) :
  deref (l ++ r) (length l) = deref r 0.
Proof. rewrite <- (deref_app l r 0). now rewrite Nat.add_0_r. Qed.

Lemma assign_app_end {A : Type} (l r : list A) (f : A -> A) :
  assign (l ++ r) (length l) f =
  match assign r 0 f with Ok r' => Ok (l ++ r') | Raise e => Raise e end.
Proof. rewrite <- (assign_app l r 0). now rewrite Nat.add_0_r. Qed.

Ltac run_end :=
  expose;
  unfold new_cube, new_plane, ops_primitive_cube_add, ops_primitive_plane_add,
    add_object, context_object, update_object, object_material, ret, raise;
  repeat (progress (cbn; rewrite ?last_named_snoc by names;
                    rewrite ?last_ref_app, ?deref_app, ?assign_app,
                      ?deref_app_end, ?assign_app_end, ?delete_app_at,
                      ?app_nil_r, ?length_app_add, <- ?app_assoc));
  rewrite ?Nat.add_0_r.

(** X14: in a host that lists a new material after the materials it
    holds, [add_water_cube] does not raise: it returns a new cube, added
    after the objects already there (which it deselects), of the given
    scale, selected and active, with a new material of its own, added after
    the materials already there: it carries the name the host makes of
    "Water", is shadeless and of diffuse colour [(0.3, 0.4, 0.8)]. *)
Theorem add_water_cube_effect (scale : vec3) (s : State) :
  newest (map mat_name (materials (bpy s)))
    (unique_name (map mat_name (materials (bpy s))) "Material") = true ->
  add_water_cube scale s =
  (Ok (length (objects (bpy s))),
   set_bpy
     (set_materials
        (materials (bpy s) ++
         [water_material
            (unique_name (map mat_name (materials (bpy s))) "Water")])
        (set_active_object (Some (length (objects (bpy s))))
           (set_objects
              (map (with_obj_select false) (objects (bpy s)) ++
               [water_cube scale (length (materials (bpy s)))])
              (bpy s)))) s).
Proof.
  intros Hlast.
  destruct s as [b dk sp so se cm].
  destruct b as [imgs texs mats objs act md ar sc pk sv fp].
  cbn [bpy materials] in Hlast.
  unfold add_water_cube.
  remember (map (with_obj_select false) objs) as L eqn:HL.
  assert (Hlen : length objs = length L) by (subst L; now rewrite length_map).
  run_end. rewrite <- HL. run_end. rewrite Hlen. run_end.
  reflexivity.
Qed.

Lemma hillshade_layer_run (material : nat) (s : State) (m : Material)
    (image : nat) :
  materials (bpy s) !! material = Some m ->
  (active_texture_index m < length (texture_slots m))%nat ->
  newest (map tex_name (textures (bpy s)))
    (unique_name (map tex_name (textures (bpy s))) "Texture") = true ->
  (let! texture_hsh := new_image_texture material image "hsh" in
   do! match texture_hsh with
       | Some t => update_texture t (with_use_normal_map true)
       | None => raise AttributeError
       end in
   do! update_active_slot material (fun sl =>
         {| slot_texture := slot_texture sl; use_map_color_diffuse := false;
            use_map_normal := use_map_normal sl;
            normal_factor := normal_factor sl |}) in
   do! update_active_slot material (fun sl =>
         {| slot_texture := slot_texture sl;
            use_map_color_diffuse := use_map_color_diffuse sl;
            use_map_normal := true; normal_factor := normal_factor sl |}) in
   update_active_slot material (fun sl =>
     {| slot_texture := slot_texture sl;
        use_map_color_diffuse := use_map_color_diffuse sl;
        use_map_normal := use_map_normal sl;
        normal_factor := PyFloat (SFopp (decimal 5 1)) |})) s
  = (Ok tt,
     set_bpy
       (set_materials
          (<[material :=
               with_slots
                 (<[active_texture_index m :=
                      Some (hillshade_slot (length (textures (bpy s))))]>
                    (texture_slots m)) m]> (materials (bpy s)))
          (set_textures
             (textures (bpy s) ++
              [hillshade_texture
                 (unique_name (map tex_name (textures (bpy s))) "hsh") image])
             (bpy s))) s).
Proof.
  intros Hm Hk Hlast.
  destruct s as [b dk sp so se cm].
  destruct b as [imgs texs mats objs act md ar sc pk sv fp].
  cbn [bpy materials textures] in *.
  apply list_elem_of_split_length in Hm as (l1 & l2 & -> & ->).
  destruct m as [nm spec k slots uses shadeless colour].
  cbn [active_texture_index texture_slots] in Hk.
  destruct (slots !! k) as [old|] eqn:Hold;
    [|apply lookup_ge_None in Hold; lia].
  destruct old as [sl|];
  expose; unfold update_active_slot, ret, raise;
  repeat (progress (cbn; rewrite ?last_named_snoc by names;
                    rewrite ?last_ref_app, ?deref_app, ?assign_app,
                      ?deref_app_end, ?assign_app_end, ?delete_app_at,
                      ?app_nil_r, ?Hold;
                    rewrite ?list_lookup_insert_eq by exact Hk;
                    rewrite ?list_insert_insert_eq));
  rewrite ?insert_app_r_alt, ?Nat.sub_diag by lia;
  unfold put_bpy; cbn; rewrite ?Nat.add_0_r; reflexivity.
Qed.

Lemma next_texture_index_run (material : nat) (s : State) (m : Material) :
  materials (bpy s) !! material = Some m ->
  next_texture_index material s =
  (Ok tt,
   set_bpy
     (set_materials
        (<[material := with_active_texture_index (active_texture_index m + 1) m]>
           (materials (bpy s))) (bpy s)) s).
Proof.
  intros Hm. unfold next_texture_index, get_material, update_material, bind,
    get_bpy, put_bpy, lift, deref, assign.
  cbn. now rewrite Hm.
Qed.

(** X18: with the hillshade file on disk and not loaded yet, a live
    material, and a host that lists the new image and the new texture after
    the blocks it holds, [add_hillshade] opens the file as a new image,
    moves the material to its next texture slot (the last one at most) and
    binds there a new image texture of that image, named as the host makes
    of "hsh" and flagged as a normal map; the slot does not colour the
    diffuse channel, maps normals, and has normal factor -0.5, whatever it
    held before.  Nothing else in the host changes. *)
Theorem add_hillshade_layer (demfile : string) (material : nat) (s : State)
    (r : Z * Z) (m : Material) :
  disk s !! hillshade_path demfile = Some r ->
  opened (images (bpy s)) (hillshade_path demfile) = false ->
  newest (map img_name (images (bpy s)))
    (unique_name (map img_name (images (bpy s)))
       (image_name (hillshade_path demfile))) = true ->
  newest (map tex_name (textures (bpy s)))
    (unique_name (map tex_name (textures (bpy s))) "Texture") = true ->
  materials (bpy s) !! material = Some m ->
  length (texture_slots m) = MAX_MTEX ->
  add_hillshade demfile material s =
  (Ok tt,
   set_bpy
     (set_materials
        (<[material :=
             with_slots
               (<[Nat.min (active_texture_index m + 1) (MAX_MTEX - 1) :=
                    Some (hillshade_slot (length (textures (bpy s))))]>
                  (texture_slots m))
               (with_active_texture_index (active_texture_index m + 1) m)]>
           (materials (bpy s)))
        (set_textures
           (textures (bpy s) ++
            [hillshade_texture
               (unique_name (map tex_name (textures (bpy s))) "hsh")
               (length (images (bpy s)))])
           (set_images
              (images (bpy s) ++
               [mk_image
                  (unique_name (map img_name (images (bpy s)))
                     (image_name (hillshade_path demfile)))
                  (hillshade_path demfile) r])
              (bpy s)))) s).
Proof.
  intros Hfile Hnew Himage Htexture Hm Hlen. unfold add_hillshade.
  unfold bind at 1. cbv beta iota.
  rewrite bool_decide_true by (rewrite Hfile; eauto).
  erewrite bind_ok by reflexivity.
  erewrite bind_ok by (apply open_image_run; eassumption).
  erewrite bind_ok by (apply next_texture_index_run; exact Hm).
  assert (Hin : (material < length (materials (bpy s)))%nat)
    by (eapply lookup_lt_Some; exact Hm).
  erewrite hillshade_layer_run.
  2:{ cbn. apply list_lookup_insert_eq. exact Hin. }
  2:{ cbn. rewrite Hlen. unfold MAX_MTEX. lia. }
  2:{ exact Htexture. }
  destruct s as [b dk sp so se cm].
  destruct b as [imgs texs mats objs act md ar sc pk sv fp].
  cbn. rewrite list_insert_insert_eq, Nat.add_0_r. reflexivity.
Qed.

(** X19: when the hillshade file is not on disk and [gdaldem], whatever
    its exit status, leaves none, [add_hillshade] raises [RuntimeError] from
    opening the file, after that one command and without touching the
    host. *)
Theorem add_hillshade_tool_failed (demfile : string) (material : nat)
    (s : State) (st : Z) (out : string) (d : Disk) :
  disk s !! hillshade_path demfile = None ->
  shell (gdaldem_command demfile) (disk s) = (Ok (st, out), d) ->
  d !! hillshade_path demfile = None ->
  add_hillshade demfile material s
  = (Raise RuntimeError, after_command (gdaldem_command demfile) d s).
Proof.
  intros Hfile Hshell Hd. unfold add_hillshade.
  unfold bind at 1. cbv beta iota.
  rewrite bool_decide_false by (rewrite Hfile; intros [? ?]; discriminate).
  erewrite bind_ok.
  2:{ unfold bind, getstatusoutput, run_shell. rewrite Hshell. reflexivity. }
  erewrite bind_raise by (apply open_image_unreadable; exact Hd).
  reflexivity.
Qed.

(** X20: when [gdaldem] wrote the hillshade file, [add_hillshade] goes on
    as if the file had been there from the start: the exit status and the
    output of the tool are not looked at. *)
Theorem add_hillshade_after_tool (demfile : string) (material : nat)
    (s : State) (st : Z) (out : string) (d : Disk) :
  disk s !! hillshade_path demfile = None ->
  shell (gdaldem_command demfile) (disk s) = (Ok (st, out), d) ->
  is_Some (d !! hillshade_path demfile) ->
  add_hillshade demfile material s
  = add_hillshade demfile material
      (after_command (gdaldem_command demfile) d s).
Proof.
  intros Hfile Hshell Hd. unfold add_hillshade.
  unfold bind at 1. cbv beta iota.
  rewrite bool_decide_false by (rewrite Hfile; intros [? ?]; discriminate).
  erewrite bind_ok.
  2:{ unfold bind, getstatusoutput, run_shell. rewrite Hshell. reflexivity. }
  symmetry. unfold bind at 1. cbv beta iota.
  cbn [disk after_command set_commands set_disk].
  rewrite bool_decide_true by exact Hd.
  erewrite bind_ok by reflexivity. reflexivity.
Qed.



(** ** The commands [main] runs *)

Lemma gdaldem_not_python (q cmd : string) :
  gdaldem_command q <> python_name +:+ cmd.
Proof.
  unfold gdaldem_command, python_name. rewrite !append_cons. discriminate.
Qed.

Lemma silent_inv {A : Type} (m : M A) (s s' : State) (r : result A) :
  silent m -> m s = (r, s') ->
  commands s' = commands s /\ stderr s' = stderr s.
Proof. intros Hm H. specialize (Hm s). now rewrite H in Hm. Qed.

Lemma silent_bind {A B : Type} (m : M A) (k : A -> M B) :
  silent m -> (forall a, silent (k a)) -> silent (bind m k).
Proof.
  intros Hm Hk s. unfold bind. specialize (Hm s).
  destruct (m s) as [[a|e] s1]; cbn [snd] in *; [|exact Hm].
  destruct (Hk a s1) as [H1 H2]. destruct Hm as [H3 H4].
  split; congruence.
Qed.

Lemma silent_ret {A : Type} (a : A) : silent (ret a).
Proof. now intros s. Qed.

Lemma silent_raise {A : Type} (e : exn) : silent (raise (A := A) e).
Proof. now intros s. Qed.

Lemma silent_lift {A : Type} (r : result A) : silent (lift r).
Proof. now intros s. Qed.

Lemma silent_get_bpy : silent get_bpy.
Proof. now intros s. Qed.

Lemma silent_put_bpy (b : Blender) : silent (put_bpy b).
Proof. now intros s. Qed.

Lemma silent_modify_bpy (f : Blender -> Blender) : silent (modify_bpy f).
Proof. now intros s. Qed.

Lemma silent_print (line : string) : silent (print line).
Proof. now intros s. Qed.

Lemma silent_ops_image_open (filepath : string) :
  silent (ops_image_open filepath).
Proof.
  intros s. unfold ops_image_open.
  destruct (disk s !! filepath); [|now split].
  now destruct (opened (images (bpy s)) filepath).
Qed.

Ltac head_of t :=
  lazymatch t with
  | ?f _ => head_of f
  | _ => t
  end.

(** Solves [silent m] for a step made of the operations of the host. *)
Ltac silent_step :=
  cbv beta zeta;
  lazymatch goal with
  | |- silent (bind _ _) => apply silent_bind; [|intros ?]
  | |- silent (ret _) => apply silent_ret
  | |- silent (raise _) => apply silent_raise
  | |- silent (lift _) => apply silent_lift
  | |- silent get_bpy => apply silent_get_bpy
  | |- silent (put_bpy _) => apply silent_put_bpy
  | |- silent (modify_bpy _) => apply silent_modify_bpy
  | |- silent (print _) => apply silent_print
  | |- silent (ops_image_open _) => apply silent_ops_image_open
  | |- silent (match ?x with _ => _ end) => destruct x
  | |- silent ?m => let h := head_of m in unfold h
  end.

Ltac silent_steps := repeat silent_step.

(** A run of [fix_python_path] that returns ran the path query, and wrote
    nothing to the error stream. *)
Lemma fix_python_path_inv (s s' : State) (a : unit) :
  fix_python_path s = (Ok a, s') ->
  commands s' = commands s ++ [path_command] /\ stderr s' = stderr s.
Proof.
  destruct (shell path_command (disk s)) as [[[st out]|e] d] eqn:H.
  - rewrite (fix_python_path_run _ _ _ _ H). intros Heq.
    injection Heq as _ <-. now split.
  - unfold fix_python_path, bind. rewrite ext_exec_default.
    fold path_command. unfold getoutput, bind, run_shell. rewrite H.
    discriminate.
Qed.

(** X13: a run of [main] that returns never invokes [gdaldem]: on the
    usage path (status 1) it runs no command and writes the usage text to
    the error stream; on a build (status 0) it runs exactly the path query
    and then the metadata query on the DEM, and writes nothing to the error
    stream. *)
Theorem main_commands (argv : list string) (s s' : State) (r : Z) :
  main argv s = (Ok r, s') ->
  exists new,
    commands s' = commands s ++ new /\
    (forall q, gdaldem_command q ∉ new) /\
    (r = 1 -> new = [] /\ stderr s' = stderr s ++ [usage_text]) /\
    (r = 0 ->
     exists dem_path img_path rest,
       args_after_separator argv = dem_path :: img_path :: rest /\
       new = [path_command; geotransform_command dem_path] /\
       stderr s' = stderr s).
Proof.
  intros Hrun.
  destruct (decide (length (args_after_separator argv) < 2)%nat) as [Hlt|Hge].
  - assert (Husage : main argv s
                     = (Ok 1, set_stderr (stderr s ++ [usage_text]) s)).
    { unfold main. unfold bind at 1. rewrite main_args.
      destruct (decide (length (args_after_separator argv) < 2)%nat); [|lia].
      reflexivity. }
    rewrite Husage in Hrun. injection Hrun as <- <-.
    exists []. cbn. rewrite app_nil_r.
    split; [reflexivity|]. split; [intros q; apply not_elem_of_nil|].
    split; [auto | discriminate].
  - assert (Hargs : exists dem_path img_path rest,
               args_after_separator argv = dem_path :: img_path :: rest).
    { destruct (args_after_separator argv) as [|a [|b l]];
        simpl in Hge; try lia. eauto. }
    destruct Hargs as (dem_path & img_path & rest & Hargs).
    assert (Hr : r = 0)
      by (apply (main_returns_zero argv s s'); [lia | exact Hrun]).
    subst r.
    assert (Hnew : commands s'
                   = commands s ++ [path_command; geotransform_command dem_path]
                   /\ stderr s' = stderr s).
    { unfold main in Hrun. unfold bind at 1 in Hrun.
      rewrite main_args, Hargs in Hrun.
      destruct (decide (length (dem_path :: img_path :: rest) < 2)%nat)
        as [Hlt|_]; [simpl in Hlt; lia|].
      do 7 (apply bind_inv in Hrun as (? & ? & Hstep & Hrun);
            apply silent_inv in Hstep as [? ?]; [|solve [silent_steps]]).
      apply bind_inv in Hrun as (? & ? & Hstep & Hrun).
      apply fix_python_path_inv in Hstep as [? ?].
      apply bind_inv in Hrun as (p & ? & Hstep & Hrun).
      assert (p = dem_path) as ->
        by (unfold lift in Hstep; cbn in Hstep; congruence).
      apply silent_inv in Hstep as [? ?]; [|solve [silent_steps]].
      apply bind_inv in Hrun as (? & ? & Hstep & Hrun).
      match type of Hstep with
      | geotransform _ ?s0 = _ =>
          destruct (geotransform_returns dem_path s0) as (vs & ls & d & Hg)
      end.
      rewrite Hg in Hstep. injection Hstep as _ <-.
      apply silent_inv in Hrun as [Hc He]; [|solve [silent_steps]].
      rewrite Hc, He. cbn.
      split; [|congruence].
      change [path_command; geotransform_command dem_path]
        with ([path_command] ++ [geotransform_command dem_path]).
      rewrite app_assoc. f_equal. congruence. }
    destruct Hnew as [Hc He].
    exists [path_command; geotransform_command dem_path].
    split; [exact Hc|]. split.
    + intros q Hin. apply elem_of_cons in Hin as [Hq|Hin].
      * revert Hq. unfold path_command. apply gdaldem_not_python.
      * apply list_elem_of_singleton in Hin. revert Hin.
        unfold geotransform_command. apply gdaldem_not_python.
    + split; [discriminate|]. intros _.
      exists dem_path, img_path, rest. auto.
Qed.

End Coverage.

(** ** Concrete runs of the functions beside [main]'s path *)

(** The start-up cube of the scenario, with the start-up material. *)
Definition startup_cube : Object :=
  with_obj_material 0 (default_object "Cube" CubeMesh (zero, zero, zero)).

(** The scenario with a screen that shows no 3D view. *)
Definition headless_state : State :=
  set_bpy
    (set_areas
       [{| area_type := "INFO";
           spaces := [{| space_type := "INFO"; viewport_shade := "SOLID";
                         clip_end := PyFloat (decimal 1000 0) |}] |}]
       (bpy scenario_state))
    scenario_state.

(** An interpreter whose module search path has two directories. *)
Definition sample_dirs : list string :=
  ["/usr/lib/python3.3"; "/usr/lib/python3.3/site-packages"].

Definition paths_runtime : Runtime :=
  {| float_of_string := decimal_literal;
     shell := fun _ d => (Ok (0, py_join os_pathsep sample_dirs), d);
     version_info := (3, 3) |}.

(** The scenario after [main], with the hillshade of [img.tif] on disk:
    the host lists [img.tif.hillshade.png] after [dem.tif] and [img.tif]. *)
Definition shaded_state : State :=
  set_disk (<[hillshade_path "img.tif" := (200, 100)]> (disk scenario_state))
    (snd (main (host := sample_host) (rt := scenario_runtime)
            sample_argv scenario_state)).

Lemma subdivide_effect_witness :
  fst (subdivide 0 (PyInt 4) scenario_state) = Ok 0%nat /\
  mode (bpy (snd (subdivide 0 (PyInt 4) scenario_state))) = "OBJECT" /\
  active_object (bpy (snd (subdivide 0 (PyInt 4) scenario_state))) = Some 0%nat /\
  (exists o',
     objects (bpy (snd (subdivide 0 (PyInt 4) scenario_state))) !! 0%nat
     = Some o' /\
     o' = with_obj_cuts (obj_cuts startup_cube ++ [PyInt 4])
            (with_obj_select true startup_cube) /\
     obj_select o' = true /\
     obj_cuts o' = obj_cuts startup_cube ++ [PyInt 4] /\
     obj_modifiers o' = obj_modifiers startup_cube /\
     obj_scale o' = obj_scale startup_cube) /\
  (forall j, j <> 0%nat ->
     objects (bpy (snd (subdivide 0 (PyInt 4) scenario_state))) !! j
     = with_obj_select false <$> objects (bpy scenario_state) !! j).
Proof. apply subdivide_effect. reflexivity. Defined.

Lemma set_viewport_without_view_witness :
  set_viewport "TEXTURED" (PyInt 10000) headless_state = (Ok tt, headless_state).
Proof. apply set_viewport_without_view. reflexivity. Defined.

Lemma save_current_file_witness :
  save None false true scenario_state = save (Some "") false true scenario_state /\
  saved (bpy (snd (save None false true scenario_state)))
  = saved (bpy scenario_state)
    ++ [(data_filepath (bpy scenario_state), false, true)] /\
  saved (bpy (snd (save None false false
                     (snd (save (Some "/tmp/dtm.blend") false true
                             scenario_state)))))
  = saved (bpy scenario_state)
    ++ [("/tmp/dtm.blend", false, true); ("/tmp/dtm.blend", false, false)].
Proof. apply save_current_file. discriminate. Defined.

Lemma fix_python_path_appends_witness :
  fix_python_path (rt := paths_runtime) scenario_state
  = (Ok tt,
     set_sys_path (sys_path scenario_state ++ sample_dirs)
       (after_command (path_command (rt := paths_runtime))
          (disk scenario_state) scenario_state)).
Proof.
  apply (fix_python_path_appends (rt := paths_runtime) sample_dirs 0);
    [discriminate | reflexivity | reflexivity].
Defined.

Lemma fix_python_path_twice_witness :
  sys_path (snd (fix_python_path (rt := paths_runtime)
                   (snd (fix_python_path (rt := paths_runtime) scenario_state))))
  = sys_path scenario_state ++ sample_dirs ++ sample_dirs.
Proof.
  apply (fix_python_path_twice (rt := paths_runtime) sample_dirs 0);
    [discriminate | reflexivity | reflexivity].
Defined.

Lemma separator_not_before :
  "--" ∉ ["blender"; "-P"; "blend_dtm.py"].
Proof.
  intros H. repeat (apply elem_of_cons in H as [H|H]; [discriminate|]).
  now apply elem_of_nil in H.
Qed.

Lemma main_arguments_witness :
  main (host := sample_host) (rt := scenario_runtime)
    (["blender"; "-P"; "blend_dtm.py"] ++
     "--" :: "dem.tif" :: "img.tif" :: ["--"; "more.tif"]) scenario_state
  = main (host := sample_host) (rt := scenario_runtime)
      ["--"; "dem.tif"; "img.tif"] scenario_state.
Proof. apply main_arguments. exact separator_not_before. Defined.

Lemma main_unreadable_witness :
  fst (main (host := sample_host) (rt := scenario_runtime)
         ["--"; "dem.tif"; "none.tif"] scenario_state)
  = Raise RuntimeError /\
  objects (bpy (snd (main (host := sample_host) (rt := scenario_runtime)
                       ["--"; "dem.tif"; "none.tif"] scenario_state)))
  = [startup_cube].
Proof.
  pose proof (main_unreadable (host := sample_host) (rt := scenario_runtime)
                ["--"; "dem.tif"; "none.tif"] scenario_state
                "dem.tif" "none.tif" [] eq_refl
                (or_intror (eq_refl : disk scenario_state !! "none.tif" = None)))
    as (H1 & H2 & _).
  split; [exact H1 | exact H2].
Defined.

Lemma main_commands_witness :
  exists new,
    commands (snd (main (host := sample_host) (rt := scenario_runtime)
                     sample_argv scenario_state))
    = commands scenario_state ++ new /\
    (forall q, gdaldem_command q ∉ new) /\
    (0 = 1 -> new = [] /\
       stderr (snd (main (host := sample_host) (rt := scenario_runtime)
                      sample_argv scenario_state))
       = stderr scenario_state ++ [usage_text]) /\
    (0 = 0 ->
     exists dem_path img_path rest,
       args_after_separator sample_argv = dem_path :: img_path :: rest /\
       new = [path_command (rt := scenario_runtime);
              geotransform_command (rt := scenario_runtime) dem_path] /\
       stderr (snd (main (host := sample_host) (rt := scenario_runtime)
                      sample_argv scenario_state))
       = stderr scenario_state).
Proof.
  apply (main_commands (host := sample_host) (rt := scenario_runtime)).
  vm_compute. reflexivity.
Defined.

Lemma add_displace_modifier_handle_witness :
  exists k o',
    fst (add_displace_modifier 0 None (PyInt 2) "Z" true scenario_state)
    = Ok (0%nat, k) /\
    objects (bpy (snd (add_displace_modifier 0 None (PyInt 2) "Z" true
                         scenario_state))) !! 0%nat = Some o' /\
    obj_modifiers o' !! k = None /\
    obj_modifiers o' = obj_modifiers startup_cube ++ [] /\
    obj_applied o' = obj_applied startup_cube ++ [Displace None (PyInt 2) "Z"].
Proof.
  apply (add_displace_modifier_handle 0 None (PyInt 2) "Z" true scenario_state
           startup_cube).
  reflexivity.
Defined.

Lemma displace_then_decimate_witness :
  exists k1 k2 s1 s2 o2,
    add_displace_modifier 0 None (PyInt 1) "Z" false scenario_state
    = (Ok (0%nat, k1), s1) /\
    add_decimate_modifier 0 (PyFloat (decimal 5 1)) false false s1
    = (Ok (0%nat, k2), s2) /\
    objects (bpy s2) !! 0%nat = Some o2 /\
    obj_modifiers o2
    = obj_modifiers startup_cube ++
      [Displace None (PyInt 1) "Z"; Decimate false (PyFloat (decimal 5 1))] /\
    obj_modifiers o2 !! k1 = Some (Displace None (PyInt 1) "Z") /\
    obj_modifiers o2 !! k2 = Some (Decimate false (PyFloat (decimal 5 1))).
Proof.
  apply (displace_then_decimate 0 None (PyInt 1) (PyFloat (decimal 5 1)) "Z"
           false scenario_state startup_cube).
  reflexivity.
Defined.

(** In the sample host a material "Material" is there at start-up: the new
    one is named "Material.001" and listed last, and takes the name
    "Water". *)
Lemma add_water_cube_effect_witness :
  add_water_cube (host := sample_host) (PyInt 100, PyInt 50, PyInt 2)
    scenario_state
  = (Ok 1%nat,
     set_bpy
       (set_materials [default_material; water_material "Water"]
          (set_active_object (Some 1%nat)
             (set_objects
                [with_obj_select false startup_cube;
                 water_cube (PyInt 100, PyInt 50, PyInt 2) 1]
                (bpy scenario_state)))) scenario_state).
Proof.
  rewrite (add_water_cube_effect (host := sample_host)
             (PyInt 100, PyInt 50, PyInt 2) scenario_state);
    [| vm_compute; reflexivity].
  vm_compute. reflexivity.
Defined.

(** With the hillshade in a name the host lists last, the layer goes to
    slot 2 of the ground material, on a texture "hsh" bound to the new
    image. *)
Lemma add_hillshade_layer_witness :
  fst (add_hillshade (host := sample_host) (rt := scenario_runtime)
         "img.tif" 1 shaded_state) = Ok tt /\
  option_map active_texture_index
    (materials (bpy (snd (add_hillshade (host := sample_host)
                            (rt := scenario_runtime) "img.tif" 1
                            shaded_state))) !! 1%nat) = Some 2%nat /\
  option_map (fun m => texture_slots m !! 2%nat)
    (materials (bpy (snd (add_hillshade (host := sample_host)
                            (rt := scenario_runtime) "img.tif" 1
                            shaded_state))) !! 1%nat)
  = Some (Some (Some (hillshade_slot 3))) /\
  textures (bpy (snd (add_hillshade (host := sample_host)
                        (rt := scenario_runtime) "img.tif" 1
                        shaded_state))) !! 3%nat
  = Some (hillshade_texture "hsh" 2) /\
  images (bpy (snd (add_hillshade (host := sample_host)
                      (rt := scenario_runtime) "img.tif" 1
                      shaded_state))) !! 2%nat
  = Some (mk_image "img.tif.hillshade.png" "img.tif.hillshade.png"
            (200, 100)).
Proof.
  rewrite (add_hillshade_layer (host := sample_host) (rt := scenario_runtime)
             "img.tif" 1 shaded_state (200, 100)
             (ground_material "Ground" 1 2));
    [| vm_compute; reflexivity | vm_compute; reflexivity
     | vm_compute; reflexivity | vm_compute; reflexivity
     | vm_compute; reflexivity | reflexivity].
  split; [reflexivity|]. repeat split; vm_compute; reflexivity.
Defined.

Lemma add_hillshade_tool_failed_witness :
  add_hillshade (host := sample_host) (rt := scenario_runtime)
    "img.tif" 0 scenario_state
  = (Raise RuntimeError,
     after_command (gdaldem_command "img.tif") (disk scenario_state)
       scenario_state).
Proof.
  apply (add_hillshade_tool_failed (host := sample_host)
           (rt := scenario_runtime) "img.tif" 0 scenario_state 1 "ERROR");
    vm_compute; reflexivity.
Defined.

Lemma add_hillshade_after_tool_witness :
  add_hillshade (host := sample_host) (rt := scenario_runtime)
    "dem.tif" 0 scenario_state
  = add_hillshade (host := sample_host) (rt := scenario_runtime) "dem.tif" 0
      (after_command (gdaldem_command "dem.tif")
         (<[hillshade_path "dem.tif" := (200, 100)]> (disk scenario_state))
         scenario_state).
Proof.
  apply (add_hillshade_after_tool (host := sample_host)
           (rt := scenario_runtime) "dem.tif" 0 scenario_state 0 "").
  - vm_compute. reflexivity.
  - vm_compute. reflexivity.
  - rewrite lookup_insert_eq. eauto.
Defined.
